(** * URMSensor: the asynchronous ultrasonic-rangefinder driver

    A shallow embedding of the two revisions of the URMSensor Arduino
    library that come with an implementation, and the properties of
    their measurement state machine.

    - [Debug] embeds the revision that talks to the sensor through
      [digitalRead]/[digitalWrite] (the second revision in URMSensor.h
      with the first one in URMSensor.cpp).  It toggles the scope pins
      8, 11 and 12, tells attachment from the pin numbers, and has the
      echo pre-check of [startMeasure] commented out.
    - [Ports] embeds the revision that drives the AVR port registers
      directly (the header with [URM_USE_PORTS_DIRECTLY] and the second
      revision in URMSensor.cpp), with an [_isAttached] flag.

    (The oldest header, without [URMState], has no implementation in
    the sources and is not embedded.)

    Machine integers are [Z] with the wrap-around written out; the
    hardware (clock, input pins, port registers, the sequence of output
    operations) is an explicit [World] threaded through a state and
    fault monad. *)

From Stdlib Require Import ZArith List Bool Lia.
Import ListNotations.
Local Open Scope Z_scope.

(** ** Arduino.h constants *)

Definition HIGH : Z := 1.
Definition LOW : Z := 0.
Definition INPUT : Z := 0.
Definition OUTPUT : Z := 1.

(** ** Constants of URMSensor.h *)

Definition URM_INVALID_PIN : Z := 255.
Definition URM_INVALID_VALUE : Z := 4294967295.

Definition URM37_US_PER_CM : Z := 50.
Definition URM37_TRIG_ACTIVE_STATE : Z := LOW.
Definition URM37_ECHO_ACTIVE_STATE : Z := LOW.
Definition URM37_TRIG_PULSE_WIDTH : Z := 1.
Definition URM37_TIMEOUT_FOR_PULSE_START : Z := 50000.
Definition URM37_MAX_PULSE_WIDTH : Z := 45000.

Definition HC_SR04_US_PER_CM : Z := 61.
Definition HC_SR04_TRIG_ACTIVE_STATE : Z := HIGH.
Definition HC_SR04_ECHO_ACTIVE_STATE : Z := HIGH.
Definition HC_SR04_TRIG_PULSE_WIDTH : Z := 10.
Definition HC_SR04_TIMEOUT_FOR_PULSE_START : Z := 10000.
Definition HC_SR04_MAX_PULSE_WIDTH : Z := HC_SR04_US_PER_CM * 450.

(** [enum URMState]; the field [_currentState] is a [byte], and the
    constructor does not initialise it, so it is kept as a number. *)

Definition Idle : Z := 0.
Definition WaitingForPulse : Z := 1.
Definition Measuring : Z := 2.
Definition FinishedMeasure : Z := 3.

(** ** Machine integers (AVR: 8-bit byte, 16-bit int, 32-bit long) *)

Definition to_byte (x : Z) : Z := x mod 256.
Definition to_uint (x : Z) : Z := x mod 65536.
Definition to_ulong (x : Z) : Z := x mod 4294967296.
Definition to_int (x : Z) : Z := (x + 32768) mod 65536 - 32768.

(** ** The hardware *)

(** What the driver does to the outside, in program order. *)
Inductive Event : Type :=
| DigitalWrite (pin value : Z)
| PinMode (pin mode : Z)
| DelayMicroseconds (us : Z)
| RegWrite (addr value : Z).

(** [micros_at n] is what the [n]-th call of [micros()] returns and
    [input_at n a] what the [n]-th sampling of an input (pin [a] for
    [digitalRead], input register [a] for a direct port read) observes;
    [regs] holds the output and direction registers; [trace] lists the
    output operations, latest first. *)
Record World : Type := mkWorld {
  micros_at : nat -> Z;
  micros_calls : nat;
  input_at : nat -> Z -> Z;
  input_reads : nat;
  regs : Z -> Z;
  trace : list Event
}.

Definition tick (w : World) : World :=
  mkWorld (micros_at w) (S (micros_calls w)) (input_at w) (input_reads w)
          (regs w) (trace w).

Definition sampled (w : World) : World :=
  mkWorld (micros_at w) (micros_calls w) (input_at w) (S (input_reads w))
          (regs w) (trace w).

Definition emit (e : Event) (w : World) : World :=
  mkWorld (micros_at w) (micros_calls w) (input_at w) (input_reads w)
          (regs w) (e :: trace w).

Definition store (addr value : Z) (w : World) : World :=
  mkWorld (micros_at w) (micros_calls w) (input_at w) (input_reads w)
          (fun a => if a =? addr then value else regs w a)
          (RegWrite addr value :: trace w).

(** ** State and fault monad over the object and the hardware *)

Inductive Fault : Type :=
| DivisionByZero
| UninitializedRead
| OutOfFuel.

Inductive Outcome (S A : Type) : Type :=
| Done (a : A) (s : S) (w : World)
| Abort (f : Fault).

Arguments Done {S A} a s w.
Arguments Abort {S A} f.

Definition M (S A : Type) : Type := S -> World -> Outcome S A.

Definition ret {S A} (a : A) : M S A := fun s w => Done a s w.

Definition bind {S A B} (m : M S A) (k : A -> M S B) : M S B :=
  fun s w =>
    match m s w with
    | Done a s' w' => k a s' w'
    | Abort f => Abort f
    end.

Definition fail {S A} (f : Fault) : M S A := fun _ _ => Abort f.

Definition gets {S A} (f : S -> A) : M S A := fun s w => Done (f s) s w.

Definition modify {S} (f : S -> S) : M S unit := fun s w => Done tt (f s) w.

Definition act {S} (f : World -> World) : M S unit :=
  fun s w => Done tt s (f w).

Notation "x <- m ;; k" := (bind m (fun x => k))
  (at level 61, m at next level, right associativity).
Notation "m ;; k" := (bind m (fun _ => k))
  (at level 61, right associativity).

(** *** Arduino core operations *)

Definition micros {S} : M S Z :=
  fun s w => Done (to_ulong (micros_at w (micros_calls w))) s (tick w).

Definition digitalRead {S} (pin : Z) : M S Z :=
  fun s w =>
    Done (if input_at w (input_reads w) pin =? 0 then LOW else HIGH)
         s (sampled w).

Definition digitalWrite {S} (pin value : Z) : M S unit :=
  act (emit (DigitalWrite pin value)).

Definition pinMode {S} (pin mode : Z) : M S unit :=
  act (emit (PinMode pin mode)).

Definition delayMicroseconds {S} (us : Z) : M S unit :=
  act (emit (DelayMicroseconds us)).

(** Volatile accesses through a register pointer: an input register is
    sampled from the outside, an output or direction register holds what
    was last stored. *)
Definition readInputReg {S} (addr : Z) : M S Z :=
  fun s w => Done (to_byte (input_at w (input_reads w) addr)) s (sampled w).

Definition readReg {S} (addr : Z) : M S Z :=
  fun s w => Done (to_byte (regs w addr)) s w.

Definition writeReg {S} (addr value : Z) : M S unit :=
  act (store addr (to_byte value)).

(** The board's pin tables ([digitalPinToBitMask] and friends are macros
    of the Arduino core, one set per board). *)
Class ArduinoCore : Type := {
  digitalPinToBitMask : Z -> Z;
  digitalPinToPort : Z -> Z;
  portOutputRegister : Z -> Z;
  portInputRegister : Z -> Z;
  portModeRegister : Z -> Z
}.

(** The ATmega328P tables of the Arduino Uno: pins 0-7 on port D, 8-13 on
    port B, 14-19 on port C. *)
Definition uno_port (pin : Z) : Z :=
  if pin <? 8 then 4 else if pin <? 14 then 2 else 3.

Definition uno_bit (pin : Z) : Z :=
  if pin <? 8 then pin else if pin <? 14 then pin - 8 else pin - 14.

Definition uno : ArduinoCore := {|
  digitalPinToBitMask := fun pin => Z.shiftl 1 (uno_bit pin);
  digitalPinToPort := uno_port;
  portOutputRegister :=
    fun p => if p =? 2 then 37 else if p =? 3 then 40 else 43;
  portInputRegister :=
    fun p => if p =? 2 then 35 else if p =? 3 then 38 else 41;
  portModeRegister :=
    fun p => if p =? 2 then 36 else if p =? 3 then 39 else 42
|}.

(** ** What the next operations will observe *)

(** The value of the [k]-th next call of [micros()]. *)
Definition clock (w : World) (k : nat) : Z :=
  to_ulong (micros_at w (k + micros_calls w)).

(** [w'] is [w] after [reads] input samplings and [ticks] clock readings
    (and any number of output operations). *)
Definition advanced (reads ticks : nat) (w w' : World) : Prop :=
  micros_at w' = micros_at w /\ input_at w' = input_at w /\
  micros_calls w' = (ticks + micros_calls w)%nat /\
  input_reads w' = (reads + input_reads w)%nat.

(** ** The synchronous facade as the specification words it

    [measure()]: call [start()], call [finishedMeasure()] until it
    returns true, return [measuredDistance()]. *)
Section Facade.

Context {S : Type}.
Variable start : M S unit.
Variable finished : M S bool.
Variable measuredDistance : M S Z.

Fixpoint spin (fuel : nat) : M S unit :=
  match fuel with
  | O => fail OutOfFuel
  | Datatypes.S fuel' =>
      done <- finished;;
      if done then ret tt else spin fuel'
  end.

Definition measure_spec (fuel : nat) : M S Z :=
  start;;
  spin fuel;;
  measuredDistance.

End Facade.

(** * The digitalRead/digitalWrite revision *)

Module Debug.

Record URMSensor : Type := mkURMSensor {
  _trigPin : Z;
  _echoPin : Z;
  _usPerCm : Z;
  _timeoutForPulseStart : Z;
  _maxPulseDuration : Z;
  _trigActiveState : Z;
  _echoActiveState : Z;
  _trigPulseWidth : Z;
  _startMeasureTime : Z;
  _currentDuration : Z;
  _currentState : Z
}.

Definition set_trigPin (v : Z) (s : URMSensor) : URMSensor :=
  mkURMSensor v (_echoPin s) (_usPerCm s) (_timeoutForPulseStart s)
    (_maxPulseDuration s) (_trigActiveState s) (_echoActiveState s)
    (_trigPulseWidth s) (_startMeasureTime s) (_currentDuration s)
    (_currentState s).

Definition set_echoPin (v : Z) (s : URMSensor) : URMSensor :=
  mkURMSensor (_trigPin s) v (_usPerCm s) (_timeoutForPulseStart s)
    (_maxPulseDuration s) (_trigActiveState s) (_echoActiveState s)
    (_trigPulseWidth s) (_startMeasureTime s) (_currentDuration s)
    (_currentState s).

Definition set_usPerCm (v : Z) (s : URMSensor) : URMSensor :=
  mkURMSensor (_trigPin s) (_echoPin s) v (_timeoutForPulseStart s)
    (_maxPulseDuration s) (_trigActiveState s) (_echoActiveState s)
    (_trigPulseWidth s) (_startMeasureTime s) (_currentDuration s)
    (_currentState s).

Definition set_timeoutForPulseStart (v : Z) (s : URMSensor) : URMSensor :=
  mkURMSensor (_trigPin s) (_echoPin s) (_usPerCm s) v (_maxPulseDuration s)
    (_trigActiveState s) (_echoActiveState s) (_trigPulseWidth s)
    (_startMeasureTime s) (_currentDuration s) (_currentState s).

Definition set_maxPulseDuration (v : Z) (s : URMSensor) : URMSensor :=
  mkURMSensor (_trigPin s) (_echoPin s) (_usPerCm s)
    (_timeoutForPulseStart s) v (_trigActiveState s) (_echoActiveState s)
    (_trigPulseWidth s) (_startMeasureTime s) (_currentDuration s)
    (_currentState s).

Definition set_trigActiveState (v : Z) (s : URMSensor) : URMSensor :=
  mkURMSensor (_trigPin s) (_echoPin s) (_usPerCm s)
    (_timeoutForPulseStart s) (_maxPulseDuration s) v (_echoActiveState s)
    (_trigPulseWidth s) (_startMeasureTime s) (_currentDuration s)
    (_currentState s).

Definition set_echoActiveState (v : Z) (s : URMSensor) : URMSensor :=
  mkURMSensor (_trigPin s) (_echoPin s) (_usPerCm s)
    (_timeoutForPulseStart s) (_maxPulseDuration s) (_trigActiveState s) v
    (_trigPulseWidth s) (_startMeasureTime s) (_currentDuration s)
    (_currentState s).

Definition set_trigPulseWidth (v : Z) (s : URMSensor) : URMSensor :=
  mkURMSensor (_trigPin s) (_echoPin s) (_usPerCm s)
    (_timeoutForPulseStart s) (_maxPulseDuration s) (_trigActiveState s)
    (_echoActiveState s) v (_startMeasureTime s) (_currentDuration s)
    (_currentState s).

Definition set_startMeasureTime (v : Z) (s : URMSensor) : URMSensor :=
  mkURMSensor (_trigPin s) (_echoPin s) (_usPerCm s)
    (_timeoutForPulseStart s) (_maxPulseDuration s) (_trigActiveState s)
    (_echoActiveState s) (_trigPulseWidth s) v (_currentDuration s)
    (_currentState s).

Definition set_currentDuration (v : Z) (s : URMSensor) : URMSensor :=
  mkURMSensor (_trigPin s) (_echoPin s) (_usPerCm s)
    (_timeoutForPulseStart s) (_maxPulseDuration s) (_trigActiveState s)
    (_echoActiveState s) (_trigPulseWidth s) (_startMeasureTime s) v
    (_currentState s).

Definition set_currentState (v : Z) (s : URMSensor) : URMSensor :=
  mkURMSensor (_trigPin s) (_echoPin s) (_usPerCm s)
    (_timeoutForPulseStart s) (_maxPulseDuration s) (_trigActiveState s)
    (_echoActiveState s) (_trigPulseWidth s) (_startMeasureTime s)
    (_currentDuration s) v.

(** The constructor: only the two pins are initialised, every other
    field starts with whatever the memory holds. *)
Definition URMSensor_new (garbage : URMSensor) : URMSensor :=
  set_echoPin URM_INVALID_PIN (set_trigPin URM_INVALID_PIN garbage).

Definition attach
  (trigPin echoPin usPerCm timeoutForPulseStart maxPulseDuration
   trigActiveState echoActiveState trigPulseWidth : Z) : M URMSensor unit :=
  modify (set_trigPin (to_byte trigPin));;
  modify (set_echoPin (to_byte echoPin));;
  pinMode (to_byte trigPin) OUTPUT;;
  pinMode (to_byte echoPin) INPUT;;
  modify (set_usPerCm (to_int usPerCm));;
  modify (set_timeoutForPulseStart (to_ulong timeoutForPulseStart));;
  modify (set_maxPulseDuration (to_ulong maxPulseDuration));;
  modify (set_trigActiveState (to_byte trigActiveState));;
  modify (set_echoActiveState (to_byte echoActiveState));;
  modify (set_trigPulseWidth (to_uint trigPulseWidth)).

Definition detach : M URMSensor unit :=
  modify (set_trigPin URM_INVALID_PIN);;
  modify (set_echoPin URM_INVALID_PIN).

Definition isAttached : M URMSensor bool :=
  trigPin <- gets _trigPin;;
  echoPin <- gets _echoPin;;
  ret (negb (trigPin =? URM_INVALID_PIN) && negb (echoPin =? URM_INVALID_PIN)).

Definition getState : M URMSensor Z := gets _currentState.

Definition getOppositeStateFor (activeState : Z) : Z :=
  if activeState =? HIGH then LOW else HIGH.

Definition resetTime : M URMSensor unit :=
  modify (set_currentDuration 0);;
  now <- micros;;
  modify (set_startMeasureTime now).

Definition getCurrentDuration : M URMSensor Z :=
  now <- micros;;
  start <- gets _startMeasureTime;;
  modify (set_currentDuration (to_ulong (now - start)));;
  gets _currentDuration.

(** [_currentDuration / _usPerCm]: the [int] divisor is converted to
    [unsigned long]; dividing by zero is undefined. *)
Definition convertCurrentDurationToDistance : M URMSensor Z :=
  duration <- gets _currentDuration;;
  usPerCm <- gets _usPerCm;;
  if to_ulong usPerCm =? 0 then fail DivisionByZero
  else ret (duration / to_ulong usPerCm).

Definition isMeasuring : M URMSensor bool :=
  st <- gets _currentState;;
  ret ((st =? WaitingForPulse) || (st =? Measuring)).

Definition interruptMeasure : M URMSensor unit :=
  modify (set_currentState Idle).

Definition refreshState : M URMSensor unit :=
  digitalWrite 12 HIGH;;
  echoPin <- gets _echoPin;;
  echoState <- digitalRead echoPin;;
  st <- gets _currentState;;
  (if st =? WaitingForPulse then
     duration <- getCurrentDuration;;
     timeout <- gets _timeoutForPulseStart;;
     active <- gets _echoActiveState;;
     if (duration >? timeout) && negb (echoState =? active) then
       modify (set_currentState Idle);;
       digitalWrite 8 HIGH
     else if echoState =? active then
       modify (set_currentState Measuring);;
       resetTime;;
       digitalWrite 11 active
     else ret tt
   else if st =? Measuring then
     duration <- getCurrentDuration;;
     maxPulse <- gets _maxPulseDuration;;
     active <- gets _echoActiveState;;
     if (duration >? maxPulse) && (echoState =? active) then
       modify (set_currentState Idle);;
       digitalWrite 8 HIGH
     else if negb (echoState =? active) then
       modify (set_currentState FinishedMeasure);;
       digitalWrite 11 (getOppositeStateFor active)
     else ret tt
   else ret tt);;
  digitalWrite 12 LOW.

(** The echo pre-check of this revision is commented out in the source:
    only the attachment is tested. *)
Definition startMeasure : M URMSensor unit :=
  st <- gets _currentState;;
  if (st =? WaitingForPulse) || (st =? Measuring) then ret tt
  else
    attached <- isAttached;;
    if negb attached then modify (set_currentState Idle)
    else
      modify (set_currentState WaitingForPulse);;
      trigPin <- gets _trigPin;;
      trigActive <- gets _trigActiveState;;
      width <- gets _trigPulseWidth;;
      echoActive <- gets _echoActiveState;;
      digitalWrite trigPin trigActive;;
      delayMicroseconds width;;
      digitalWrite trigPin (getOppositeStateFor trigActive);;
      digitalWrite 11 (getOppositeStateFor echoActive);;
      digitalWrite 8 LOW;;
      resetTime;;
      refreshState.

Definition getMeasuredDistance : M URMSensor Z :=
  st <- gets _currentState;;
  if negb (st =? FinishedMeasure) then ret URM_INVALID_VALUE
  else convertCurrentDurationToDistance.

(** [finishedMeasure(unsigned long* distance)]: [distance] is what the
    pointed variable holds on entry ([None] when it was never assigned);
    the result pairs the returned flag with what it holds on exit. *)
Definition finishedMeasure (distance : option Z)
  : M URMSensor (bool * option Z) :=
  attached <- isAttached;;
  if negb attached then
    modify (set_currentState Idle);;
    ret (true, Some URM_INVALID_VALUE)
  else
    refreshState;;
    measuring <- isMeasuring;;
    if measuring then ret (false, distance)
    else
      d <- getMeasuredDistance;;
      ret (true, Some d).

(** [while (!finishedMeasure(&distance)) ;] with a bound on the number
    of iterations. *)
Fixpoint waitFinished (fuel : nat) (distance : option Z)
  : M URMSensor (option Z) :=
  match fuel with
  | O => fail OutOfFuel
  | S fuel' =>
      r <- finishedMeasure distance;;
      if fst r then ret (snd r) else waitFinished fuel' (snd r)
  end.

Definition measureDistance (fuel : nat) : M URMSensor Z :=
  startMeasure;;
  distance <- waitFinished fuel None;;
  match distance with
  | Some d => ret d
  | None => fail UninitializedRead
  end.

(** [URM37::attach] and [SR04::attach]. *)
Definition URM37_attach (trigPin pwmPin : Z) : M URMSensor unit :=
  attach trigPin pwmPin URM37_US_PER_CM URM37_TIMEOUT_FOR_PULSE_START
    URM37_MAX_PULSE_WIDTH URM37_TRIG_ACTIVE_STATE URM37_ECHO_ACTIVE_STATE
    URM37_TRIG_PULSE_WIDTH.

Definition SR04_attach (trigPin echoPin : Z) : M URMSensor unit :=
  attach trigPin echoPin HC_SR04_US_PER_CM HC_SR04_TIMEOUT_FOR_PULSE_START
    HC_SR04_MAX_PULSE_WIDTH HC_SR04_TRIG_ACTIVE_STATE HC_SR04_ECHO_ACTIVE_STATE
    HC_SR04_TRIG_PULSE_WIDTH.

(** What the [k]-th next sampling of the echo pin reads, and the
    duration the next [getCurrentDuration()] computes. *)
Definition echoLine (s : URMSensor) (w : World) (k : nat) : Z :=
  if input_at w (k + input_reads w) (_echoPin s) =? 0 then LOW else HIGH.

Definition elapsed (s : URMSensor) (w : World) : Z :=
  to_ulong (clock w 0 - _startMeasureTime s).

(** The object without the three fields a measurement writes. *)
Definition static (s : URMSensor) : URMSensor :=
  set_currentState 0 (set_currentDuration 0 (set_startMeasureTime 0 s)).

(** The asynchronous completion query, for a caller that does not use
    the distance it stores. *)
Definition finished : M URMSensor bool :=
  r <- finishedMeasure None;;
  ret (fst r).

(** An echo that starts after [k] polls (the one of [startMeasure]
    included), each within the start timeout, stays active for [m]
    further polls, each within the maximal pulse width, and is over at
    the next poll. *)
Definition wellBehavedEcho (s : URMSensor) (w : World) (k m : nat) : Prop :=
  (forall i, (i < k)%nat ->
     echoLine s w i <> _echoActiveState s /\
     to_ulong (clock w (1 + i) - clock w 0) <= _timeoutForPulseStart s) /\
  echoLine s w k = _echoActiveState s /\
  (forall j, (j < m)%nat ->
     echoLine s w (1 + k + j) = _echoActiveState s /\
     to_ulong (clock w (3 + k + j) - clock w (2 + k)) <= _maxPulseDuration s) /\
  echoLine s w (1 + k + m) <> _echoActiveState s.

(** The pulse width such an echo is measured with. *)
Definition pulseWidth (w : World) (k m : nat) : Z :=
  to_ulong (clock w (3 + k + m) - clock w (2 + k)).

End Debug.

(** * The port-register revision ([URM_USE_PORTS_DIRECTLY]) *)

Module Ports.

Record URMSensor : Type := mkURMSensor {
  _isAttached : bool;
  _trigMask : Z;
  _trigPORT : Z;
  _trigPIN : Z;
  _trigDDR : Z;
  _echoMask : Z;
  _echoPORT : Z;
  _echoPIN : Z;
  _echoDDR : Z;
  _usPerCm : Z;
  _timeoutForPulseStart : Z;
  _maxPulseDuration : Z;
  _trigActiveState : Z;
  _echoActiveState : Z;
  _trigPulseWidth : Z;
  _startMeasureTime : Z;
  _currentDuration : Z;
  _currentState : Z
}.

Definition set_isAttached (v : bool) (s : URMSensor) : URMSensor :=
  mkURMSensor v (_trigMask s) (_trigPORT s) (_trigPIN s) (_trigDDR s)
    (_echoMask s) (_echoPORT s) (_echoPIN s) (_echoDDR s) (_usPerCm s)
    (_timeoutForPulseStart s) (_maxPulseDuration s) (_trigActiveState s)
    (_echoActiveState s) (_trigPulseWidth s) (_startMeasureTime s)
    (_currentDuration s) (_currentState s).

Definition set_trigMask (v : Z) (s : URMSensor) : URMSensor :=
  mkURMSensor (_isAttached s) v (_trigPORT s) (_trigPIN s) (_trigDDR s)
    (_echoMask s) (_echoPORT s) (_echoPIN s) (_echoDDR s) (_usPerCm s)
    (_timeoutForPulseStart s) (_maxPulseDuration s) (_trigActiveState s)
    (_echoActiveState s) (_trigPulseWidth s) (_startMeasureTime s)
    (_currentDuration s) (_currentState s).

Definition set_trigPORT (v : Z) (s : URMSensor) : URMSensor :=
  mkURMSensor (_isAttached s) (_trigMask s) v (_trigPIN s) (_trigDDR s)
    (_echoMask s) (_echoPORT s) (_echoPIN s) (_echoDDR s) (_usPerCm s)
    (_timeoutForPulseStart s) (_maxPulseDuration s) (_trigActiveState s)
    (_echoActiveState s) (_trigPulseWidth s) (_startMeasureTime s)
    (_currentDuration s) (_currentState s).

Definition set_trigPIN (v : Z) (s : URMSensor) : URMSensor :=
  mkURMSensor (_isAttached s) (_trigMask s) (_trigPORT s) v (_trigDDR s)
    (_echoMask s) (_echoPORT s) (_echoPIN s) (_echoDDR s) (_usPerCm s)
    (_timeoutForPulseStart s) (_maxPulseDuration s) (_trigActiveState s)
    (_echoActiveState s) (_trigPulseWidth s) (_startMeasureTime s)
    (_currentDuration s) (_currentState s).

Definition set_trigDDR (v : Z) (s : URMSensor) : URMSensor :=
  mkURMSensor (_isAttached s) (_trigMask s) (_trigPORT s) (_trigPIN s) v
    (_echoMask s) (_echoPORT s) (_echoPIN s) (_echoDDR s) (_usPerCm s)
    (_timeoutForPulseStart s) (_maxPulseDuration s) (_trigActiveState s)
    (_echoActiveState s) (_trigPulseWidth s) (_startMeasureTime s)
    (_currentDuration s) (_currentState s).

Definition set_echoMask (v : Z) (s : URMSensor) : URMSensor :=
  mkURMSensor (_isAttached s) (_trigMask s) (_trigPORT s) (_trigPIN s)
    (_trigDDR s) v (_echoPORT s) (_echoPIN s) (_echoDDR s) (_usPerCm s)
    (_timeoutForPulseStart s) (_maxPulseDuration s) (_trigActiveState s)
    (_echoActiveState s) (_trigPulseWidth s) (_startMeasureTime s)
    (_currentDuration s) (_currentState s).

Definition set_echoPORT (v : Z) (s : URMSensor) : URMSensor :=
  mkURMSensor (_isAttached s) (_trigMask s) (_trigPORT s) (_trigPIN s)
    (_trigDDR s) (_echoMask s) v (_echoPIN s) (_echoDDR s) (_usPerCm s)
    (_timeoutForPulseStart s) (_maxPulseDuration s) (_trigActiveState s)
    (_echoActiveState s) (_trigPulseWidth s) (_startMeasureTime s)
    (_currentDuration s) (_currentState s).

Definition set_echoPIN (v : Z) (s : URMSensor) : URMSensor :=
  mkURMSensor (_isAttached s) (_trigMask s) (_trigPORT s) (_trigPIN s)
    (_trigDDR s) (_echoMask s) (_echoPORT s) v (_echoDDR s) (_usPerCm s)
    (_timeoutForPulseStart s) (_maxPulseDuration s) (_trigActiveState s)
    (_echoActiveState s) (_trigPulseWidth s) (_startMeasureTime s)
    (_currentDuration s) (_currentState s).

Definition set_echoDDR (v : Z) (s : URMSensor) : URMSensor :=
  mkURMSensor (_isAttached s) (_trigMask s) (_trigPORT s) (_trigPIN s)
    (_trigDDR s) (_echoMask s) (_echoPORT s) (_echoPIN s) v (_usPerCm s)
    (_timeoutForPulseStart s) (_maxPulseDuration s) (_trigActiveState s)
    (_echoActiveState s) (_trigPulseWidth s) (_startMeasureTime s)
    (_currentDuration s) (_currentState s).

Definition set_usPerCm (v : Z) (s : URMSensor) : URMSensor :=
  mkURMSensor (_isAttached s) (_trigMask s) (_trigPORT s) (_trigPIN s)
    (_trigDDR s) (_echoMask s) (_echoPORT s) (_echoPIN s) (_echoDDR s) v
    (_timeoutForPulseStart s) (_maxPulseDuration s) (_trigActiveState s)
    (_echoActiveState s) (_trigPulseWidth s) (_startMeasureTime s)
    (_currentDuration s) (_currentState s).

Definition set_timeoutForPulseStart (v : Z) (s : URMSensor) : URMSensor :=
  mkURMSensor (_isAttached s) (_trigMask s) (_trigPORT s) (_trigPIN s)
    (_trigDDR s) (_echoMask s) (_echoPORT s) (_echoPIN s) (_echoDDR s)
    (_usPerCm s) v (_maxPulseDuration s) (_trigActiveState s)
    (_echoActiveState s) (_trigPulseWidth s) (_startMeasureTime s)
    (_currentDuration s) (_currentState s).

Definition set_maxPulseDuration (v : Z) (s : URMSensor) : URMSensor :=
  mkURMSensor (_isAttached s) (_trigMask s) (_trigPORT s) (_trigPIN s)
    (_trigDDR s) (_echoMask s) (_echoPORT s) (_echoPIN s) (_echoDDR s)
    (_usPerCm s) (_timeoutForPulseStart s) v (_trigActiveState s)
    (_echoActiveState s) (_trigPulseWidth s) (_startMeasureTime s)
    (_currentDuration s) (_currentState s).

Definition set_trigActiveState (v : Z) (s : URMSensor) : URMSensor :=
  mkURMSensor (_isAttached s) (_trigMask s) (_trigPORT s) (_trigPIN s)
    (_trigDDR s) (_echoMask s) (_echoPORT s) (_echoPIN s) (_echoDDR s)
    (_usPerCm s) (_timeoutForPulseStart s) (_maxPulseDuration s) v
    (_echoActiveState s) (_trigPulseWidth s) (_startMeasureTime s)
    (_currentDuration s) (_currentState s).

Definition set_echoActiveState (v : Z) (s : URMSensor) : URMSensor :=
  mkURMSensor (_isAttached s) (_trigMask s) (_trigPORT s) (_trigPIN s)
    (_trigDDR s) (_echoMask s) (_echoPORT s) (_echoPIN s) (_echoDDR s)
    (_usPerCm s) (_timeoutForPulseStart s) (_maxPulseDuration s)
    (_trigActiveState s) v (_trigPulseWidth s) (_startMeasureTime s)
    (_currentDuration s) (_currentState s).

Definition set_trigPulseWidth (v : Z) (s : URMSensor) : URMSensor :=
  mkURMSensor (_isAttached s) (_trigMask s) (_trigPORT s) (_trigPIN s)
    (_trigDDR s) (_echoMask s) (_echoPORT s) (_echoPIN s) (_echoDDR s)
    (_usPerCm s) (_timeoutForPulseStart s) (_maxPulseDuration s)
    (_trigActiveState s) (_echoActiveState s) v (_startMeasureTime s)
    (_currentDuration s) (_currentState s).

Definition set_startMeasureTime (v : Z) (s : URMSensor) : URMSensor :=
  mkURMSensor (_isAttached s) (_trigMask s) (_trigPORT s) (_trigPIN s)
    (_trigDDR s) (_echoMask s) (_echoPORT s) (_echoPIN s) (_echoDDR s)
    (_usPerCm s) (_timeoutForPulseStart s) (_maxPulseDuration s)
    (_trigActiveState s) (_echoActiveState s) (_trigPulseWidth s) v
    (_currentDuration s) (_currentState s).

Definition set_currentDuration (v : Z) (s : URMSensor) : URMSensor :=
  mkURMSensor (_isAttached s) (_trigMask s) (_trigPORT s) (_trigPIN s)
    (_trigDDR s) (_echoMask s) (_echoPORT s) (_echoPIN s) (_echoDDR s)
    (_usPerCm s) (_timeoutForPulseStart s) (_maxPulseDuration s)
    (_trigActiveState s) (_echoActiveState s) (_trigPulseWidth s)
    (_startMeasureTime s) v (_currentState s).

Definition set_currentState (v : Z) (s : URMSensor) : URMSensor :=
  mkURMSensor (_isAttached s) (_trigMask s) (_trigPORT s) (_trigPIN s)
    (_trigDDR s) (_echoMask s) (_echoPORT s) (_echoPIN s) (_echoDDR s)
    (_usPerCm s) (_timeoutForPulseStart s) (_maxPulseDuration s)
    (_trigActiveState s) (_echoActiveState s) (_trigPulseWidth s)
    (_startMeasureTime s) (_currentDuration s) v.

(** The constructor: only [_isAttached] is initialised. *)
Definition URMSensor_new (garbage : URMSensor) : URMSensor :=
  set_isAttached false garbage.

(** [*reg |= mask] and [*reg &= ~mask] on a volatile register. *)
Definition setBits (reg mask : Z) : M URMSensor unit :=
  old <- readReg reg;;
  writeReg reg (Z.lor old mask).

Definition clearBits (reg mask : Z) : M URMSensor unit :=
  old <- readReg reg;;
  writeReg reg (Z.land old (Z.lnot mask)).

Definition setTrigMode (newMode : Z) : M URMSensor unit :=
  ddr <- gets _trigDDR;;
  mask <- gets _trigMask;;
  if newMode =? OUTPUT then setBits ddr mask else clearBits ddr mask.

Definition setTrigPin `{ArduinoCore} (trigPin : Z) : M URMSensor unit :=
  modify (set_trigMask (to_byte (digitalPinToBitMask trigPin)));;
  let trigPortIndex := to_byte (digitalPinToPort trigPin) in
  modify (set_trigPORT (portOutputRegister trigPortIndex));;
  modify (set_trigPIN (portInputRegister trigPortIndex));;
  modify (set_trigDDR (portModeRegister trigPortIndex));;
  setTrigMode OUTPUT.

Definition fastDigitalWriteTrig (value : Z) : M URMSensor unit :=
  port <- gets _trigPORT;;
  mask <- gets _trigMask;;
  if value =? HIGH then setBits port mask else clearBits port mask.

(** [fastDigitalReadTrig] with [URM_USE_PORTS_DIRECTLY]: the function
    returns from inside the [#ifdef] branch, so the statements after it
    (the ones that would make the pin an output again) are never
    reached. *)
Definition fastDigitalReadTrig : M URMSensor Z :=
  setTrigMode INPUT;;
  pin <- gets _trigPIN;;
  mask <- gets _trigMask;;
  value <- readInputReg pin;;
  ret (if negb (Z.land value mask =? 0) then HIGH else LOW).

Definition setEchoPin `{ArduinoCore} (echoPin : Z) : M URMSensor unit :=
  modify (set_echoMask (to_byte (digitalPinToBitMask echoPin)));;
  let echoPortIndex := to_byte (digitalPinToPort echoPin) in
  modify (set_echoPORT (portOutputRegister echoPortIndex));;
  modify (set_echoPIN (portInputRegister echoPortIndex));;
  modify (set_echoDDR (portModeRegister echoPortIndex));;
  ddr <- gets _echoDDR;;
  mask <- gets _echoMask;;
  clearBits ddr mask;;
  port <- gets _echoPORT;;
  clearBits port mask.

Definition fastDigitalReadEcho : M URMSensor Z :=
  pin <- gets _echoPIN;;
  mask <- gets _echoMask;;
  value <- readInputReg pin;;
  ret (if negb (Z.land value mask =? 0) then HIGH else LOW).

Definition attach `{ArduinoCore}
  (trigPin echoPin usPerCm timeoutForPulseStart maxPulseDuration
   trigActiveState echoActiveState trigPulseWidth : Z) : M URMSensor unit :=
  setTrigPin (to_byte trigPin);;
  setEchoPin (to_byte echoPin);;
  modify (set_usPerCm (to_int usPerCm));;
  modify (set_timeoutForPulseStart (to_ulong timeoutForPulseStart));;
  modify (set_maxPulseDuration (to_ulong maxPulseDuration));;
  modify (set_trigActiveState (to_byte trigActiveState));;
  modify (set_echoActiveState (to_byte echoActiveState));;
  modify (set_trigPulseWidth (to_uint trigPulseWidth));;
  modify (set_isAttached true).

Definition detach : M URMSensor unit :=
  modify (set_isAttached false).

Definition isAttached : M URMSensor bool := gets _isAttached.

Definition getState : M URMSensor Z := gets _currentState.

Definition getOppositeStateFor (activeState : Z) : Z :=
  if activeState =? HIGH then LOW else HIGH.

Definition resetTime : M URMSensor unit :=
  modify (set_currentDuration 0);;
  now <- micros;;
  modify (set_startMeasureTime now).

Definition getCurrentDuration : M URMSensor Z :=
  now <- micros;;
  start <- gets _startMeasureTime;;
  modify (set_currentDuration (to_ulong (now - start)));;
  gets _currentDuration.

(** [_currentDuration / _usPerCm]: the [int] divisor is converted to
    [unsigned long]; dividing by zero is undefined. *)
Definition convertCurrentDurationToDistance : M URMSensor Z :=
  duration <- gets _currentDuration;;
  usPerCm <- gets _usPerCm;;
  if to_ulong usPerCm =? 0 then fail DivisionByZero
  else ret (duration / to_ulong usPerCm).

Definition isMeasuring : M URMSensor bool :=
  st <- gets _currentState;;
  ret ((st =? WaitingForPulse) || (st =? Measuring)).

Definition interruptMeasure : M URMSensor unit :=
  modify (set_currentState Idle).

Definition refreshState : M URMSensor unit :=
  echoState <- fastDigitalReadEcho;;
  st <- gets _currentState;;
  if st =? WaitingForPulse then
    duration <- getCurrentDuration;;
    timeout <- gets _timeoutForPulseStart;;
    active <- gets _echoActiveState;;
    if (duration >? timeout) && negb (echoState =? active) then
      modify (set_currentState Idle)
    else if echoState =? active then
      modify (set_currentState Measuring);;
      resetTime
    else ret tt
  else if st =? Measuring then
    duration <- getCurrentDuration;;
    maxPulse <- gets _maxPulseDuration;;
    active <- gets _echoActiveState;;
    if (duration >? maxPulse) && (echoState =? active) then
      modify (set_currentState Idle)
    else if negb (echoState =? active) then
      modify (set_currentState FinishedMeasure)
    else ret tt
  else ret tt.

(** [!isAttached() || fastDigitalReadEcho() == _echoActiveState]: the
    echo line is sampled only when the handle is attached. *)
Definition startMeasure : M URMSensor unit :=
  st <- gets _currentState;;
  if (st =? WaitingForPulse) || (st =? Measuring) then ret tt
  else
    attached <- isAttached;;
    failed <-
      (if negb attached then ret true
       else
         echoState <- fastDigitalReadEcho;;
         active <- gets _echoActiveState;;
         ret (echoState =? active));;
    if failed then modify (set_currentState Idle)
    else
      modify (set_currentState WaitingForPulse);;
      trigActive <- gets _trigActiveState;;
      width <- gets _trigPulseWidth;;
      fastDigitalWriteTrig trigActive;;
      delayMicroseconds width;;
      fastDigitalWriteTrig (getOppositeStateFor trigActive);;
      resetTime;;
      refreshState.

Definition finishedMeasure : M URMSensor bool :=
  attached <- gets _isAttached;;
  if negb attached then
    modify (set_currentState Idle);;
    ret true
  else
    refreshState;;
    measuring <- isMeasuring;;
    ret (negb measuring).

Definition getMeasuredDistance : M URMSensor Z :=
  st <- gets _currentState;;
  if negb (st =? FinishedMeasure) then ret URM_INVALID_VALUE
  else convertCurrentDurationToDistance.

(** [while (!finishedMeasure()) ;] with a bound on the number of
    iterations. *)
Fixpoint waitFinished (fuel : nat) : M URMSensor unit :=
  match fuel with
  | O => fail OutOfFuel
  | S fuel' =>
      finished <- finishedMeasure;;
      if finished then ret tt else waitFinished fuel'
  end.

Definition measureDistance (fuel : nat) : M URMSensor Z :=
  startMeasure;;
  waitFinished fuel;;
  getMeasuredDistance.

(** [URM37::attach] and [HC_SR04::attach]. *)
Definition URM37_attach `{ArduinoCore} (trigPin pwmPin : Z)
  : M URMSensor unit :=
  attach trigPin pwmPin URM37_US_PER_CM URM37_TIMEOUT_FOR_PULSE_START
    URM37_MAX_PULSE_WIDTH URM37_TRIG_ACTIVE_STATE URM37_ECHO_ACTIVE_STATE
    URM37_TRIG_PULSE_WIDTH.

Definition HC_SR04_attach `{ArduinoCore} (trigPin echoPin : Z)
  : M URMSensor unit :=
  attach trigPin echoPin HC_SR04_US_PER_CM HC_SR04_TIMEOUT_FOR_PULSE_START
    HC_SR04_MAX_PULSE_WIDTH HC_SR04_TRIG_ACTIVE_STATE HC_SR04_ECHO_ACTIVE_STATE
    HC_SR04_TRIG_PULSE_WIDTH.

(** What the [k]-th next sampling of the echo line reads, and the
    duration the next [getCurrentDuration()] computes. *)
Definition echoLine (s : URMSensor) (w : World) (k : nat) : Z :=
  if negb (Z.land (to_byte (input_at w (k + input_reads w) (_echoPIN s)))
                  (_echoMask s) =? 0)
  then HIGH else LOW.

Definition elapsed (s : URMSensor) (w : World) : Z :=
  to_ulong (clock w 0 - _startMeasureTime s).

(** The object without the three fields a measurement writes. *)
Definition static (s : URMSensor) : URMSensor :=
  set_currentState 0 (set_currentDuration 0 (set_startMeasureTime 0 s)).

(** An echo that is idle at the pre-check of [startMeasure], starts
    after [k] polls (the one of [startMeasure] included), each within
    the start timeout, stays active for [m] further polls, each within
    the maximal pulse width, and is over at the next poll. *)
Definition wellBehavedEcho (s : URMSensor) (w : World) (k m : nat) : Prop :=
  echoLine s w 0 <> _echoActiveState s /\
  (forall i, (i < k)%nat ->
     echoLine s w (1 + i) <> _echoActiveState s /\
     to_ulong (clock w (1 + i) - clock w 0) <= _timeoutForPulseStart s) /\
  echoLine s w (1 + k) = _echoActiveState s /\
  (forall j, (j < m)%nat ->
     echoLine s w (2 + k + j) = _echoActiveState s /\
     to_ulong (clock w (3 + k + j) - clock w (2 + k)) <= _maxPulseDuration s) /\
  echoLine s w (2 + k + m) <> _echoActiveState s.

(** The pulse width such an echo is measured with. *)
Definition pulseWidth (w : World) (k m : nat) : Z :=
  to_ulong (clock w (3 + k + m) - clock w (2 + k)).

End Ports.

(** * The oldest header

    The first revision in URMSensor.h: pins and profile only (the
    methods it declares beside these have no body in the sources). *)

Module First.

Record URMSensor : Type := mkURMSensor {
  _trigPin : Z;
  _echoPin : Z;
  _usPerCm : Z;
  _timeoutForPulseStart : Z;
  _maxPulseDuration : Z;
  _startMeasureTime : Z;
  _currentDuration : Z;
  _isMeasuring : bool;
  _waitingForPulse : bool
}.

Definition set_trigPin (v : Z) (s : URMSensor) : URMSensor :=
  mkURMSensor v (_echoPin s) (_usPerCm s) (_timeoutForPulseStart s)
    (_maxPulseDuration s) (_startMeasureTime s) (_currentDuration s)
    (_isMeasuring s) (_waitingForPulse s).

Definition set_echoPin (v : Z) (s : URMSensor) : URMSensor :=
  mkURMSensor (_trigPin s) v (_usPerCm s) (_timeoutForPulseStart s)
    (_maxPulseDuration s) (_startMeasureTime s) (_currentDuration s)
    (_isMeasuring s) (_waitingForPulse s).

Definition set_usPerCm (v : Z) (s : URMSensor) : URMSensor :=
  mkURMSensor (_trigPin s) (_echoPin s) v (_timeoutForPulseStart s)
    (_maxPulseDuration s) (_startMeasureTime s) (_currentDuration s)
    (_isMeasuring s) (_waitingForPulse s).

Definition set_timeoutForPulseStart (v : Z) (s : URMSensor) : URMSensor :=
  mkURMSensor (_trigPin s) (_echoPin s) (_usPerCm s) v (_maxPulseDuration s)
    (_startMeasureTime s) (_currentDuration s) (_isMeasuring s)
    (_waitingForPulse s).

Definition set_maxPulseDuration (v : Z) (s : URMSensor) : URMSensor :=
  mkURMSensor (_trigPin s) (_echoPin s) (_usPerCm s)
    (_timeoutForPulseStart s) v (_startMeasureTime s) (_currentDuration s)
    (_isMeasuring s) (_waitingForPulse s).

Definition URMSensor_new (garbage : URMSensor) : URMSensor :=
  set_echoPin URM_INVALID_PIN (set_trigPin URM_INVALID_PIN garbage).

Definition attach
  (trigPin echoPin usPerCm timeoutForPulseStart maxPulseDuration : Z)
  : M URMSensor unit :=
  modify (set_trigPin (to_byte trigPin));;
  modify (set_echoPin (to_byte echoPin));;
  modify (set_usPerCm (to_int usPerCm));;
  modify (set_timeoutForPulseStart (to_ulong timeoutForPulseStart));;
  modify (set_maxPulseDuration (to_ulong maxPulseDuration)).

Definition detach : M URMSensor unit :=
  modify (set_trigPin URM_INVALID_PIN);;
  modify (set_echoPin URM_INVALID_PIN).

Definition isAttached : M URMSensor bool :=
  trigPin <- gets _trigPin;;
  echoPin <- gets _echoPin;;
  ret (negb (trigPin =? URM_INVALID_PIN) && negb (echoPin =? URM_INVALID_PIN)).

End First.

(** * The AsynchronousTest sketch

    The globals of the sketch, with the port-register sensor object
    among them.  The millisecond clock ([millis_at n] is what the [n]-th
    call of [millis()] returns) and what was sent to the serial terminal
    (latest first) are kept beside them.  [setup] and [blink], which
    wait for the serial port, are not embedded. *)

Module Sketch.

Definition URM_TRIG : Z := 9.
Definition URM_ECHO : Z := 10.
Definition LED : Z := 13.
Definition PWM_PERIOD_US : Z := 1024.
Definition LED_FADE_DELAY : Z := 2.
Definition MIN_PWM_RATE : Z := 0.
Definition MAX_PWM_RATE : Z := 255.

(** The two texts the sketch prints, and a number printed with
    [println]. *)
Inductive Message : Type :=
| FailedToReadDistance
| MeasuredDistance.

Inductive SerialOut : Type :=
| Print (text : Message)
| Println (number : Z).

Record Sketch : Type := mkSketch {
  sensor : Ports.URMSensor;
  lastMeasurementTime : Z;
  receivedDistanceIsActual : bool;
  lastPWMRateUpdateTime : Z;
  increasingPWMRate : bool;
  currentPWMRate : Z;
  currentPinState : Z;
  millis_at : nat -> Z;
  millis_calls : nat;
  terminal : list SerialOut
}.

Definition set_sensor (v : Ports.URMSensor) (s : Sketch) : Sketch :=
  mkSketch v (lastMeasurementTime s) (receivedDistanceIsActual s)
    (lastPWMRateUpdateTime s) (increasingPWMRate s) (currentPWMRate s)
    (currentPinState s) (millis_at s) (millis_calls s) (terminal s).

Definition set_lastMeasurementTime (v : Z) (s : Sketch) : Sketch :=
  mkSketch (sensor s) v (receivedDistanceIsActual s)
    (lastPWMRateUpdateTime s) (increasingPWMRate s) (currentPWMRate s)
    (currentPinState s) (millis_at s) (millis_calls s) (terminal s).

Definition set_receivedDistanceIsActual (v : bool) (s : Sketch) : Sketch :=
  mkSketch (sensor s) (lastMeasurementTime s) v (lastPWMRateUpdateTime s)
    (increasingPWMRate s) (currentPWMRate s) (currentPinState s)
    (millis_at s) (millis_calls s) (terminal s).

Definition set_lastPWMRateUpdateTime (v : Z) (s : Sketch) : Sketch :=
  mkSketch (sensor s) (lastMeasurementTime s) (receivedDistanceIsActual s) v
    (increasingPWMRate s) (currentPWMRate s) (currentPinState s)
    (millis_at s) (millis_calls s) (terminal s).

Definition set_increasingPWMRate (v : bool) (s : Sketch) : Sketch :=
  mkSketch (sensor s) (lastMeasurementTime s) (receivedDistanceIsActual s)
    (lastPWMRateUpdateTime s) v (currentPWMRate s) (currentPinState s)
    (millis_at s) (millis_calls s) (terminal s).

Definition set_currentPWMRate (v : Z) (s : Sketch) : Sketch :=
  mkSketch (sensor s) (lastMeasurementTime s) (receivedDistanceIsActual s)
    (lastPWMRateUpdateTime s) (increasingPWMRate s) v (currentPinState s)
    (millis_at s) (millis_calls s) (terminal s).

Definition set_currentPinState (v : Z) (s : Sketch) : Sketch :=
  mkSketch (sensor s) (lastMeasurementTime s) (receivedDistanceIsActual s)
    (lastPWMRateUpdateTime s) (increasingPWMRate s) (currentPWMRate s) v
    (millis_at s) (millis_calls s) (terminal s).

Definition set_millis_calls (v : nat) (s : Sketch) : Sketch :=
  mkSketch (sensor s) (lastMeasurementTime s) (receivedDistanceIsActual s)
    (lastPWMRateUpdateTime s) (increasingPWMRate s) (currentPWMRate s)
    (currentPinState s) (millis_at s) v (terminal s).

Definition set_terminal (v : (list SerialOut)) (s : Sketch) : Sketch :=
  mkSketch (sensor s) (lastMeasurementTime s) (receivedDistanceIsActual s)
    (lastPWMRateUpdateTime s) (increasingPWMRate s) (currentPWMRate s)
    (currentPinState s) (millis_at s) (millis_calls s) v.

Definition millis : M Sketch Z :=
  fun sk w =>
    Done (to_ulong (millis_at sk (millis_calls sk)))
         (set_millis_calls (S (millis_calls sk)) sk) w.

Definition serial (out : SerialOut) : M Sketch unit :=
  modify (fun sk => set_terminal (out :: terminal sk) sk).

(** A method call on the global [sensor]. *)
Definition onSensor {A : Type} (m : M Ports.URMSensor A) : M Sketch A :=
  fun sk w =>
    match m (sensor sk) w with
    | Done a s' w' => Done a (set_sensor s' sk) w'
    | Abort f => Abort f
    end.

Definition manageSensorStartup : M Sketch unit :=
  currentUptime <- millis;;
  last <- gets lastMeasurementTime;;
  let msSinceLastMeasurement := to_ulong (currentUptime - last) in
  if msSinceLastMeasurement <? 500 then ret tt
  else
    onSensor Ports.startMeasure;;
    modify (set_lastMeasurementTime currentUptime);;
    modify (set_receivedDistanceIsActual true).

Definition handleMeasurementResults : M Sketch unit :=
  finished <- onSensor Ports.finishedMeasure;;
  actual <- gets receivedDistanceIsActual;;
  if finished && actual then
    distance <- onSensor Ports.getMeasuredDistance;;
    (if distance =? URM_INVALID_VALUE then
       serial (Print FailedToReadDistance);;
       st <- onSensor Ports.getState;;
       serial (Println st)
     else
       serial (Print MeasuredDistance);;
       serial (Println distance));;
    modify (set_receivedDistanceIsActual false)
  else ret tt.

(** [int requiredPulseWidth = currentPWMRate * (PWM_PERIOD_US / 256);
    int currentTime = micros() % PWM_PERIOD_US;] *)
Definition managePWM : M Sketch unit :=
  rate <- gets currentPWMRate;;
  let requiredPulseWidth := to_int (rate * (PWM_PERIOD_US / 256)) in
  now <- micros;;
  let currentTime := to_int (now mod PWM_PERIOD_US) in
  pinState <- gets currentPinState;;
  if (currentTime >=? requiredPulseWidth) && (pinState =? HIGH) then
    modify (set_currentPinState LOW);;
    digitalWrite LED LOW
  else if (currentTime <? requiredPulseWidth) && (pinState =? LOW) then
    modify (set_currentPinState HIGH);;
    digitalWrite LED HIGH
  else ret tt.

Definition updatePWMRate : M Sketch unit :=
  currentTime <- millis;;
  last <- gets lastPWMRateUpdateTime;;
  if to_ulong (currentTime - last) <? LED_FADE_DELAY then ret tt
  else
    increasing <- gets increasingPWMRate;;
    (if increasing then
       rate <- gets currentPWMRate;;
       modify (set_currentPWMRate (to_byte (rate + 1)));;
       rate' <- gets currentPWMRate;;
       if rate' =? MAX_PWM_RATE then modify (set_increasingPWMRate false)
       else ret tt
     else
       rate <- gets currentPWMRate;;
       modify (set_currentPWMRate (to_byte (rate - 1)));;
       rate' <- gets currentPWMRate;;
       if rate' =? MIN_PWM_RATE then modify (set_increasingPWMRate true)
       else ret tt);;
    modify (set_lastPWMRateUpdateTime currentTime).

Definition loop : M Sketch unit :=
  manageSensorStartup;;
  handleMeasurementResults;;
  managePWM;;
  updatePWMRate.

(** The globals as their initialisers leave them, around a sensor
    object and a millisecond clock. *)
Definition initial (s : Ports.URMSensor) (time : nat -> Z) : Sketch :=
  mkSketch s 0 false 0 true 0 LOW time 0 [].

(** [n] calls of [m] in a row. *)
Fixpoint times {S : Type} (n : nat) (m : M S unit) : M S unit :=
  match n with
  | O => ret tt
  | Datatypes.S n' => m;; times n' m
  end.

End Sketch.

(** * Sample handles and simulated sensors *)

(** A URM37 attached to pins 9 and 10, as [URM37::attach] leaves it, in
    the given state of a measurement. *)
Definition debug_urm37 (state start duration : Z) : Debug.URMSensor :=
  Debug.mkURMSensor 9 10 URM37_US_PER_CM URM37_TIMEOUT_FOR_PULSE_START
    URM37_MAX_PULSE_WIDTH URM37_TRIG_ACTIVE_STATE URM37_ECHO_ACTIVE_STATE
    URM37_TRIG_PULSE_WIDTH start duration state.

(** The same on an Uno: pins 9 and 10 are bits 1 and 2 of port B. *)
Definition ports_urm37 (attached : bool) (state start duration : Z)
  : Ports.URMSensor :=
  Ports.mkURMSensor attached 2 37 35 36 4 37 35 36 URM37_US_PER_CM
    URM37_TIMEOUT_FOR_PULSE_START URM37_MAX_PULSE_WIDTH
    URM37_TRIG_ACTIVE_STATE URM37_ECHO_ACTIVE_STATE URM37_TRIG_PULSE_WIDTH
    start duration state.

(** A simulated board: [time n] is the [n]-th reading of the clock and
    [high n] tells whether every input line is high at the [n]-th
    sampling. *)
Definition sim (time : nat -> Z) (high : nat -> bool) : World :=
  mkWorld time 0 (fun n _ => if high n then 255 else 0) 0 (fun _ => 0) [].

(** * The shape of an echo, as the polls see it *)

Section PulseShape.

Context {S : Type}.
Variables start active timeout maxPulse : S -> Z.
Variable echo : S -> World -> nat -> Z.

(** The line stays idle for [k] polls, within the start timeout. *)
Definition idle_for (s : S) (w : World) (k : nat) : Prop :=
  forall i, (i < k)%nat ->
    echo s w i <> active s /\
    to_ulong (clock w i - start s) <= timeout s.

(** The line stays active for [m] polls, within the maximal width. *)
Definition active_for (s : S) (w : World) (m : nat) : Prop :=
  forall j, (j < m)%nat ->
    echo s w j = active s /\
    to_ulong (clock w j - start s) <= maxPulse s.

(** From [WaitingForPulse]: [k] polls before the pulse, the poll that
    sees it begin, [m] polls within it and the poll that sees its end.
    The measured width is the time between the clock reading taken when
    the pulse was seen to begin and the one taken when it was seen to
    have ended. *)
Definition pulse_from (s : S) (w : World) (k m : nat) : Prop :=
  idle_for s w k /\
  echo s w k = active s /\
  (forall j, (j < m)%nat ->
     echo s w (1 + k + j) = active s /\
     to_ulong (clock w (2 + k + j) - clock w (1 + k)) <= maxPulse s) /\
  echo s w (1 + k + m) <> active s.

End PulseShape.

(** A handle that is attached and has a usable scale. *)
Definition Debug_ready (s : Debug.URMSensor) : Prop :=
  Debug._trigPin s <> URM_INVALID_PIN /\
  Debug._echoPin s <> URM_INVALID_PIN /\
  to_ulong (Debug._usPerCm s) <> 0.

(** * The shape of a fault, as the polls see it *)

Section FaultShape.

Context {S : Type}.
Variables start active timeout maxPulse : S -> Z.
Variable echo : S -> World -> nat -> Z.

(** From [WaitingForPulse]: the line is idle for [k] polls within the
    start timeout, and still idle at the next poll, which is late. *)
Definition missing_from (s : S) (w : World) (k : nat) : Prop :=
  idle_for start active timeout echo s w k /\
  echo s w k <> active s /\
  to_ulong (clock w k - start s) > timeout s.

(** From [Measuring]: the line is active for [m] polls within the
    maximal width, and still active at the next poll, which is late. *)
Definition overlong_from (s : S) (w : World) (m : nat) : Prop :=
  active_for start active maxPulse echo s w m /\
  echo s w m = active s /\
  to_ulong (clock w m - start s) > maxPulse s.

(** From [WaitingForPulse]: the pulse begins after [k] polls, is seen
    active at [m] polls within the maximal width, and is still active
    at the next poll, which is late. *)
Definition runaway_from (s : S) (w : World) (k m : nat) : Prop :=
  idle_for start active timeout echo s w k /\
  echo s w k = active s /\
  (forall j, (j < m)%nat ->
     echo s w (1 + k + j) = active s /\
     to_ulong (clock w (2 + k + j) - clock w (1 + k)) <= maxPulse s) /\
  echo s w (1 + k + m) = active s /\
  to_ulong (clock w (2 + k + m) - clock w (1 + k)) > maxPulse s.

End FaultShape.

(** The same as seen from the call of [startMeasure]: a sensor that
    does not answer within the start timeout, and one whose pulse does
    not end within the maximal width.  (The port-register revision
    samples the line once more, before it triggers.) *)
Definition Debug_echoMissing (s : Debug.URMSensor) (w : World) (k : nat)
  : Prop :=
  (forall i, (i < k)%nat ->
     Debug.echoLine s w i <> Debug._echoActiveState s /\
     to_ulong (clock w (1 + i) - clock w 0)
       <= Debug._timeoutForPulseStart s) /\
  Debug.echoLine s w k <> Debug._echoActiveState s /\
  to_ulong (clock w (1 + k) - clock w 0) > Debug._timeoutForPulseStart s.

Definition Ports_echoMissing (s : Ports.URMSensor) (w : World) (k : nat)
  : Prop :=
  Ports.echoLine s w 0 <> Ports._echoActiveState s /\
  (forall i, (i < k)%nat ->
     Ports.echoLine s w (1 + i) <> Ports._echoActiveState s /\
     to_ulong (clock w (1 + i) - clock w 0)
       <= Ports._timeoutForPulseStart s) /\
  Ports.echoLine s w (1 + k) <> Ports._echoActiveState s /\
  to_ulong (clock w (1 + k) - clock w 0) > Ports._timeoutForPulseStart s.

Definition Debug_echoRunaway (s : Debug.URMSensor) (w : World) (k m : nat)
  : Prop :=
  (forall i, (i < k)%nat ->
     Debug.echoLine s w i <> Debug._echoActiveState s /\
     to_ulong (clock w (1 + i) - clock w 0)
       <= Debug._timeoutForPulseStart s) /\
  Debug.echoLine s w k = Debug._echoActiveState s /\
  (forall j, (j < m)%nat ->
     Debug.echoLine s w (1 + k + j) = Debug._echoActiveState s /\
     to_ulong (clock w (3 + k + j) - clock w (2 + k))
       <= Debug._maxPulseDuration s) /\
  Debug.echoLine s w (1 + k + m) = Debug._echoActiveState s /\
  to_ulong (clock w (3 + k + m) - clock w (2 + k))
    > Debug._maxPulseDuration s.

Definition Ports_echoRunaway (s : Ports.URMSensor) (w : World) (k m : nat)
  : Prop :=
  Ports.echoLine s w 0 <> Ports._echoActiveState s /\
  (forall i, (i < k)%nat ->
     Ports.echoLine s w (1 + i) <> Ports._echoActiveState s /\
     to_ulong (clock w (1 + i) - clock w 0)
       <= Ports._timeoutForPulseStart s) /\
  Ports.echoLine s w (1 + k) = Ports._echoActiveState s /\
  (forall j, (j < m)%nat ->
     Ports.echoLine s w (2 + k + j) = Ports._echoActiveState s /\
     to_ulong (clock w (3 + k + j) - clock w (2 + k))
       <= Ports._maxPulseDuration s) /\
  Ports.echoLine s w (2 + k + m) = Ports._echoActiveState s /\
  to_ulong (clock w (3 + k + m) - clock w (2 + k))
    > Ports._maxPulseDuration s.

(** The fade of the LED in the example sketch: the rate is within its
    bounds, below the maximum while it rises and above the minimum while
    it falls. *)
Definition PWM_ramp (sk : Sketch.Sketch) : Prop :=
  Sketch.MIN_PWM_RATE <= Sketch.currentPWMRate sk <= Sketch.MAX_PWM_RATE /\
  (Sketch.increasingPWMRate sk = true ->
   Sketch.currentPWMRate sk < Sketch.MAX_PWM_RATE) /\
  (Sketch.increasingPWMRate sk = false ->
   Sketch.MIN_PWM_RATE < Sketch.currentPWMRate sk).

(** One report of the sketch: a text and the number after it. *)
Definition report (before after : list Sketch.SerialOut) : Prop :=
  exists text number,
    after = Sketch.Println number :: Sketch.Print text :: before.

(** The globals of the sketch that [handleMeasurementResults] has no
    business with. *)
Definition same_lamp (sk sk' : Sketch.Sketch) : Prop :=
  Sketch.lastMeasurementTime sk' = Sketch.lastMeasurementTime sk /\
  Sketch.lastPWMRateUpdateTime sk' = Sketch.lastPWMRateUpdateTime sk /\
  Sketch.increasingPWMRate sk' = Sketch.increasingPWMRate sk /\
  Sketch.currentPWMRate sk' = Sketch.currentPWMRate sk /\
  Sketch.currentPinState sk' = Sketch.currentPinState sk /\
  Sketch.millis_at sk' = Sketch.millis_at sk /\
  Sketch.millis_calls sk' = Sketch.millis_calls sk.


(** * Symbolic execution *)

Ltac exec_debug :=
  cbv beta iota zeta delta
    [bind ret gets modify act fail micros digitalRead digitalWrite pinMode
     delayMicroseconds readInputReg readReg writeReg
     Debug.refreshState Debug.getCurrentDuration Debug.resetTime
     Debug.isMeasuring Debug.isAttached Debug.finished
     Debug.finishedMeasure Debug.getMeasuredDistance
     Debug.convertCurrentDurationToDistance Debug.startMeasure
     Debug.interruptMeasure Debug.detach Debug.getState Debug.attach
     Debug.echoLine Debug.elapsed clock Debug.static
     Debug.set_trigPin Debug.set_echoPin
     Debug.set_usPerCm Debug.set_timeoutForPulseStart
     Debug.set_maxPulseDuration Debug.set_trigActiveState
     Debug.set_echoActiveState Debug.set_trigPulseWidth
     Debug.set_startMeasureTime Debug.set_currentDuration
     Debug.set_currentState
     Debug._trigPin Debug._echoPin Debug._usPerCm
     Debug._timeoutForPulseStart Debug._maxPulseDuration
     Debug._trigActiveState Debug._echoActiveState Debug._trigPulseWidth
     Debug._startMeasureTime Debug._currentDuration Debug._currentState
     tick sampled emit store micros_at micros_calls input_at input_reads
     regs trace Nat.add fst snd].

Ltac exec_ports :=
  cbv beta iota zeta delta
    [bind ret gets modify act fail micros digitalRead digitalWrite pinMode
     delayMicroseconds readInputReg readReg writeReg
     Ports.refreshState Ports.getCurrentDuration Ports.resetTime
     Ports.fastDigitalReadEcho Ports.isMeasuring Ports.isAttached
     Ports.finishedMeasure Ports.getMeasuredDistance
     Ports.convertCurrentDurationToDistance Ports.startMeasure
     Ports.fastDigitalWriteTrig Ports.setBits Ports.clearBits
     Ports.interruptMeasure Ports.detach Ports.getState Ports.attach
     Ports.setTrigPin Ports.setEchoPin Ports.setTrigMode
     Ports.echoLine Ports.elapsed clock Ports.static
     Ports.set_isAttached Ports.set_trigMask Ports.set_trigPORT
     Ports.set_trigPIN Ports.set_trigDDR Ports.set_echoMask
     Ports.set_echoPORT Ports.set_echoPIN Ports.set_echoDDR
     Ports.set_usPerCm Ports.set_timeoutForPulseStart
     Ports.set_maxPulseDuration Ports.set_trigActiveState
     Ports.set_echoActiveState Ports.set_trigPulseWidth
     Ports.set_startMeasureTime Ports.set_currentDuration
     Ports.set_currentState
     Ports._isAttached Ports._trigMask Ports._trigPORT Ports._trigPIN
     Ports._trigDDR Ports._echoMask Ports._echoPORT Ports._echoPIN
     Ports._echoDDR Ports._usPerCm Ports._timeoutForPulseStart
     Ports._maxPulseDuration Ports._trigActiveState Ports._echoActiveState
     Ports._trigPulseWidth Ports._startMeasureTime Ports._currentDuration
     Ports._currentState
     tick sampled emit store micros_at micros_calls input_at input_reads
     regs trace Nat.add fst snd].

Ltac split_ifs :=
  repeat match goal with
         | |- context [if ?c then _ else _] => destruct c eqn:?
         end.

Ltac reflect_tests :=
  repeat match goal with
         | H : (_ =? _) = true |- _ => apply Z.eqb_eq in H
         | H : (_ =? _) = false |- _ => apply Z.eqb_neq in H
         | H : (_ >? _) = true |- _ => rewrite Z.gtb_ltb, Z.ltb_lt in H
         | H : (_ >? _) = false |- _ => rewrite Z.gtb_ltb, Z.ltb_ge in H
         end.

Ltac known_states :=
  repeat first
    [ rewrite Z.eqb_refl
    | progress change (Idle =? WaitingForPulse) with false
    | progress change (Idle =? Measuring) with false
    | progress change (Idle =? FinishedMeasure) with false
    | progress change (Measuring =? WaitingForPulse) with false
    | progress change (FinishedMeasure =? WaitingForPulse) with false
    | progress change (FinishedMeasure =? Measuring) with false
    | progress change (WaitingForPulse =? Measuring) with false
    | progress change (WaitingForPulse =? FinishedMeasure) with false
    | progress change (Measuring =? FinishedMeasure) with false ];
  cbv beta iota.

(** * One poll, case by case *)

(** ** [Ports.refreshState] *)

Lemma Ports_poll_waiting (s : Ports.URMSensor) (w : World) :
  Ports._currentState s = WaitingForPulse ->
  Ports.refreshState s w =
    if (Ports.elapsed s w >? Ports._timeoutForPulseStart s)
       && negb (Ports.echoLine s w 0 =? Ports._echoActiveState s)
    then Done tt (Ports.set_currentState Idle
                    (Ports.set_currentDuration (Ports.elapsed s w) s))
              (tick (sampled w))
    else if Ports.echoLine s w 0 =? Ports._echoActiveState s
    then Done tt (Ports.set_startMeasureTime (clock w 1)
                    (Ports.set_currentDuration 0
                       (Ports.set_currentState Measuring
                          (Ports.set_currentDuration (Ports.elapsed s w) s))))
              (tick (tick (sampled w)))
    else Done tt (Ports.set_currentDuration (Ports.elapsed s w) s)
              (tick (sampled w)).
Proof.
  intros H. destruct s, w. cbn in H. subst.
  exec_ports. known_states. split_ifs; reflexivity.
Qed.

Lemma Ports_poll_measuring (s : Ports.URMSensor) (w : World) :
  Ports._currentState s = Measuring ->
  Ports.refreshState s w =
    if (Ports.elapsed s w >? Ports._maxPulseDuration s)
       && (Ports.echoLine s w 0 =? Ports._echoActiveState s)
    then Done tt (Ports.set_currentState Idle
                    (Ports.set_currentDuration (Ports.elapsed s w) s))
              (tick (sampled w))
    else if negb (Ports.echoLine s w 0 =? Ports._echoActiveState s)
    then Done tt (Ports.set_currentState FinishedMeasure
                    (Ports.set_currentDuration (Ports.elapsed s w) s))
              (tick (sampled w))
    else Done tt (Ports.set_currentDuration (Ports.elapsed s w) s)
              (tick (sampled w)).
Proof.
  intros H. destruct s, w. cbn in H. subst.
  exec_ports. known_states. split_ifs; reflexivity.
Qed.

Lemma Ports_poll_resting (s : Ports.URMSensor) (w : World) :
  Ports._currentState s <> WaitingForPulse ->
  Ports._currentState s <> Measuring ->
  Ports.refreshState s w = Done tt s (sampled w).
Proof.
  intros HW HM. apply Z.eqb_neq in HW, HM.
  destruct s, w. cbn in HW, HM.
  exec_ports. rewrite HW, HM. reflexivity.
Qed.

(** ** [Debug.refreshState] *)

Lemma Debug_poll_waiting (s : Debug.URMSensor) (w : World) :
  Debug._currentState s = WaitingForPulse ->
  Debug.refreshState s w =
    let w1 := sampled (emit (DigitalWrite 12 HIGH) w) in
    if (Debug.elapsed s w >? Debug._timeoutForPulseStart s)
       && negb (Debug.echoLine s w 0 =? Debug._echoActiveState s)
    then Done tt (Debug.set_currentState Idle
                    (Debug.set_currentDuration (Debug.elapsed s w) s))
              (emit (DigitalWrite 12 LOW)
                 (emit (DigitalWrite 8 HIGH) (tick w1)))
    else if Debug.echoLine s w 0 =? Debug._echoActiveState s
    then Done tt (Debug.set_startMeasureTime (clock w 1)
                    (Debug.set_currentDuration 0
                       (Debug.set_currentState Measuring
                          (Debug.set_currentDuration (Debug.elapsed s w) s))))
              (emit (DigitalWrite 12 LOW)
                 (emit (DigitalWrite 11 (Debug._echoActiveState s))
                    (tick (tick w1))))
    else Done tt (Debug.set_currentDuration (Debug.elapsed s w) s)
              (emit (DigitalWrite 12 LOW) (tick w1)).
Proof.
  intros H. destruct s, w. cbn in H. subst.
  exec_debug. known_states. split_ifs; reflexivity.
Qed.

Lemma Debug_poll_measuring (s : Debug.URMSensor) (w : World) :
  Debug._currentState s = Measuring ->
  Debug.refreshState s w =
    let w1 := sampled (emit (DigitalWrite 12 HIGH) w) in
    if (Debug.elapsed s w >? Debug._maxPulseDuration s)
       && (Debug.echoLine s w 0 =? Debug._echoActiveState s)
    then Done tt (Debug.set_currentState Idle
                    (Debug.set_currentDuration (Debug.elapsed s w) s))
              (emit (DigitalWrite 12 LOW)
                 (emit (DigitalWrite 8 HIGH) (tick w1)))
    else if negb (Debug.echoLine s w 0 =? Debug._echoActiveState s)
    then Done tt (Debug.set_currentState FinishedMeasure
                    (Debug.set_currentDuration (Debug.elapsed s w) s))
              (emit (DigitalWrite 12 LOW)
                 (emit (DigitalWrite 11
                          (Debug.getOppositeStateFor
                             (Debug._echoActiveState s)))
                    (tick w1)))
    else Done tt (Debug.set_currentDuration (Debug.elapsed s w) s)
              (emit (DigitalWrite 12 LOW) (tick w1)).
Proof.
  intros H. destruct s, w. cbn in H. subst.
  exec_debug. known_states. split_ifs; reflexivity.
Qed.

Lemma Debug_poll_resting (s : Debug.URMSensor) (w : World) :
  Debug._currentState s <> WaitingForPulse ->
  Debug._currentState s <> Measuring ->
  Debug.refreshState s w =
    Done tt s
      (emit (DigitalWrite 12 LOW) (sampled (emit (DigitalWrite 12 HIGH) w))).
Proof.
  intros HW HM. apply Z.eqb_neq in HW, HM.
  destruct s, w. cbn in HW, HM.
  exec_debug. rewrite HW, HM. reflexivity.
Qed.

(** * The presets *)

(** [URM37::attach(9, 10)] gives the sample handles, whatever state the
    object was in; [SR04::attach] and [HC_SR04::attach] write the other
    profile. *)
Example URM37_attach_debug (s : Debug.URMSensor) (w : World) :
  Debug.URM37_attach 9 10 s w =
    Done tt
      (debug_urm37 (Debug._currentState s) (Debug._startMeasureTime s)
         (Debug._currentDuration s))
      (emit (PinMode 10 INPUT) (emit (PinMode 9 OUTPUT) w)).
Proof. destruct s, w. reflexivity. Qed.

Example URM37_attach_ports (s : Ports.URMSensor) (w : World) :
  exists w',
    @Ports.URM37_attach uno 9 10 s w =
      Done tt
        (ports_urm37 true (Ports._currentState s) (Ports._startMeasureTime s)
           (Ports._currentDuration s)) w'.
Proof. destruct s, w. eexists. reflexivity. Qed.

Example SR04_attach_debug (s : Debug.URMSensor) (w : World) :
  Debug.SR04_attach 9 10 s w =
    Done tt
      (Debug.mkURMSensor 9 10 61 10000 27450 HIGH HIGH 10
         (Debug._startMeasureTime s) (Debug._currentDuration s)
         (Debug._currentState s))
      (emit (PinMode 10 INPUT) (emit (PinMode 9 OUTPUT) w)).
Proof. destruct s, w. reflexivity. Qed.

Example HC_SR04_attach_ports (s : Ports.URMSensor) (w : World) :
  exists w',
    @Ports.HC_SR04_attach uno 9 10 s w =
      Done tt
        (Ports.mkURMSensor true 2 37 35 36 4 37 35 36 61 10000 27450
           HIGH HIGH 10 (Ports._startMeasureTime s)
           (Ports._currentDuration s) (Ports._currentState s)) w'.
Proof. destruct s, w. eexists. reflexivity. Qed.

(** * The poll *)

(** C1. Tie-break of a poll: in [WaitingForPulse], a poll that finds the
    start timeout exceeded and the echo line active goes to [Measuring];
    in [Measuring], a poll that finds the maximal pulse width exceeded
    and the echo line inactive goes to [FinishedMeasure].  The echo test
    wins over the timeout, in both revisions. *)
Theorem poll_echo_wins_over_timeout :
  (forall s w,
     Debug._currentState s = WaitingForPulse ->
     Debug.elapsed s w > Debug._timeoutForPulseStart s ->
     Debug.echoLine s w 0 = Debug._echoActiveState s ->
     exists s' w', Debug.refreshState s w = Done tt s' w' /\
                   Debug._currentState s' = Measuring) /\
  (forall s w,
     Debug._currentState s = Measuring ->
     Debug.elapsed s w > Debug._maxPulseDuration s ->
     Debug.echoLine s w 0 <> Debug._echoActiveState s ->
     exists s' w', Debug.refreshState s w = Done tt s' w' /\
                   Debug._currentState s' = FinishedMeasure) /\
  (forall s w,
     Ports._currentState s = WaitingForPulse ->
     Ports.elapsed s w > Ports._timeoutForPulseStart s ->
     Ports.echoLine s w 0 = Ports._echoActiveState s ->
     exists s' w', Ports.refreshState s w = Done tt s' w' /\
                   Ports._currentState s' = Measuring) /\
  (forall s w,
     Ports._currentState s = Measuring ->
     Ports.elapsed s w > Ports._maxPulseDuration s ->
     Ports.echoLine s w 0 <> Ports._echoActiveState s ->
     exists s' w', Ports.refreshState s w = Done tt s' w' /\
                   Ports._currentState s' = FinishedMeasure).
Proof.
  repeat split; intros s w Hst Hlate Hecho.
  - rewrite (Debug_poll_waiting s w Hst), Hecho, Z.eqb_refl, andb_false_r.
    eexists; eexists; split; reflexivity.
  - apply Z.eqb_neq in Hecho.
    rewrite (Debug_poll_measuring s w Hst), Hecho, andb_false_r.
    eexists; eexists; split; reflexivity.
  - rewrite (Ports_poll_waiting s w Hst), Hecho, Z.eqb_refl, andb_false_r.
    eexists; eexists; split; reflexivity.
  - apply Z.eqb_neq in Hecho.
    rewrite (Ports_poll_measuring s w Hst), Hecho, andb_false_r.
    eexists; eexists; split; reflexivity.
Qed.

(** A late but present echo, and a late but finished pulse. *)
Lemma poll_echo_wins_over_timeout_witness :
  (exists s' w',
     Debug.refreshState (debug_urm37 WaitingForPulse 0 0)
       (sim (fun _ => 60000) (fun _ => false)) = Done tt s' w' /\
     Debug._currentState s' = Measuring) /\
  (exists s' w',
     Debug.refreshState (debug_urm37 Measuring 0 0)
       (sim (fun _ => 60000) (fun _ => true)) = Done tt s' w' /\
     Debug._currentState s' = FinishedMeasure) /\
  (exists s' w',
     Ports.refreshState (ports_urm37 true WaitingForPulse 0 0)
       (sim (fun _ => 60000) (fun _ => false)) = Done tt s' w' /\
     Ports._currentState s' = Measuring) /\
  (exists s' w',
     Ports.refreshState (ports_urm37 true Measuring 0 0)
       (sim (fun _ => 60000) (fun _ => true)) = Done tt s' w' /\
     Ports._currentState s' = FinishedMeasure).
Proof.
  destruct poll_echo_wins_over_timeout as (DW & DM & PW & PM).
  repeat split.
  - apply DW; [reflexivity | reflexivity | reflexivity].
  - apply DM; [reflexivity | reflexivity | vm_compute; discriminate].
  - apply PW; [reflexivity | reflexivity | reflexivity].
  - apply PM; [reflexivity | reflexivity | vm_compute; discriminate].
Defined.

(** C2. A poll in [WaitingForPulse]: when the start timeout is exceeded
    and the echo line is not active the state becomes [Idle]; when the
    echo line is active the state becomes [Measuring], the duration is
    cleared and the start timestamp is the clock reading taken at that
    moment; otherwise the handle keeps waiting. *)
Theorem poll_waiting_for_pulse :
  (forall s w,
     Debug._currentState s = WaitingForPulse ->
     exists s' w',
       Debug.refreshState s w = Done tt s' w' /\
       Debug.static s' = Debug.static s /\
       (Debug.elapsed s w > Debug._timeoutForPulseStart s ->
        Debug.echoLine s w 0 <> Debug._echoActiveState s ->
        Debug._currentState s' = Idle) /\
       (Debug.echoLine s w 0 = Debug._echoActiveState s ->
        Debug._currentState s' = Measuring /\
        Debug._startMeasureTime s' = clock w 1 /\
        Debug._currentDuration s' = 0) /\
       (Debug.elapsed s w <= Debug._timeoutForPulseStart s ->
        Debug.echoLine s w 0 <> Debug._echoActiveState s ->
        Debug._currentState s' = WaitingForPulse /\
        Debug._startMeasureTime s' = Debug._startMeasureTime s)) /\
  (forall s w,
     Ports._currentState s = WaitingForPulse ->
     exists s' w',
       Ports.refreshState s w = Done tt s' w' /\
       Ports.static s' = Ports.static s /\
       (Ports.elapsed s w > Ports._timeoutForPulseStart s ->
        Ports.echoLine s w 0 <> Ports._echoActiveState s ->
        Ports._currentState s' = Idle) /\
       (Ports.echoLine s w 0 = Ports._echoActiveState s ->
        Ports._currentState s' = Measuring /\
        Ports._startMeasureTime s' = clock w 1 /\
        Ports._currentDuration s' = 0) /\
       (Ports.elapsed s w <= Ports._timeoutForPulseStart s ->
        Ports.echoLine s w 0 <> Ports._echoActiveState s ->
        Ports._currentState s' = WaitingForPulse /\
        Ports._startMeasureTime s' = Ports._startMeasureTime s)).
Proof.
  split; intros s w Hst.
  - rewrite (Debug_poll_waiting s w Hst). cbv zeta.
    destruct (Debug.elapsed s w >? Debug._timeoutForPulseStart s) eqn:Hlate;
      destruct (Debug.echoLine s w 0 =? Debug._echoActiveState s) eqn:Hecho;
      cbn [andb negb]; reflect_tests;
      (eexists; eexists; split; [reflexivity|]);
      (split; [destruct s; reflexivity|]);
      repeat split; intros; try reflexivity; try contradiction; try lia;
      try (destruct s; exact Hst).
  - rewrite (Ports_poll_waiting s w Hst).
    destruct (Ports.elapsed s w >? Ports._timeoutForPulseStart s) eqn:Hlate;
      destruct (Ports.echoLine s w 0 =? Ports._echoActiveState s) eqn:Hecho;
      cbn [andb negb]; reflect_tests;
      (eexists; eexists; split; [reflexivity|]);
      (split; [destruct s; reflexivity|]);
      repeat split; intros; try reflexivity; try contradiction; try lia;
      try (destruct s; exact Hst).
Qed.

(** An echo that never comes, one that comes in time, one that is late
    but there, and a line that is still idle in time. *)
Lemma poll_waiting_for_pulse_witness :
  (exists s' w',
     Debug.refreshState (debug_urm37 WaitingForPulse 0 0)
       (sim (fun _ => 50001) (fun _ => true)) = Done tt s' w' /\
     Debug._currentState s' = Idle) /\
  (exists s' w',
     Debug.refreshState (debug_urm37 WaitingForPulse 1000 0)
       (sim (fun n => 3000 + Z.of_nat n) (fun _ => false)) = Done tt s' w' /\
     Debug._currentState s' = Measuring /\
     Debug._startMeasureTime s' = 3001 /\
     Debug._currentDuration s' = 0) /\
  (exists s' w',
     Ports.refreshState (ports_urm37 true WaitingForPulse 0 0)
       (sim (fun _ => 50001) (fun _ => true)) = Done tt s' w' /\
     Ports._currentState s' = Idle) /\
  (exists s' w',
     Ports.refreshState (ports_urm37 true WaitingForPulse 1000 0)
       (sim (fun n => 60000 + Z.of_nat n) (fun _ => false)) = Done tt s' w' /\
     Ports._currentState s' = Measuring /\
     Ports._startMeasureTime s' = 60001 /\
     Ports._currentDuration s' = 0) /\
  (exists s' w',
     Ports.refreshState (ports_urm37 true WaitingForPulse 1000 0)
       (sim (fun _ => 51000) (fun _ => true)) = Done tt s' w' /\
     Ports._currentState s' = WaitingForPulse /\
     Ports._startMeasureTime s' = 1000).
Proof.
  destruct poll_waiting_for_pulse as (D & P).
  repeat apply conj.
  - destruct (D (debug_urm37 WaitingForPulse 0 0)
                (sim (fun _ => 50001) (fun _ => true)) eq_refl)
      as (s' & w' & Hrun & _ & Hidle & _).
    exists s', w'. split; [exact Hrun|].
    apply Hidle; [reflexivity | vm_compute; discriminate].
  - destruct (D (debug_urm37 WaitingForPulse 1000 0)
                (sim (fun n => 3000 + Z.of_nat n) (fun _ => false)) eq_refl)
      as (s' & w' & Hrun & _ & _ & Hecho & _).
    exists s', w'. split; [exact Hrun|]. apply Hecho. reflexivity.
  - destruct (P (ports_urm37 true WaitingForPulse 0 0)
                (sim (fun _ => 50001) (fun _ => true)) eq_refl)
      as (s' & w' & Hrun & _ & Hidle & _).
    exists s', w'. split; [exact Hrun|].
    apply Hidle; [reflexivity | vm_compute; discriminate].
  - destruct (P (ports_urm37 true WaitingForPulse 1000 0)
                (sim (fun n => 60000 + Z.of_nat n) (fun _ => false)) eq_refl)
      as (s' & w' & Hrun & _ & _ & Hecho & _).
    exists s', w'. split; [exact Hrun|]. apply Hecho. reflexivity.
  - destruct (P (ports_urm37 true WaitingForPulse 1000 0)
                (sim (fun _ => 51000) (fun _ => true)) eq_refl)
      as (s' & w' & Hrun & _ & _ & _ & Hstay).
    exists s', w'. split; [exact Hrun|].
    apply Hstay; [vm_compute; discriminate | vm_compute; discriminate].
Defined.

(** C3. A poll in [Measuring]: when the maximal pulse width is exceeded
    and the echo line is still active the state becomes [Idle], not
    [FinishedMeasure]; when the echo line is no longer active the state
    becomes [FinishedMeasure] and [_currentDuration] holds the time
    elapsed since [Measuring] was entered; otherwise the handle keeps
    measuring.  The start timestamp and the configuration stay, and a
    poll in [FinishedMeasure] leaves the object, hence the latched
    duration, as it is. *)
Theorem poll_measuring :
  (forall s w,
     Debug._currentState s = Measuring ->
     exists s' w',
       Debug.refreshState s w = Done tt s' w' /\
       Debug.static s' = Debug.static s /\
       Debug._startMeasureTime s' = Debug._startMeasureTime s /\
       (Debug.elapsed s w > Debug._maxPulseDuration s ->
        Debug.echoLine s w 0 = Debug._echoActiveState s ->
        Debug._currentState s' = Idle /\
        Debug._currentState s' <> FinishedMeasure) /\
       (Debug.echoLine s w 0 <> Debug._echoActiveState s ->
        Debug._currentState s' = FinishedMeasure /\
        Debug._currentDuration s' = Debug.elapsed s w) /\
       (Debug.elapsed s w <= Debug._maxPulseDuration s ->
        Debug.echoLine s w 0 = Debug._echoActiveState s ->
        Debug._currentState s' = Measuring)) /\
  (forall s w,
     Ports._currentState s = Measuring ->
     exists s' w',
       Ports.refreshState s w = Done tt s' w' /\
       Ports.static s' = Ports.static s /\
       Ports._startMeasureTime s' = Ports._startMeasureTime s /\
       (Ports.elapsed s w > Ports._maxPulseDuration s ->
        Ports.echoLine s w 0 = Ports._echoActiveState s ->
        Ports._currentState s' = Idle /\
        Ports._currentState s' <> FinishedMeasure) /\
       (Ports.echoLine s w 0 <> Ports._echoActiveState s ->
        Ports._currentState s' = FinishedMeasure /\
        Ports._currentDuration s' = Ports.elapsed s w) /\
       (Ports.elapsed s w <= Ports._maxPulseDuration s ->
        Ports.echoLine s w 0 = Ports._echoActiveState s ->
        Ports._currentState s' = Measuring)) /\
  (forall s w,
     Debug._currentState s = FinishedMeasure ->
     exists w', Debug.refreshState s w = Done tt s w') /\
  (forall s w,
     Ports._currentState s = FinishedMeasure ->
     exists w', Ports.refreshState s w = Done tt s w').
Proof.
  split; [| split; [| split]]; intros s w Hst;
    [| | rewrite Debug_poll_resting by (rewrite Hst; discriminate);
         eexists; reflexivity
       | rewrite Ports_poll_resting by (rewrite Hst; discriminate);
         eexists; reflexivity ].
  - rewrite (Debug_poll_measuring s w Hst). cbv zeta.
    destruct (Debug.elapsed s w >? Debug._maxPulseDuration s) eqn:Hlate;
      destruct (Debug.echoLine s w 0 =? Debug._echoActiveState s) eqn:Hecho;
      cbn [andb negb]; reflect_tests;
      (eexists; eexists; split; [reflexivity|]);
      (split; [destruct s; reflexivity|]);
      (split; [destruct s; reflexivity|]);
      repeat split; intros; try reflexivity; try contradiction; try lia;
      try discriminate; try (destruct s; exact Hst).
  - rewrite (Ports_poll_measuring s w Hst).
    destruct (Ports.elapsed s w >? Ports._maxPulseDuration s) eqn:Hlate;
      destruct (Ports.echoLine s w 0 =? Ports._echoActiveState s) eqn:Hecho;
      cbn [andb negb]; reflect_tests;
      (eexists; eexists; split; [reflexivity|]);
      (split; [destruct s; reflexivity|]);
      (split; [destruct s; reflexivity|]);
      repeat split; intros; try reflexivity; try contradiction; try lia;
      try discriminate; try (destruct s; exact Hst).
Qed.

(** A runaway pulse, and pulses of 3000 us measured by both revisions. *)
Lemma poll_measuring_witness :
  (exists s' w',
     Debug.refreshState (debug_urm37 Measuring 0 0)
       (sim (fun _ => 45001) (fun _ => false)) = Done tt s' w' /\
     Debug._currentState s' = Idle /\
     Debug._currentState s' <> FinishedMeasure) /\
  (exists s' w',
     Debug.refreshState (debug_urm37 Measuring 2000 0)
       (sim (fun _ => 5000) (fun _ => true)) = Done tt s' w' /\
     Debug._currentState s' = FinishedMeasure /\
     Debug._currentDuration s' = 3000) /\
  (exists s' w',
     Ports.refreshState (ports_urm37 true Measuring 0 0)
       (sim (fun _ => 45001) (fun _ => false)) = Done tt s' w' /\
     Ports._currentState s' = Idle /\
     Ports._currentState s' <> FinishedMeasure) /\
  (exists s' w',
     Ports.refreshState (ports_urm37 true Measuring 4294967000 0)
       (sim (fun _ => 2704) (fun _ => true)) = Done tt s' w' /\
     Ports._currentState s' = FinishedMeasure /\
     Ports._currentDuration s' = 3000) /\
  (exists s' w',
     Ports.refreshState (ports_urm37 true Measuring 0 0)
       (sim (fun _ => 45000) (fun _ => false)) = Done tt s' w' /\
     Ports._currentState s' = Measuring) /\
  (exists w',
     Ports.refreshState (ports_urm37 true FinishedMeasure 2000 3000)
       (sim (fun _ => 9000) (fun _ => false)) =
     Done tt (ports_urm37 true FinishedMeasure 2000 3000) w').
Proof.
  destruct poll_measuring as (D & P & _ & PL).
  repeat apply conj.
  - destruct (D (debug_urm37 Measuring 0 0)
                (sim (fun _ => 45001) (fun _ => false)) eq_refl)
      as (s' & w' & Hrun & _ & _ & Hidle & _).
    exists s', w'. split; [exact Hrun|].
    apply Hidle; reflexivity.
  - destruct (D (debug_urm37 Measuring 2000 0)
                (sim (fun _ => 5000) (fun _ => true)) eq_refl)
      as (s' & w' & Hrun & _ & _ & _ & Hfin & _).
    exists s', w'. split; [exact Hrun|].
    apply Hfin. vm_compute; discriminate.
  - destruct (P (ports_urm37 true Measuring 0 0)
                (sim (fun _ => 45001) (fun _ => false)) eq_refl)
      as (s' & w' & Hrun & _ & _ & Hidle & _).
    exists s', w'. split; [exact Hrun|].
    apply Hidle; reflexivity.
  - destruct (P (ports_urm37 true Measuring 4294967000 0)
                (sim (fun _ => 2704) (fun _ => true)) eq_refl)
      as (s' & w' & Hrun & _ & _ & _ & Hfin & _).
    exists s', w'. split; [exact Hrun|].
    apply Hfin. vm_compute; discriminate.
  - destruct (P (ports_urm37 true Measuring 0 0)
                (sim (fun _ => 45000) (fun _ => false)) eq_refl)
      as (s' & w' & Hrun & _ & _ & _ & _ & Hstay).
    exists s', w'. split; [exact Hrun|].
    apply Hstay; [vm_compute; discriminate | reflexivity].
  - apply PL. reflexivity.
Defined.

(** * The distance query *)

Lemma to_ulong_small (x : Z) : 0 <= x < 4294967296 -> to_ulong x = x.
Proof. intros H. unfold to_ulong. apply Z.mod_small. exact H. Qed.

Lemma Debug_distance_invalid (s : Debug.URMSensor) (w : World) :
  Debug._currentState s <> FinishedMeasure ->
  Debug.getMeasuredDistance s w = Done URM_INVALID_VALUE s w.
Proof.
  intros H. apply Z.eqb_neq in H. destruct s, w. cbn in H.
  exec_debug. rewrite H. reflexivity.
Qed.

Lemma Ports_distance_invalid (s : Ports.URMSensor) (w : World) :
  Ports._currentState s <> FinishedMeasure ->
  Ports.getMeasuredDistance s w = Done URM_INVALID_VALUE s w.
Proof.
  intros H. apply Z.eqb_neq in H. destruct s, w. cbn in H.
  exec_ports. rewrite H. reflexivity.
Qed.

Lemma Debug_distance_finished (s : Debug.URMSensor) (w : World) :
  Debug._currentState s = FinishedMeasure ->
  to_ulong (Debug._usPerCm s) <> 0 ->
  Debug.getMeasuredDistance s w =
    Done (Debug._currentDuration s / to_ulong (Debug._usPerCm s)) s w.
Proof.
  intros H Hu. apply Z.eqb_neq in Hu. destruct s, w. cbn in H, Hu. subst.
  exec_debug. known_states. cbn [negb]. rewrite Hu. reflexivity.
Qed.

Lemma Ports_distance_finished (s : Ports.URMSensor) (w : World) :
  Ports._currentState s = FinishedMeasure ->
  to_ulong (Ports._usPerCm s) <> 0 ->
  Ports.getMeasuredDistance s w =
    Done (Ports._currentDuration s / to_ulong (Ports._usPerCm s)) s w.
Proof.
  intros H Hu. apply Z.eqb_neq in Hu. destruct s, w. cbn in H, Hu. subst.
  exec_ports. known_states. cbn [negb]. rewrite Hu. reflexivity.
Qed.

(** C4. [getMeasuredDistance] returns [URM_INVALID_VALUE] in every state
    but [FinishedMeasure]; in [FinishedMeasure], for a positive scale
    [_usPerCm], it returns the latched duration divided by it, rounded
    towards zero.  It changes neither the object nor the hardware.  (In
    general the divisor is [_usPerCm] converted to [unsigned long], and
    the division is undefined when that is zero.) *)
Theorem getMeasuredDistance_spec :
  (forall s w,
     Debug._currentState s <> FinishedMeasure ->
     Debug.getMeasuredDistance s w = Done URM_INVALID_VALUE s w) /\
  (forall s w,
     Debug._currentState s = FinishedMeasure ->
     0 < Debug._usPerCm s < 4294967296 ->
     0 <= Debug._currentDuration s ->
     Debug.getMeasuredDistance s w =
       Done (Z.quot (Debug._currentDuration s) (Debug._usPerCm s)) s w) /\
  (forall s w,
     Ports._currentState s <> FinishedMeasure ->
     Ports.getMeasuredDistance s w = Done URM_INVALID_VALUE s w) /\
  (forall s w,
     Ports._currentState s = FinishedMeasure ->
     0 < Ports._usPerCm s < 4294967296 ->
     0 <= Ports._currentDuration s ->
     Ports.getMeasuredDistance s w =
       Done (Z.quot (Ports._currentDuration s) (Ports._usPerCm s)) s w) /\
  (forall s w,
     Debug._currentState s = FinishedMeasure ->
     Debug.getMeasuredDistance s w =
       if to_ulong (Debug._usPerCm s) =? 0 then Abort DivisionByZero
       else Done (Debug._currentDuration s / to_ulong (Debug._usPerCm s))
                 s w) /\
  (forall s w,
     Ports._currentState s = FinishedMeasure ->
     Ports.getMeasuredDistance s w =
       if to_ulong (Ports._usPerCm s) =? 0 then Abort DivisionByZero
       else Done (Ports._currentDuration s / to_ulong (Ports._usPerCm s))
                 s w).
Proof.
  repeat apply conj;
    [| | | | intros s w Hst; destruct s, w; cbn in Hst; subst;
             exec_debug; known_states; cbn [negb]; split_ifs; reflexivity
           | intros s w Hst; destruct s, w; cbn in Hst; subst;
             exec_ports; known_states; cbn [negb]; split_ifs; reflexivity ].
  - exact Debug_distance_invalid.
  - intros s w Hst Hu Hd.
    rewrite Debug_distance_finished, to_ulong_small, Z.quot_div_nonneg;
      try rewrite to_ulong_small; try reflexivity; try assumption; lia.
  - exact Ports_distance_invalid.
  - intros s w Hst Hu Hd.
    rewrite Ports_distance_finished, to_ulong_small, Z.quot_div_nonneg;
      try rewrite to_ulong_small; try reflexivity; try assumption; lia.
Qed.

(** The distance of a 3000 us pulse at 50 us/cm, and no distance while
    a measurement runs. *)
Lemma getMeasuredDistance_spec_witness :
  let w := sim (fun _ => 0) (fun _ => true) in
  Debug.getMeasuredDistance (debug_urm37 Measuring 0 3000) w =
    Done URM_INVALID_VALUE (debug_urm37 Measuring 0 3000) w /\
  Debug.getMeasuredDistance (debug_urm37 FinishedMeasure 0 3049) w =
    Done 60 (debug_urm37 FinishedMeasure 0 3049) w /\
  Ports.getMeasuredDistance (ports_urm37 true Idle 0 3000) w =
    Done URM_INVALID_VALUE (ports_urm37 true Idle 0 3000) w /\
  Ports.getMeasuredDistance (ports_urm37 true FinishedMeasure 0 3049) w =
    Done 60 (ports_urm37 true FinishedMeasure 0 3049) w.
Proof.
  destruct getMeasuredDistance_spec as (DI & DF & PI & PF & _).
  intros w. repeat apply conj.
  - apply DI. vm_compute; discriminate.
  - apply (DF (debug_urm37 FinishedMeasure 0 3049) w);
      [reflexivity | vm_compute; split; reflexivity | vm_compute; discriminate].
  - apply PI. vm_compute; discriminate.
  - apply (PF (ports_urm37 true FinishedMeasure 0 3049) w);
      [reflexivity | vm_compute; split; reflexivity | vm_compute; discriminate].
Defined.

(** * Starting a measurement *)

(** C8. [startMeasure] on a handle that is in [WaitingForPulse] or
    [Measuring] does nothing: the object (state, start timestamp,
    duration, configuration) is the same and the hardware is untouched
    (no clock reading, no sampling, no write, hence no trigger pulse). *)
Theorem startMeasure_while_measuring :
  (forall s w,
     Debug._currentState s = WaitingForPulse \/
     Debug._currentState s = Measuring ->
     Debug.isMeasuring s w = Done true s w /\
     Debug.startMeasure s w = Done tt s w) /\
  (forall s w,
     Ports._currentState s = WaitingForPulse \/
     Ports._currentState s = Measuring ->
     Ports.isMeasuring s w = Done true s w /\
     Ports.startMeasure s w = Done tt s w).
Proof.
  split; intros s w [H | H]; destruct s, w; cbn in H; subst; split;
    reflexivity.
Qed.

Lemma startMeasure_while_measuring_witness :
  let w := sim (fun _ => 0) (fun _ => false) in
  Debug.startMeasure (debug_urm37 WaitingForPulse 7 0) w =
    Done tt (debug_urm37 WaitingForPulse 7 0) w /\
  Ports.startMeasure (ports_urm37 true Measuring 7 5) w =
    Done tt (ports_urm37 true Measuring 7 5) w.
Proof.
  destruct startMeasure_while_measuring as (D & P).
  intros w. split.
  - apply (D (debug_urm37 WaitingForPulse 7 0) w). left. reflexivity.
  - apply (P (ports_urm37 true Measuring 7 5) w). right. reflexivity.
Defined.

(** * Completion query *)

(** What [static] keeps. *)
Lemma Debug_static_inv (s s' : Debug.URMSensor) :
  Debug.static s' = Debug.static s ->
  Debug._trigPin s' = Debug._trigPin s /\
  Debug._echoPin s' = Debug._echoPin s /\
  Debug._usPerCm s' = Debug._usPerCm s /\
  Debug._timeoutForPulseStart s' = Debug._timeoutForPulseStart s /\
  Debug._maxPulseDuration s' = Debug._maxPulseDuration s /\
  Debug._echoActiveState s' = Debug._echoActiveState s.
Proof.
  destruct s, s'. cbv [Debug.static Debug.set_currentState
    Debug.set_currentDuration Debug.set_startMeasureTime
    Debug._trigPin Debug._echoPin Debug._usPerCm
    Debug._timeoutForPulseStart Debug._maxPulseDuration
    Debug._trigActiveState Debug._echoActiveState Debug._trigPulseWidth
    Debug._startMeasureTime Debug._currentDuration Debug._currentState].
  intros H. injection H as -> -> -> -> -> -> -> ->. repeat split.
Qed.

Lemma Ports_static_inv (s s' : Ports.URMSensor) :
  Ports.static s' = Ports.static s ->
  Ports._isAttached s' = Ports._isAttached s /\
  Ports._echoPIN s' = Ports._echoPIN s /\
  Ports._echoMask s' = Ports._echoMask s /\
  Ports._usPerCm s' = Ports._usPerCm s /\
  Ports._timeoutForPulseStart s' = Ports._timeoutForPulseStart s /\
  Ports._maxPulseDuration s' = Ports._maxPulseDuration s /\
  Ports._echoActiveState s' = Ports._echoActiveState s.
Proof.
  destruct s, s'. cbv [Ports.static Ports.set_currentState
    Ports.set_currentDuration Ports.set_startMeasureTime
    Ports._isAttached Ports._trigMask Ports._trigPORT Ports._trigPIN
    Ports._trigDDR Ports._echoMask Ports._echoPORT Ports._echoPIN
    Ports._echoDDR Ports._usPerCm Ports._timeoutForPulseStart
    Ports._maxPulseDuration Ports._trigActiveState Ports._echoActiveState
    Ports._trigPulseWidth Ports._startMeasureTime Ports._currentDuration
    Ports._currentState].
  intros H. injection H as -> -> -> -> -> -> -> -> -> -> -> -> -> -> ->.
  repeat split.
Qed.

(** A poll always returns, and writes nothing but the three fields of
    the measurement. *)
Lemma Debug_poll_total (s : Debug.URMSensor) (w : World) :
  exists s' w',
    Debug.refreshState s w = Done tt s' w' /\ Debug.static s' = Debug.static s.
Proof.
  destruct (Z.eq_dec (Debug._currentState s) WaitingForPulse) as [HW | HW];
    [| destruct (Z.eq_dec (Debug._currentState s) Measuring) as [HM | HM]].
  - rewrite (Debug_poll_waiting s w HW). cbv zeta.
    split_ifs; eexists; eexists; (split; [reflexivity|]);
      destruct s; reflexivity.
  - rewrite (Debug_poll_measuring s w HM). cbv zeta.
    split_ifs; eexists; eexists; (split; [reflexivity|]);
      destruct s; reflexivity.
  - rewrite (Debug_poll_resting s w HW HM).
    eexists; eexists; split; reflexivity.
Qed.

Lemma Ports_poll_total (s : Ports.URMSensor) (w : World) :
  exists s' w',
    Ports.refreshState s w = Done tt s' w' /\ Ports.static s' = Ports.static s.
Proof.
  destruct (Z.eq_dec (Ports._currentState s) WaitingForPulse) as [HW | HW];
    [| destruct (Z.eq_dec (Ports._currentState s) Measuring) as [HM | HM]].
  - rewrite (Ports_poll_waiting s w HW).
    split_ifs; eexists; eexists; (split; [reflexivity|]);
      destruct s; reflexivity.
  - rewrite (Ports_poll_measuring s w HM).
    split_ifs; eexists; eexists; (split; [reflexivity|]);
      destruct s; reflexivity.
  - rewrite (Ports_poll_resting s w HW HM).
    eexists; eexists; split; reflexivity.
Qed.

(** [finishedMeasure] on an attached handle is one poll followed by the
    test of the state. *)
Lemma Debug_finishedMeasure_attached (d : option Z) (s : Debug.URMSensor)
  (w : World) :
  Debug._trigPin s <> URM_INVALID_PIN ->
  Debug._echoPin s <> URM_INVALID_PIN ->
  Debug.finishedMeasure d s w =
    match Debug.refreshState s w with
    | Done _ s' w' =>
        if (Debug._currentState s' =? WaitingForPulse)
           || (Debug._currentState s' =? Measuring)
        then Done (false, d) s' w'
        else match Debug.getMeasuredDistance s' w' with
             | Done v s'' w'' => Done (true, Some v) s'' w''
             | Abort f => Abort f
             end
    | Abort f => Abort f
    end.
Proof.
  intros Ht He. apply Z.eqb_neq in Ht, He.
  unfold Debug.finishedMeasure at 1, Debug.isAttached.
  unfold bind at 1 2 3, gets at 1 2, ret at 1. rewrite Ht, He. cbn [negb andb].
  unfold bind at 1. destruct (Debug.refreshState s w) as [[] s' w' | f];
    [| reflexivity].
  unfold bind at 1, Debug.isMeasuring, bind at 1, gets, ret at 1.
  destruct ((Debug._currentState s' =? WaitingForPulse)
            || (Debug._currentState s' =? Measuring)); reflexivity.
Qed.

Lemma Ports_finishedMeasure_attached (s : Ports.URMSensor) (w : World) :
  Ports._isAttached s = true ->
  Ports.finishedMeasure s w =
    match Ports.refreshState s w with
    | Done _ s' w' =>
        Done (negb ((Ports._currentState s' =? WaitingForPulse)
                    || (Ports._currentState s' =? Measuring))) s' w'
    | Abort f => Abort f
    end.
Proof.
  intros Ha.
  unfold Ports.finishedMeasure at 1.
  unfold bind at 1, gets at 1. rewrite Ha. cbn [negb].
  unfold bind at 1. destruct (Ports.refreshState s w) as [[] s' w' | f];
    reflexivity.
Qed.

Lemma not_measuring_iff (st : Z) :
  (st =? WaitingForPulse) || (st =? Measuring) = false <->
  st <> WaitingForPulse /\ st <> Measuring.
Proof.
  rewrite orb_false_iff, !Z.eqb_neq. reflexivity.
Qed.

Lemma finishedMeasure_detached_debug (d : option Z) (s : Debug.URMSensor)
  (w : World) :
  Debug._trigPin s = URM_INVALID_PIN \/ Debug._echoPin s = URM_INVALID_PIN ->
  Debug.finishedMeasure d s w =
    Done (true, Some URM_INVALID_VALUE) (Debug.set_currentState Idle s) w.
Proof.
  intros H. destruct s, w. cbn in H.
  exec_debug.
  destruct H as [H | H]; rewrite H; rewrite Z.eqb_refl;
    cbn [negb andb]; try rewrite andb_false_r; reflexivity.
Qed.

(** C7. [finishedMeasure] on a handle that is not attached sets the
    state to [Idle] and returns true (storing [URM_INVALID_VALUE] where
    there is a distance to store) without touching the hardware; on an
    attached handle it is exactly one [refreshState], and the flag it
    returns is true exactly when the state after that poll is neither
    [WaitingForPulse] nor [Measuring]. *)
Theorem finishedMeasure_spec :
  (forall d s w,
     Debug._trigPin s = URM_INVALID_PIN \/ Debug._echoPin s = URM_INVALID_PIN ->
     Debug.finishedMeasure d s w =
       Done (true, Some URM_INVALID_VALUE) (Debug.set_currentState Idle s) w) /\
  (forall d s w,
     Debug._trigPin s <> URM_INVALID_PIN ->
     Debug._echoPin s <> URM_INVALID_PIN ->
     to_ulong (Debug._usPerCm s) <> 0 ->
     exists s' w' flag d',
       Debug.refreshState s w = Done tt s' w' /\
       Debug.finishedMeasure d s w = Done (flag, d') s' w' /\
       (flag = true <->
        Debug._currentState s' <> WaitingForPulse /\
        Debug._currentState s' <> Measuring) /\
       (flag = false -> d' = d) /\
       (flag = true ->
        exists v, d' = Some v /\
                  Debug.getMeasuredDistance s' w' = Done v s' w')) /\
  (forall s w,
     Ports._isAttached s = false ->
     Ports.finishedMeasure s w = Done true (Ports.set_currentState Idle s) w) /\
  (forall s w,
     Ports._isAttached s = true ->
     exists s' w' flag,
       Ports.refreshState s w = Done tt s' w' /\
       Ports.finishedMeasure s w = Done flag s' w' /\
       (flag = true <->
        Ports._currentState s' <> WaitingForPulse /\
        Ports._currentState s' <> Measuring)).
Proof.
  repeat apply conj.
  - exact finishedMeasure_detached_debug.
  - intros d s w Ht He Hu.
    rewrite (Debug_finishedMeasure_attached d s w Ht He).
    destruct (Debug_poll_total s w) as (s' & w' & Hrun & Hst).
    rewrite Hrun. exists s', w'.
    apply Debug_static_inv in Hst. destruct Hst as (_ & _ & Hus & _).
    destruct ((Debug._currentState s' =? WaitingForPulse)
              || (Debug._currentState s' =? Measuring)) eqn:Hm.
    + exists false, d. repeat split; try discriminate.
      intros Hn. apply not_measuring_iff in Hn. congruence.
    + destruct (Z.eq_dec (Debug._currentState s') FinishedMeasure) as [HF | HF].
      * rewrite (Debug_distance_finished s' w' HF) by (rewrite Hus; exact Hu).
        eexists true, _. repeat split; try discriminate;
          try (apply not_measuring_iff in Hm; tauto).
        intros _. eexists. split; reflexivity.
      * rewrite (Debug_distance_invalid s' w' HF).
        eexists true, _. repeat split; try discriminate;
          try (apply not_measuring_iff in Hm; tauto).
        intros _. eexists. split; reflexivity.
  - intros s w H. destruct s, w. cbn in H. subst. reflexivity.
  - intros s w Ha.
    rewrite (Ports_finishedMeasure_attached s w Ha).
    destruct (Ports_poll_total s w) as (s' & w' & Hrun & _).
    rewrite Hrun. exists s', w'. eexists.
    split; [reflexivity | split; [reflexivity |]].
    rewrite negb_true_iff. apply not_measuring_iff.
Qed.

(** A handle that was never attached, and an attached one whose pulse
    has just ended. *)
Lemma finishedMeasure_spec_witness :
  let w := sim (fun _ => 5000) (fun _ => true) in
  Debug.finishedMeasure None
    (Debug.URMSensor_new (debug_urm37 Measuring 2000 0)) w =
    Done (true, Some URM_INVALID_VALUE)
      (Debug.set_currentState Idle
         (Debug.URMSensor_new (debug_urm37 Measuring 2000 0))) w /\
  (exists s' w' flag d',
     Debug.refreshState (debug_urm37 Measuring 2000 0) w = Done tt s' w' /\
     Debug.finishedMeasure None (debug_urm37 Measuring 2000 0) w =
       Done (flag, d') s' w' /\
     (flag = true <->
      Debug._currentState s' <> WaitingForPulse /\
      Debug._currentState s' <> Measuring) /\
     (flag = false -> d' = None) /\
     (flag = true ->
      exists v, d' = Some v /\
                Debug.getMeasuredDistance s' w' = Done v s' w')) /\
  Ports.finishedMeasure (ports_urm37 false Measuring 2000 0) w =
    Done true (Ports.set_currentState Idle (ports_urm37 false Measuring 2000 0))
      w /\
  (exists s' w' flag,
     Ports.refreshState (ports_urm37 true Measuring 2000 0) w = Done tt s' w' /\
     Ports.finishedMeasure (ports_urm37 true Measuring 2000 0) w =
       Done flag s' w' /\
     (flag = true <->
      Ports._currentState s' <> WaitingForPulse /\
      Ports._currentState s' <> Measuring)).
Proof.
  destruct finishedMeasure_spec as (DN & DA & PN & PA).
  intros w. repeat apply conj.
  - apply DN. left. reflexivity.
  - apply DA; vm_compute; discriminate.
  - apply PN. reflexivity.
  - apply PA. reflexivity.
Defined.

(** * Attaching and detaching *)

(** C10. [attach] writes the pin bindings and the profile (and, in the
    port-register revision, the attached flag), and leaves the state,
    the start timestamp and the latched duration as they were: attaching
    again never brings the state machine back to [Idle]. *)
Theorem attach_keeps_measurement :
  (forall trigPin echoPin usPerCm timeoutForPulseStart maxPulseDuration
          trigActiveState echoActiveState trigPulseWidth s w,
     exists w',
       Debug.attach trigPin echoPin usPerCm timeoutForPulseStart
         maxPulseDuration trigActiveState echoActiveState trigPulseWidth s w =
       Done tt
         (Debug.mkURMSensor (to_byte trigPin) (to_byte echoPin)
            (to_int usPerCm) (to_ulong timeoutForPulseStart)
            (to_ulong maxPulseDuration) (to_byte trigActiveState)
            (to_byte echoActiveState) (to_uint trigPulseWidth)
            (Debug._startMeasureTime s) (Debug._currentDuration s)
            (Debug._currentState s))
         w') /\
  (forall (core : ArduinoCore)
          trigPin echoPin usPerCm timeoutForPulseStart maxPulseDuration
          trigActiveState echoActiveState trigPulseWidth s w,
     exists w',
       Ports.attach trigPin echoPin usPerCm timeoutForPulseStart
         maxPulseDuration trigActiveState echoActiveState trigPulseWidth s w =
       Done tt
         (let trigPort := to_byte (digitalPinToPort (to_byte trigPin)) in
          let echoPort := to_byte (digitalPinToPort (to_byte echoPin)) in
          Ports.mkURMSensor true
            (to_byte (digitalPinToBitMask (to_byte trigPin)))
            (portOutputRegister trigPort) (portInputRegister trigPort)
            (portModeRegister trigPort)
            (to_byte (digitalPinToBitMask (to_byte echoPin)))
            (portOutputRegister echoPort) (portInputRegister echoPort)
            (portModeRegister echoPort)
            (to_int usPerCm) (to_ulong timeoutForPulseStart)
            (to_ulong maxPulseDuration) (to_byte trigActiveState)
            (to_byte echoActiveState) (to_uint trigPulseWidth)
            (Ports._startMeasureTime s) (Ports._currentDuration s)
            (Ports._currentState s))
         w').
Proof.
  split; intros.
  - destruct s, w. eexists. exec_debug. reflexivity.
  - destruct s, w. eexists. exec_ports. known_states. reflexivity.
Qed.

(** C5 as stated fails: [detach] followed by operations on a handle
    that had finished a measurement of 3000 us, or was in the middle of
    one.  The distance query still answers 60 cm, and [startMeasure] and
    [refreshState] leave the state [Measuring]. *)
Lemma detach_does_not_force_idle :
  let w := sim (fun _ => 100) (fun _ => false) in
  (Debug.detach;; Debug.getMeasuredDistance)
    (debug_urm37 FinishedMeasure 2000 3000) w =
    Done 60 (Debug.URMSensor_new (debug_urm37 FinishedMeasure 2000 3000)) w /\
  (Ports.detach;; Ports.getMeasuredDistance)
    (ports_urm37 true FinishedMeasure 2000 3000) w =
    Done 60 (ports_urm37 false FinishedMeasure 2000 3000) w /\
  60 <> URM_INVALID_VALUE /\
  FinishedMeasure <> Idle /\
  (Debug.detach;; Debug.startMeasure) (debug_urm37 Measuring 0 0) w =
    Done tt (Debug.URMSensor_new (debug_urm37 Measuring 0 0)) w /\
  (Ports.detach;; Ports.startMeasure) (ports_urm37 true Measuring 0 0) w =
    Done tt (ports_urm37 false Measuring 0 0) w /\
  (Ports.detach;; Ports.refreshState) (ports_urm37 true Measuring 0 0) w =
    Done tt (ports_urm37 false Measuring 0 100) (tick (sampled w)) /\
  Measuring <> Idle.
Proof.
  intros w. repeat apply conj; try reflexivity; discriminate.
Qed.

Lemma Debug_detached_tests (s : Debug.URMSensor) :
  let s1 := Debug.set_echoPin URM_INVALID_PIN
              (Debug.set_trigPin URM_INVALID_PIN s) in
  Debug._trigPin s1 = URM_INVALID_PIN /\
  Debug._currentState s1 = Debug._currentState s /\
  Debug._currentDuration s1 = Debug._currentDuration s /\
  Debug._startMeasureTime s1 = Debug._startMeasureTime s.
Proof. destruct s. repeat split. Qed.

(** C5, amended. [detach] marks the handle unattached and leaves its
    state, start timestamp and latched duration as they were.  On the
    detached handle [finishedMeasure] and [interruptMeasure] always, and
    [startMeasure] whenever the state is neither [WaitingForPulse] nor
    [Measuring], set the state to [Idle] without touching the hardware,
    and a handle in [Idle] answers every distance query with
    [URM_INVALID_VALUE]; right after [detach] the query answers
    [URM_INVALID_VALUE] whenever the state before was not
    [FinishedMeasure]. *)
Theorem detach_spec :
  (forall s w,
     exists s1,
       Debug.detach s w = Done tt s1 w /\
       Debug.isAttached s1 w = Done false s1 w /\
       Debug._currentState s1 = Debug._currentState s /\
       Debug._startMeasureTime s1 = Debug._startMeasureTime s /\
       Debug._currentDuration s1 = Debug._currentDuration s /\
       (forall d w',
          Debug.finishedMeasure d s1 w' =
            Done (true, Some URM_INVALID_VALUE)
                 (Debug.set_currentState Idle s1) w') /\
       (forall w',
          Debug.interruptMeasure s1 w' =
            Done tt (Debug.set_currentState Idle s1) w') /\
       (forall w',
          Debug._currentState s <> WaitingForPulse ->
          Debug._currentState s <> Measuring ->
          Debug.startMeasure s1 w' =
            Done tt (Debug.set_currentState Idle s1) w') /\
       (forall w',
          Debug.getMeasuredDistance (Debug.set_currentState Idle s1) w' =
            Done URM_INVALID_VALUE (Debug.set_currentState Idle s1) w') /\
       (forall w',
          Debug._currentState s <> FinishedMeasure ->
          Debug.getMeasuredDistance s1 w' = Done URM_INVALID_VALUE s1 w')) /\
  (forall s w,
     exists s1,
       Ports.detach s w = Done tt s1 w /\
       Ports.isAttached s1 w = Done false s1 w /\
       Ports._currentState s1 = Ports._currentState s /\
       Ports._startMeasureTime s1 = Ports._startMeasureTime s /\
       Ports._currentDuration s1 = Ports._currentDuration s /\
       (forall w',
          Ports.finishedMeasure s1 w' =
            Done true (Ports.set_currentState Idle s1) w') /\
       (forall w',
          Ports.interruptMeasure s1 w' =
            Done tt (Ports.set_currentState Idle s1) w') /\
       (forall w',
          Ports._currentState s <> WaitingForPulse ->
          Ports._currentState s <> Measuring ->
          Ports.startMeasure s1 w' =
            Done tt (Ports.set_currentState Idle s1) w') /\
       (forall w',
          Ports.getMeasuredDistance (Ports.set_currentState Idle s1) w' =
            Done URM_INVALID_VALUE (Ports.set_currentState Idle s1) w') /\
       (forall w',
          Ports._currentState s <> FinishedMeasure ->
          Ports.getMeasuredDistance s1 w' = Done URM_INVALID_VALUE s1 w')).
Proof.
  split; intros s w.
  - exists (Debug.set_echoPin URM_INVALID_PIN
              (Debug.set_trigPin URM_INVALID_PIN s)).
    destruct (Debug_detached_tests s) as (Hpin & Hst & Hdur & Hstart).
    cbv zeta in Hpin, Hst, Hdur, Hstart.
    split; [reflexivity|]. split; [destruct s; reflexivity|].
    split; [exact Hst|]. split; [exact Hstart|]. split; [exact Hdur|].
    repeat apply conj.
    + intros d w'. apply finishedMeasure_detached_debug. left. exact Hpin.
    + reflexivity.
    + intros w' HW HM. apply Z.eqb_neq in HW, HM.
      destruct s, w'. cbn in HW, HM. exec_debug. rewrite HW, HM. reflexivity.
    + intros w'. apply Debug_distance_invalid. destruct s. discriminate.
    + intros w' HF. apply Debug_distance_invalid. rewrite Hst. exact HF.
  - exists (Ports.set_isAttached false s).
    split; [reflexivity|]. split; [destruct s; reflexivity|].
    split; [destruct s; reflexivity|]. split; [destruct s; reflexivity|].
    split; [destruct s; reflexivity|].
    repeat apply conj.
    + intros w'. destruct s; reflexivity.
    + reflexivity.
    + intros w' HW HM. apply Z.eqb_neq in HW, HM.
      destruct s, w'. cbn in HW, HM. exec_ports. rewrite HW, HM. reflexivity.
    + intros w'. apply Ports_distance_invalid. destruct s. discriminate.
    + intros w' HF. apply Ports_distance_invalid.
      destruct s. exact HF.
Qed.

(** Detaching an idle handle and a handle that waits for its pulse. *)
Lemma detach_spec_witness :
  let w := sim (fun _ => 100) (fun _ => false) in
  (exists s1,
     Debug.detach (debug_urm37 Idle 0 0) w = Done tt s1 w /\
     Debug.startMeasure s1 w = Done tt (Debug.set_currentState Idle s1) w /\
     Debug.getMeasuredDistance s1 w = Done URM_INVALID_VALUE s1 w) /\
  (exists s1,
     Ports.detach (ports_urm37 true WaitingForPulse 0 0) w = Done tt s1 w /\
     Ports.finishedMeasure s1 w =
       Done true (Ports.set_currentState Idle s1) w /\
     Ports.getMeasuredDistance s1 w = Done URM_INVALID_VALUE s1 w).
Proof.
  destruct detach_spec as (D & P).
  intros w. split.
  - destruct (D (debug_urm37 Idle 0 0) w)
      as (s1 & Hd & _ & _ & _ & _ & _ & _ & Hstart & _ & Hq).
    exists s1. split; [exact Hd|]. split.
    + apply Hstart; vm_compute; discriminate.
    + apply Hq. vm_compute; discriminate.
  - destruct (P (ports_urm37 true WaitingForPulse 0 0) w)
      as (s1 & Hd & _ & _ & _ & _ & Hfin & _ & _ & _ & Hq).
    exists s1. split; [exact Hd|]. split.
    + apply Hfin.
    + apply Hq. vm_compute; discriminate.
Defined.

(** * The echo pre-check of [startMeasure] *)

(** The port-register revision samples the echo line before it
    triggers: when the line is already active the state becomes [Idle]
    and nothing is written to the hardware. *)
Lemma Ports_startMeasure_echo_active (s : Ports.URMSensor) (w : World) :
  Ports._isAttached s = true ->
  Ports._currentState s <> WaitingForPulse ->
  Ports._currentState s <> Measuring ->
  Ports.echoLine s w 0 = Ports._echoActiveState s ->
  Ports.startMeasure s w =
    Done tt (Ports.set_currentState Idle s) (sampled w) /\
  trace (sampled w) = trace w /\ regs (sampled w) = regs w.
Proof.
  intros Ha HW HM He. apply Z.eqb_neq in HW, HM. apply Z.eqb_eq in He.
  split; [| split; reflexivity].
  destruct s, w. cbn in Ha, HW, HM. subst.
  revert He. exec_ports. intros He. rewrite HW, HM. cbn [orb negb].
  rewrite He. reflexivity.
Qed.

(** C6, the digitalRead revision at an input it mishandles: a URM37
    attached to pins 9 and 10, idle, whose echo line is already low
    (active) when [startMeasure] is called.  The trigger pin 9 is pulsed
    all the same and the handle ends in [Measuring]. *)
Lemma Debug_startMeasure_echo_active :
  let w := sim (fun n => 100 * Z.of_nat n) (fun _ => false) in
  Debug.isAttached (debug_urm37 Idle 0 0) w =
    Done true (debug_urm37 Idle 0 0) w /\
  Debug.echoLine (debug_urm37 Idle 0 0) w 0 = URM37_ECHO_ACTIVE_STATE /\
  exists w',
    Debug.startMeasure (debug_urm37 Idle 0 0) w =
      Done tt (debug_urm37 Measuring 200 0) w' /\
    trace w' =
      [DigitalWrite 12 LOW; DigitalWrite 11 LOW; DigitalWrite 12 HIGH;
       DigitalWrite 8 LOW; DigitalWrite 11 HIGH;
       DigitalWrite 9 HIGH; DelayMicroseconds 1; DigitalWrite 9 LOW].
Proof.
  intros w. split; [reflexivity|]. split; [reflexivity|].
  eexists. split; reflexivity.
Qed.

(** * Polling a pulse to its end *)

Lemma advanced_trans (r t r' t' : nat) (w w1 w2 : World) :
  advanced r t w w1 -> advanced r' t' w1 w2 ->
  advanced (r' + r) (t' + t) w w2.
Proof.
  intros (Hm & Hi & Hc & Hr) (Hm' & Hi' & Hc' & Hr').
  repeat split; try congruence.
  - rewrite Hc', Hc. apply Nat.add_assoc.
  - rewrite Hr', Hr. apply Nat.add_assoc.
Qed.

Lemma clock_later (r t k : nat) (w w' : World) :
  advanced r t w w' -> clock w' k = clock w (k + t).
Proof.
  intros (Hm & _ & Hc & _). unfold clock.
  rewrite Hm, Hc, Nat.add_assoc. reflexivity.
Qed.

(** The loop of the facade over any revision whose poll obeys the four
    transitions of the state machine. *)
Section Pulse.

Context {S : Type}.
Variable poll : M S unit.
Variable finished : M S bool.
Variables state start duration active timeout maxPulse : S -> Z.
Variable cfg : S -> S.
Variable ready : S -> Prop.
Variable echo : S -> World -> nat -> Z.

Hypothesis cfg_keeps : forall s s',
  cfg s' = cfg s ->
  (ready s -> ready s') /\ active s' = active s /\
  timeout s' = timeout s /\ maxPulse s' = maxPulse s /\
  forall w k, echo s' w k = echo s w k.

Hypothesis echo_later : forall s w w' r t k,
  advanced r t w w' -> echo s w' k = echo s w (k + r).

Hypothesis finished_poll : forall s w s' w',
  ready s -> poll s w = Done tt s' w' ->
  finished s w =
    Done (negb ((state s' =? WaitingForPulse) || (state s' =? Measuring)))
         s' w'.

Hypothesis stay_waiting : forall s w,
  state s = WaitingForPulse ->
  echo s w 0 <> active s ->
  to_ulong (clock w 0 - start s) <= timeout s ->
  exists s' w',
    poll s w = Done tt s' w' /\ cfg s' = cfg s /\
    state s' = WaitingForPulse /\ start s' = start s /\ advanced 1 1 w w'.

Hypothesis pulse_begins : forall s w,
  state s = WaitingForPulse ->
  echo s w 0 = active s ->
  exists s' w',
    poll s w = Done tt s' w' /\ cfg s' = cfg s /\
    state s' = Measuring /\ start s' = clock w 1 /\ advanced 1 2 w w'.

Hypothesis stay_measuring : forall s w,
  state s = Measuring ->
  echo s w 0 = active s ->
  to_ulong (clock w 0 - start s) <= maxPulse s ->
  exists s' w',
    poll s w = Done tt s' w' /\ cfg s' = cfg s /\
    state s' = Measuring /\ start s' = start s /\ advanced 1 1 w w'.

Hypothesis pulse_ends : forall s w,
  state s = Measuring ->
  echo s w 0 <> active s ->
  exists s' w',
    poll s w = Done tt s' w' /\ cfg s' = cfg s /\
    state s' = FinishedMeasure /\
    duration s' = to_ulong (clock w 0 - start s) /\ advanced 1 1 w w'.

Lemma spin_step_busy (n : nat) (s s' : S) (w w' : World) :
  ready s -> poll s w = Done tt s' w' ->
  state s' = WaitingForPulse \/ state s' = Measuring ->
  spin finished (Datatypes.S n) s w = spin finished n s' w'.
Proof.
  intros Hr Hp Hst. cbn [spin]. unfold bind at 1.
  rewrite (finished_poll s w s' w' Hr Hp).
  destruct Hst as [-> | ->]; reflexivity.
Qed.

Lemma spin_step_done (n : nat) (s s' : S) (w w' : World) :
  ready s -> poll s w = Done tt s' w' ->
  state s' = FinishedMeasure ->
  spin finished (Datatypes.S n) s w = Done tt s' w'.
Proof.
  intros Hr Hp Hst. cbn [spin]. unfold bind at 1.
  rewrite (finished_poll s w s' w' Hr Hp), Hst. reflexivity.
Qed.

Lemma idle_for_next (s s' : S) (w w' : World) (k : nat) :
  idle_for start active timeout echo s w (Datatypes.S k) ->
  cfg s' = cfg s -> start s' = start s -> advanced 1 1 w w' ->
  idle_for start active timeout echo s' w' k.
Proof.
  intros H Hc Hs Ha i Hi.
  destruct (cfg_keeps s s' Hc) as (_ & Hact & Hto & _ & Hecho).
  rewrite Hecho, Hact, Hto, Hs, (echo_later s w w' 1 1 i Ha),
    (clock_later 1 1 i w w' Ha), Nat.add_1_r.
  apply H. lia.
Qed.

Lemma active_for_next (s s' : S) (w w' : World) (m : nat) :
  active_for start active maxPulse echo s w (Datatypes.S m) ->
  cfg s' = cfg s -> start s' = start s -> advanced 1 1 w w' ->
  active_for start active maxPulse echo s' w' m.
Proof.
  intros H Hc Hs Ha j Hj.
  destruct (cfg_keeps s s' Hc) as (_ & Hact & _ & Hmax & Hecho).
  rewrite Hecho, Hact, Hmax, Hs, (echo_later s w w' 1 1 j Ha),
    (clock_later 1 1 j w w' Ha), Nat.add_1_r.
  apply H. lia.
Qed.

Lemma spin_waiting (k : nat) : forall (n : nat) (s : S) (w : World),
  ready s -> state s = WaitingForPulse ->
  idle_for start active timeout echo s w k ->
  exists s' w',
    spin finished (k + n) s w = spin finished n s' w' /\
    cfg s' = cfg s /\ state s' = WaitingForPulse /\
    start s' = start s /\ advanced k k w w'.
Proof.
  induction k as [| k IH]; intros n s w Hr Hst Hidle.
  - exists s, w. repeat split; assumption.
  - destruct (Hidle 0%nat ltac:(lia)) as (He & Ht).
    destruct (stay_waiting s w Hst He Ht)
      as (s1 & w1 & Hp & Hc & Hs1 & Hst1 & Ha).
    destruct (IH n s1 w1) as (s' & w' & Hrun & Hc' & Hs' & Hst' & Ha').
    + apply (cfg_keeps s s1 Hc). exact Hr.
    + exact Hs1.
    + exact (idle_for_next s s1 w w1 k Hidle Hc Hst1 Ha).
    + exists s', w'. split; [| split; [| split; [| split]]].
      * cbn [Nat.add].
        rewrite (spin_step_busy _ s s1 w w1 Hr Hp (or_introl Hs1)).
        exact Hrun.
      * congruence.
      * exact Hs'.
      * congruence.
      * rewrite <- (Nat.add_1_r k). exact (advanced_trans _ _ _ _ _ _ _ Ha Ha').
Qed.

Lemma spin_measuring (m : nat) : forall (n : nat) (s : S) (w : World),
  ready s -> state s = Measuring ->
  active_for start active maxPulse echo s w m ->
  exists s' w',
    spin finished (m + n) s w = spin finished n s' w' /\
    cfg s' = cfg s /\ state s' = Measuring /\
    start s' = start s /\ advanced m m w w'.
Proof.
  induction m as [| m IH]; intros n s w Hr Hst Hact.
  - exists s, w. repeat split; assumption.
  - destruct (Hact 0%nat ltac:(lia)) as (He & Ht).
    destruct (stay_measuring s w Hst He Ht)
      as (s1 & w1 & Hp & Hc & Hs1 & Hst1 & Ha).
    destruct (IH n s1 w1) as (s' & w' & Hrun & Hc' & Hs' & Hst' & Ha').
    + apply (cfg_keeps s s1 Hc). exact Hr.
    + exact Hs1.
    + exact (active_for_next s s1 w w1 m Hact Hc Hst1 Ha).
    + exists s', w'. split; [| split; [| split; [| split]]].
      * cbn [Nat.add].
        rewrite (spin_step_busy _ s s1 w w1 Hr Hp (or_intror Hs1)).
        exact Hrun.
      * congruence.
      * exact Hs'.
      * congruence.
      * rewrite <- (Nat.add_1_r m). exact (advanced_trans _ _ _ _ _ _ _ Ha Ha').
Qed.

(** From [Measuring]: [m] polls within the pulse, then the poll that
    sees its end. *)
Lemma spin_to_end (m n : nat) (s : S) (w : World) :
  ready s -> state s = Measuring ->
  active_for start active maxPulse echo s w m ->
  echo s w m <> active s ->
  exists s' w',
    spin finished (m + Datatypes.S n) s w = Done tt s' w' /\
    cfg s' = cfg s /\ state s' = FinishedMeasure /\
    duration s' = to_ulong (clock w m - start s).
Proof.
  intros Hr Hst Hact Hend.
  destruct (spin_measuring m (Datatypes.S n) s w Hr Hst Hact)
    as (s1 & w1 & Hrun & Hc & Hs1 & Hst1 & Ha).
  destruct (cfg_keeps s s1 Hc) as (Hr1 & Hactive & _ & _ & Hecho).
  destruct (pulse_ends s1 w1 Hs1) as (s' & w' & Hp & Hc' & Hs' & Hd & _).
  - rewrite Hecho, Hactive, (echo_later s w w1 m m 0 Ha). exact Hend.
  - exists s', w'. repeat split.
    + rewrite Hrun. exact (spin_step_done n s1 s' w1 w' (Hr1 Hr) Hp Hs').
    + congruence.
    + exact Hs'.
    + rewrite Hd, Hst1, (clock_later m m 0 w w1 Ha). reflexivity.
Qed.

Lemma spin_pulse (k m n : nat) (s : S) (w : World) :
  ready s -> state s = WaitingForPulse ->
  pulse_from start active timeout maxPulse echo s w k m ->
  exists s' w',
    spin finished (k + Datatypes.S (m + Datatypes.S n)) s w = Done tt s' w' /\
    cfg s' = cfg s /\ state s' = FinishedMeasure /\
    duration s' = to_ulong (clock w (2 + k + m) - clock w (1 + k)).
Proof.
  intros Hr Hst (Hidle & Hbegin & Hact & Hend).
  destruct (spin_waiting k (Datatypes.S (m + Datatypes.S n)) s w Hr Hst Hidle)
    as (s1 & w1 & Hrun1 & Hc1 & Hs1 & Hst1 & Ha1).
  destruct (cfg_keeps s s1 Hc1) as (Hr1 & Hactive1 & _ & Hmax1 & Hecho1).
  destruct (pulse_begins s1 w1 Hs1) as (s2 & w2 & Hp & Hc2 & Hs2 & Hst2 & Ha2).
  { rewrite Hecho1, Hactive1, (echo_later s w w1 k k 0 Ha1). exact Hbegin. }
  destruct (cfg_keeps s1 s2 Hc2) as (Hr2 & Hactive2 & _ & Hmax2 & Hecho2).
  pose proof (advanced_trans _ _ _ _ _ _ _ Ha1 Ha2) as Ha.
  assert (Hstart : start s2 = clock w (1 + k)).
  { rewrite Hst2, (clock_later k k 1 w w1 Ha1). reflexivity. }
  destruct (spin_to_end m n s2 w2) as (s' & w' & Hrun & Hc' & Hs' & Hd).
  - exact (Hr2 (Hr1 Hr)).
  - exact Hs2.
  - intros j Hj. destruct (Hact j Hj) as (He & Ht).
    rewrite Hecho2, Hecho1, Hactive2, Hactive1, Hmax2, Hmax1, Hstart,
      (echo_later s w w2 _ _ j Ha), (clock_later _ _ j w w2 Ha).
    replace (j + (1 + k))%nat with (1 + k + j)%nat by lia.
    replace (j + (2 + k))%nat with (2 + k + j)%nat by lia.
    split; assumption.
  - rewrite Hecho2, Hecho1, Hactive2, Hactive1,
      (echo_later s w w2 _ _ m Ha).
    replace (m + (1 + k))%nat with (1 + k + m)%nat by lia. exact Hend.
  - exists s', w'. repeat split.
    + rewrite Hrun1, (spin_step_busy _ s1 s2 w1 w2 (Hr1 Hr) Hp (or_intror Hs2)).
      exact Hrun.
    + congruence.
    + exact Hs'.
    + rewrite Hd, Hstart, (clock_later _ _ m w w2 Ha).
      replace (m + (2 + k))%nat with (2 + k + m)%nat by lia. reflexivity.
Qed.

(** The same when the first poll is the one [startMeasure] makes
    itself. *)
Lemma poll_spin_pulse (k m n : nat) (s : S) (w : World) :
  ready s -> state s = WaitingForPulse ->
  pulse_from start active timeout maxPulse echo s w k m ->
  exists s' w',
    (poll;; spin finished (k + m + 1 + n)) s w = Done tt s' w' /\
    cfg s' = cfg s /\ state s' = FinishedMeasure /\
    duration s' = to_ulong (clock w (2 + k + m) - clock w (1 + k)).
Proof.
  intros Hr Hst Hpulse. unfold bind.
  destruct k as [| k].
  - destruct Hpulse as (_ & Hbegin & Hact & Hend).
    destruct (pulse_begins s w Hst Hbegin)
      as (s1 & w1 & Hp & Hc1 & Hs1 & Hst1 & Ha1).
    destruct (cfg_keeps s s1 Hc1) as (Hr1 & Hactive1 & _ & Hmax1 & Hecho1).
    rewrite Hp.
    destruct (spin_to_end m n s1 w1) as (s' & w' & Hrun & Hc' & Hs' & Hd).
    + exact (Hr1 Hr).
    + exact Hs1.
    + intros j Hj. destruct (Hact j Hj) as (He & Ht).
      rewrite Hecho1, Hactive1, Hmax1, Hst1,
        (echo_later s w w1 _ _ j Ha1), (clock_later _ _ j w w1 Ha1).
      replace (j + 1)%nat with (1 + 0 + j)%nat by lia.
      replace (j + 2)%nat with (2 + 0 + j)%nat by lia.
      split; assumption.
    + rewrite Hecho1, Hactive1, (echo_later s w w1 _ _ m Ha1).
      replace (m + 1)%nat with (1 + 0 + m)%nat by lia. exact Hend.
    + exists s', w'. repeat split.
      * replace (0 + m + 1 + n)%nat with (m + Datatypes.S n)%nat by lia.
        exact Hrun.
      * congruence.
      * exact Hs'.
      * rewrite Hd, Hst1, (clock_later _ _ m w w1 Ha1).
        replace (m + 2)%nat with (2 + 0 + m)%nat by lia. reflexivity.
  - destruct Hpulse as (Hidle & Hbegin & Hact & Hend).
    destruct (Hidle 0%nat ltac:(lia)) as (He0 & Ht0).
    destruct (stay_waiting s w Hst He0 Ht0)
      as (s1 & w1 & Hp & Hc1 & Hs1 & Hst1 & Ha1).
    destruct (cfg_keeps s s1 Hc1) as (Hr1 & Hactive1 & _ & Hmax1 & Hecho1).
    rewrite Hp.
    destruct (spin_pulse k m n s1 w1) as (s' & w' & Hrun & Hc' & Hs' & Hd).
    + exact (Hr1 Hr).
    + exact Hs1.
    + split; [| split; [| split]].
      * exact (idle_for_next s s1 w w1 k Hidle Hc1 Hst1 Ha1).
      * rewrite Hecho1, Hactive1, (echo_later s w w1 _ _ k Ha1), Nat.add_1_r.
        exact Hbegin.
      * intros j Hj. destruct (Hact j Hj) as (He & Ht).
        rewrite Hecho1, Hactive1, Hmax1,
          (echo_later s w w1 _ _ _ Ha1), !(clock_later _ _ _ w w1 Ha1).
        replace (1 + k + j + 1)%nat with (1 + Datatypes.S k + j)%nat by lia.
        replace (2 + k + j + 1)%nat with (2 + Datatypes.S k + j)%nat by lia.
        replace (1 + k + 1)%nat with (1 + Datatypes.S k)%nat by lia.
        split; assumption.
      * rewrite Hecho1, Hactive1, (echo_later s w w1 _ _ _ Ha1).
        replace (1 + k + m + 1)%nat with (1 + Datatypes.S k + m)%nat by lia.
        exact Hend.
    + exists s', w'. repeat split.
      * replace (Datatypes.S k + m + 1 + n)%nat
          with (k + Datatypes.S (m + Datatypes.S n))%nat by lia.
        exact Hrun.
      * congruence.
      * exact Hs'.
      * rewrite Hd, !(clock_later _ _ _ w w1 Ha1).
        replace (2 + k + m + 1)%nat with (2 + Datatypes.S k + m)%nat by lia.
        replace (1 + k + 1)%nat with (1 + Datatypes.S k)%nat by lia.
        reflexivity.
Qed.

End Pulse.

(** ** The port-register revision obeys the four transitions *)

Ltac solve_advanced :=
  match goal with
  | |- advanced _ _ ?w _ => destruct w; repeat split
  end.

Lemma Ports_cfg_keeps (s s' : Ports.URMSensor) :
  Ports.static s' = Ports.static s ->
  (Ports._isAttached s = true -> Ports._isAttached s' = true) /\
  Ports._echoActiveState s' = Ports._echoActiveState s /\
  Ports._timeoutForPulseStart s' = Ports._timeoutForPulseStart s /\
  Ports._maxPulseDuration s' = Ports._maxPulseDuration s /\
  forall w k, Ports.echoLine s' w k = Ports.echoLine s w k.
Proof.
  intros H. apply Ports_static_inv in H.
  destruct H as (Ha & Hpin & Hmask & _ & Hto & Hmax & Hact).
  repeat split; try assumption; try congruence.
  intros w k. unfold Ports.echoLine. rewrite Hpin, Hmask. reflexivity.
Qed.

Lemma Ports_echo_later (s : Ports.URMSensor) (w w' : World) (r t k : nat) :
  advanced r t w w' -> Ports.echoLine s w' k = Ports.echoLine s w (k + r).
Proof.
  intros (_ & Hi & _ & Hr). unfold Ports.echoLine.
  rewrite Hi, Hr, Nat.add_assoc. reflexivity.
Qed.

Lemma Ports_finished_poll (s : Ports.URMSensor) (w : World)
  (s' : Ports.URMSensor) (w' : World) :
  Ports._isAttached s = true ->
  Ports.refreshState s w = Done tt s' w' ->
  Ports.finishedMeasure s w =
    Done (negb ((Ports._currentState s' =? WaitingForPulse)
                || (Ports._currentState s' =? Measuring))) s' w'.
Proof.
  intros Ha Hp. rewrite (Ports_finishedMeasure_attached s w Ha), Hp.
  reflexivity.
Qed.

Lemma Ports_stay_waiting (s : Ports.URMSensor) (w : World) :
  Ports._currentState s = WaitingForPulse ->
  Ports.echoLine s w 0 <> Ports._echoActiveState s ->
  to_ulong (clock w 0 - Ports._startMeasureTime s)
    <= Ports._timeoutForPulseStart s ->
  exists s' w',
    Ports.refreshState s w = Done tt s' w' /\
    Ports.static s' = Ports.static s /\
    Ports._currentState s' = WaitingForPulse /\
    Ports._startMeasureTime s' = Ports._startMeasureTime s /\
    advanced 1 1 w w'.
Proof.
  intros Hst He Ht. rewrite (Ports_poll_waiting s w Hst).
  apply Z.eqb_neq in He. rewrite He.
  replace (Ports.elapsed s w >? Ports._timeoutForPulseStart s) with false
    by (symmetry; rewrite Z.gtb_ltb; apply Z.ltb_ge; exact Ht).
  cbn [andb]. eexists; eexists; split; [reflexivity|].
  destruct s; cbn in Hst; repeat split; try assumption; solve_advanced.
Qed.

Lemma Ports_pulse_begins (s : Ports.URMSensor) (w : World) :
  Ports._currentState s = WaitingForPulse ->
  Ports.echoLine s w 0 = Ports._echoActiveState s ->
  exists s' w',
    Ports.refreshState s w = Done tt s' w' /\
    Ports.static s' = Ports.static s /\
    Ports._currentState s' = Measuring /\
    Ports._startMeasureTime s' = clock w 1 /\
    advanced 1 2 w w'.
Proof.
  intros Hst He. rewrite (Ports_poll_waiting s w Hst).
  rewrite He, Z.eqb_refl, andb_false_r.
  eexists; eexists; split; [reflexivity|].
  destruct s; repeat split; solve_advanced.
Qed.

Lemma Ports_stay_measuring (s : Ports.URMSensor) (w : World) :
  Ports._currentState s = Measuring ->
  Ports.echoLine s w 0 = Ports._echoActiveState s ->
  to_ulong (clock w 0 - Ports._startMeasureTime s)
    <= Ports._maxPulseDuration s ->
  exists s' w',
    Ports.refreshState s w = Done tt s' w' /\
    Ports.static s' = Ports.static s /\
    Ports._currentState s' = Measuring /\
    Ports._startMeasureTime s' = Ports._startMeasureTime s /\
    advanced 1 1 w w'.
Proof.
  intros Hst He Ht. rewrite (Ports_poll_measuring s w Hst).
  rewrite He, Z.eqb_refl.
  replace (Ports.elapsed s w >? Ports._maxPulseDuration s) with false
    by (symmetry; rewrite Z.gtb_ltb; apply Z.ltb_ge; exact Ht).
  cbn [andb negb]. eexists; eexists; split; [reflexivity|].
  destruct s; cbn in Hst; repeat split; try assumption; solve_advanced.
Qed.

Lemma Ports_pulse_ends (s : Ports.URMSensor) (w : World) :
  Ports._currentState s = Measuring ->
  Ports.echoLine s w 0 <> Ports._echoActiveState s ->
  exists s' w',
    Ports.refreshState s w = Done tt s' w' /\
    Ports.static s' = Ports.static s /\
    Ports._currentState s' = FinishedMeasure /\
    Ports._currentDuration s' =
      to_ulong (clock w 0 - Ports._startMeasureTime s) /\
    advanced 1 1 w w'.
Proof.
  intros Hst He. rewrite (Ports_poll_measuring s w Hst).
  apply Z.eqb_neq in He. rewrite He, andb_false_r. cbn [negb].
  eexists; eexists; split; [reflexivity|].
  destruct s; repeat split; solve_advanced.
Qed.

(** [startMeasure] on an attached idle handle whose echo line is idle:
    the trigger pulse, the clock reading and the first poll. *)
Lemma Ports_startMeasure_go (s : Ports.URMSensor) (w : World) :
  Ports._isAttached s = true ->
  Ports._currentState s <> WaitingForPulse ->
  Ports._currentState s <> Measuring ->
  Ports.echoLine s w 0 <> Ports._echoActiveState s ->
  exists w1,
    Ports.startMeasure s w =
      Ports.refreshState
        (Ports.set_startMeasureTime (clock w 0)
           (Ports.set_currentDuration 0
              (Ports.set_currentState WaitingForPulse s))) w1 /\
    advanced 1 1 w w1.
Proof.
  intros Ha HW HM He. apply Z.eqb_neq in HW, HM, He.
  destruct s, w. cbn in Ha, HW, HM. subst.
  revert He. unfold Ports.startMeasure.
  remember Ports.refreshState as poll eqn:Hpoll.
  exec_ports. intros He. rewrite HW, HM. cbn [orb negb].
  rewrite He. known_states.
  split_ifs; (eexists; split; [reflexivity | repeat split]).
Qed.

(** The loop of [Ports.measureDistance] is the loop of the facade. *)
Lemma Ports_waitFinished_spin (fuel : nat) : forall s w,
  Ports.waitFinished fuel s w = spin Ports.finishedMeasure fuel s w.
Proof.
  induction fuel as [| fuel IH]; intros s w; [reflexivity|].
  cbn [Ports.waitFinished spin]. unfold bind.
  destruct (Ports.finishedMeasure s w) as [[] s' w' | f];
    [reflexivity | apply IH | reflexivity].
Qed.

Lemma Ports_measureDistance_refines (fuel : nat) (s : Ports.URMSensor)
  (w : World) :
  Ports.measureDistance fuel s w =
    measure_spec Ports.startMeasure Ports.finishedMeasure
      Ports.getMeasuredDistance fuel s w.
Proof.
  unfold Ports.measureDistance, measure_spec, bind.
  destruct (Ports.startMeasure s w) as [[] s1 w1 | f]; [| reflexivity].
  rewrite Ports_waitFinished_spin. reflexivity.
Qed.

Lemma pulseWidth_nonneg (w : World) (a b : nat) :
  0 <= to_ulong (clock w a - clock w b).
Proof. unfold to_ulong. apply Z.mod_pos_bound. reflexivity. Qed.

(** A well-behaved echo is measured. *)
Lemma Ports_measure_pulse (k m n : nat) (s : Ports.URMSensor) (w : World) :
  Ports._isAttached s = true ->
  Ports._currentState s <> WaitingForPulse ->
  Ports._currentState s <> Measuring ->
  0 < Ports._usPerCm s < 4294967296 ->
  Ports.wellBehavedEcho s w k m ->
  exists s' w',
    Ports.measureDistance (k + m + 1 + n) s w =
      Done (Z.quot (Ports.pulseWidth w k m) (Ports._usPerCm s)) s' w' /\
    Ports._currentState s' = FinishedMeasure /\
    Ports._currentDuration s' = Ports.pulseWidth w k m /\
    Ports.static s' = Ports.static s.
Proof.
  intros Hatt HW HM Hus (Hpre & Hidle & Hbegin & Hact & Hend).
  destruct (Ports_startMeasure_go s w Hatt HW HM Hpre) as (w1 & Hstart & Ha1).
  set (s1 := Ports.set_startMeasureTime (clock w 0)
               (Ports.set_currentDuration 0
                  (Ports.set_currentState WaitingForPulse s))) in *.
  assert (Hc1 : Ports.static s1 = Ports.static s) by (destruct s; reflexivity).
  destruct (Ports_cfg_keeps s s1 Hc1) as (Hr1 & Hactive & Hto & Hmax & Hecho).
  assert (Hst1 : Ports._startMeasureTime s1 = clock w 0)
    by (destruct s; reflexivity).
  destruct (poll_spin_pulse Ports.refreshState Ports.finishedMeasure
              Ports._currentState Ports._startMeasureTime
              Ports._currentDuration Ports._echoActiveState
              Ports._timeoutForPulseStart Ports._maxPulseDuration
              Ports.static (fun s => Ports._isAttached s = true)
              Ports.echoLine
              Ports_cfg_keeps Ports_echo_later Ports_finished_poll
              Ports_stay_waiting Ports_pulse_begins Ports_stay_measuring
              Ports_pulse_ends k m n s1 w1)
    as (s' & w' & Hrun & Hc' & Hs' & Hd).
  - exact (Hr1 Hatt).
  - destruct s; reflexivity.
  - split; [| split; [| split]].
    + intros i Hi. destruct (Hidle i Hi) as (He & Ht).
      rewrite Hecho, Hactive, Hto, Hst1, (Ports_echo_later s w w1 1 1 i Ha1),
        (clock_later 1 1 i w w1 Ha1).
      replace (i + 1)%nat with (1 + i)%nat by lia. split; assumption.
    + rewrite Hecho, Hactive, (Ports_echo_later s w w1 1 1 k Ha1).
      replace (k + 1)%nat with (1 + k)%nat by lia. exact Hbegin.
    + intros j Hj. destruct (Hact j Hj) as (He & Ht).
      rewrite Hecho, Hactive, Hmax, (Ports_echo_later s w w1 1 1 _ Ha1),
        !(clock_later 1 1 _ w w1 Ha1).
      replace (1 + k + j + 1)%nat with (2 + k + j)%nat by lia.
      replace (2 + k + j + 1)%nat with (3 + k + j)%nat by lia.
      replace (1 + k + 1)%nat with (2 + k)%nat by lia.
      split; assumption.
    + rewrite Hecho, Hactive, (Ports_echo_later s w w1 1 1 _ Ha1).
      replace (1 + k + m + 1)%nat with (2 + k + m)%nat by lia. exact Hend.
  - assert (Hwidth : Ports._currentDuration s' = Ports.pulseWidth w k m).
    { rewrite Hd, !(clock_later 1 1 _ w w1 Ha1). unfold Ports.pulseWidth.
      replace (2 + k + m + 1)%nat with (3 + k + m)%nat by lia.
      replace (1 + k + 1)%nat with (2 + k)%nat by lia. reflexivity. }
    assert (Hcs : Ports.static s' = Ports.static s) by congruence.
    destruct (Ports_static_inv s s' Hcs) as (_ & _ & _ & Hus' & _).
    exists s', w'. split; [| split; [| split]]; try assumption.
    rewrite Ports_measureDistance_refines. unfold measure_spec.
    unfold bind at 1. rewrite Hstart.
    unfold bind in Hrun. unfold bind at 1.
    destruct (Ports.refreshState s1 w1) as [[] s2 w2 | f]; [| discriminate].
    rewrite Hrun.
    rewrite (Ports_distance_finished s' w' Hs')
      by (rewrite Hus', to_ulong_small; lia).
    rewrite Hus', to_ulong_small, Hwidth, Z.quot_div_nonneg; try lia;
      [reflexivity | apply pulseWidth_nonneg].
Qed.

(** ** The digitalRead revision obeys the four transitions *)

Lemma Debug_cfg_keeps (s s' : Debug.URMSensor) :
  Debug.static s' = Debug.static s ->
  (Debug_ready s -> Debug_ready s') /\
  Debug._echoActiveState s' = Debug._echoActiveState s /\
  Debug._timeoutForPulseStart s' = Debug._timeoutForPulseStart s /\
  Debug._maxPulseDuration s' = Debug._maxPulseDuration s /\
  forall w k, Debug.echoLine s' w k = Debug.echoLine s w k.
Proof.
  intros H. apply Debug_static_inv in H.
  destruct H as (Ht & He & Hus & Hto & Hmax & Hact).
  unfold Debug_ready. rewrite Ht, He, Hus.
  repeat split; try assumption; try tauto.
  intros w k. unfold Debug.echoLine. rewrite He. reflexivity.
Qed.

Lemma Debug_echo_later (s : Debug.URMSensor) (w w' : World) (r t k : nat) :
  advanced r t w w' -> Debug.echoLine s w' k = Debug.echoLine s w (k + r).
Proof.
  intros (_ & Hi & _ & Hr). unfold Debug.echoLine.
  rewrite Hi, Hr, Nat.add_assoc. reflexivity.
Qed.

(** The distance query changes nothing, whatever it answers. *)
Lemma Debug_distance_pure (s : Debug.URMSensor) (w : World) :
  (exists v, Debug.getMeasuredDistance s w = Done v s w) \/
  Debug.getMeasuredDistance s w = Abort DivisionByZero.
Proof.
  destruct s, w. exec_debug. split_ifs; eauto.
Qed.

Lemma Ports_distance_pure (s : Ports.URMSensor) (w : World) :
  (exists v, Ports.getMeasuredDistance s w = Done v s w) \/
  Ports.getMeasuredDistance s w = Abort DivisionByZero.
Proof.
  destruct s, w. exec_ports. split_ifs; eauto.
Qed.

(** What a call of [finishedMeasure] can do, whatever the variable it is
    given holds. *)
Lemma Debug_finishedMeasure_cases (s : Debug.URMSensor) (w : World) :
  (exists f, forall d, Debug.finishedMeasure d s w = Abort f) \/
  (exists s' w', forall d,
     Debug.finishedMeasure d s w = Done (false, d) s' w') \/
  (exists s' w' v,
     (forall d, Debug.finishedMeasure d s w = Done (true, Some v) s' w') /\
     Debug.getMeasuredDistance s' w' = Done v s' w' /\
     Debug._currentState s' <> WaitingForPulse /\
     Debug._currentState s' <> Measuring).
Proof.
  destruct (Z.eq_dec (Debug._trigPin s) URM_INVALID_PIN) as [Ht | Ht];
    [| destruct (Z.eq_dec (Debug._echoPin s) URM_INVALID_PIN) as [He | He]].
  - right; right. exists (Debug.set_currentState Idle s), w, URM_INVALID_VALUE.
    split; [intros d; apply finishedMeasure_detached_debug; left; exact Ht|].
    split; [apply Debug_distance_invalid |]; destruct s; repeat split;
      discriminate.
  - right; right. exists (Debug.set_currentState Idle s), w, URM_INVALID_VALUE.
    split; [intros d; apply finishedMeasure_detached_debug; right; exact He|].
    split; [apply Debug_distance_invalid |]; destruct s; repeat split;
      discriminate.
  - destruct (Debug_poll_total s w) as (s' & w' & Hrun & _).
    destruct ((Debug._currentState s' =? WaitingForPulse)
              || (Debug._currentState s' =? Measuring)) eqn:Hm.
    + right; left. exists s', w'. intros d.
      rewrite (Debug_finishedMeasure_attached d s w Ht He), Hrun, Hm.
      reflexivity.
    + destruct (Debug_distance_pure s' w') as [(v & Hv) | Hv].
      * right; right. exists s', w', v.
        split; [| split; [exact Hv | apply not_measuring_iff; exact Hm]].
        intros d.
        rewrite (Debug_finishedMeasure_attached d s w Ht He), Hrun, Hm, Hv.
        reflexivity.
      * left. exists DivisionByZero. intros d.
        rewrite (Debug_finishedMeasure_attached d s w Ht He), Hrun, Hm, Hv.
        reflexivity.
Qed.

Lemma Debug_finished_poll (s : Debug.URMSensor) (w : World)
  (s' : Debug.URMSensor) (w' : World) :
  Debug_ready s ->
  Debug.refreshState s w = Done tt s' w' ->
  Debug.finished s w =
    Done (negb ((Debug._currentState s' =? WaitingForPulse)
                || (Debug._currentState s' =? Measuring))) s' w'.
Proof.
  intros (Ht & He & Hus) Hp.
  destruct (Debug_poll_total s w) as (s2 & w2 & Hrun & Hc).
  rewrite Hp in Hrun. injection Hrun as <- <-.
  apply Debug_static_inv in Hc. destruct Hc as (_ & _ & Hus' & _).
  unfold Debug.finished, bind at 1.
  rewrite (Debug_finishedMeasure_attached None s w Ht He), Hp.
  destruct ((Debug._currentState s' =? WaitingForPulse)
            || (Debug._currentState s' =? Measuring)) eqn:Hm;
    [reflexivity|].
  destruct (Z.eq_dec (Debug._currentState s') FinishedMeasure) as [HF | HF].
  - rewrite (Debug_distance_finished s' w' HF) by (rewrite Hus'; exact Hus).
    reflexivity.
  - rewrite (Debug_distance_invalid s' w' HF). reflexivity.
Qed.

Lemma Debug_stay_waiting (s : Debug.URMSensor) (w : World) :
  Debug._currentState s = WaitingForPulse ->
  Debug.echoLine s w 0 <> Debug._echoActiveState s ->
  to_ulong (clock w 0 - Debug._startMeasureTime s)
    <= Debug._timeoutForPulseStart s ->
  exists s' w',
    Debug.refreshState s w = Done tt s' w' /\
    Debug.static s' = Debug.static s /\
    Debug._currentState s' = WaitingForPulse /\
    Debug._startMeasureTime s' = Debug._startMeasureTime s /\
    advanced 1 1 w w'.
Proof.
  intros Hst He Ht. rewrite (Debug_poll_waiting s w Hst). cbv zeta.
  apply Z.eqb_neq in He. rewrite He.
  replace (Debug.elapsed s w >? Debug._timeoutForPulseStart s) with false
    by (symmetry; rewrite Z.gtb_ltb; apply Z.ltb_ge; exact Ht).
  cbn [andb]. eexists; eexists; split; [reflexivity|].
  destruct s; cbn in Hst; repeat split; try assumption; solve_advanced.
Qed.

Lemma Debug_pulse_begins (s : Debug.URMSensor) (w : World) :
  Debug._currentState s = WaitingForPulse ->
  Debug.echoLine s w 0 = Debug._echoActiveState s ->
  exists s' w',
    Debug.refreshState s w = Done tt s' w' /\
    Debug.static s' = Debug.static s /\
    Debug._currentState s' = Measuring /\
    Debug._startMeasureTime s' = clock w 1 /\
    advanced 1 2 w w'.
Proof.
  intros Hst He. rewrite (Debug_poll_waiting s w Hst). cbv zeta.
  rewrite He, Z.eqb_refl, andb_false_r.
  eexists; eexists; split; [reflexivity|].
  destruct s; repeat split; solve_advanced.
Qed.

Lemma Debug_stay_measuring (s : Debug.URMSensor) (w : World) :
  Debug._currentState s = Measuring ->
  Debug.echoLine s w 0 = Debug._echoActiveState s ->
  to_ulong (clock w 0 - Debug._startMeasureTime s)
    <= Debug._maxPulseDuration s ->
  exists s' w',
    Debug.refreshState s w = Done tt s' w' /\
    Debug.static s' = Debug.static s /\
    Debug._currentState s' = Measuring /\
    Debug._startMeasureTime s' = Debug._startMeasureTime s /\
    advanced 1 1 w w'.
Proof.
  intros Hst He Ht. rewrite (Debug_poll_measuring s w Hst). cbv zeta.
  rewrite He, Z.eqb_refl.
  replace (Debug.elapsed s w >? Debug._maxPulseDuration s) with false
    by (symmetry; rewrite Z.gtb_ltb; apply Z.ltb_ge; exact Ht).
  cbn [andb negb]. eexists; eexists; split; [reflexivity|].
  destruct s; cbn in Hst; repeat split; try assumption; solve_advanced.
Qed.

Lemma Debug_pulse_ends (s : Debug.URMSensor) (w : World) :
  Debug._currentState s = Measuring ->
  Debug.echoLine s w 0 <> Debug._echoActiveState s ->
  exists s' w',
    Debug.refreshState s w = Done tt s' w' /\
    Debug.static s' = Debug.static s /\
    Debug._currentState s' = FinishedMeasure /\
    Debug._currentDuration s' =
      to_ulong (clock w 0 - Debug._startMeasureTime s) /\
    advanced 1 1 w w'.
Proof.
  intros Hst He. rewrite (Debug_poll_measuring s w Hst). cbv zeta.
  apply Z.eqb_neq in He. rewrite He, andb_false_r. cbn [negb].
  eexists; eexists; split; [reflexivity|].
  destruct s; repeat split; solve_advanced.
Qed.

(** [startMeasure] on an attached idle handle: the trigger pulse, the
    clock reading and the first poll; the echo line is not looked at
    before. *)
Lemma Debug_startMeasure_go (s : Debug.URMSensor) (w : World) :
  Debug._trigPin s <> URM_INVALID_PIN ->
  Debug._echoPin s <> URM_INVALID_PIN ->
  Debug._currentState s <> WaitingForPulse ->
  Debug._currentState s <> Measuring ->
  exists w1,
    Debug.startMeasure s w =
      Debug.refreshState
        (Debug.set_startMeasureTime (clock w 0)
           (Debug.set_currentDuration 0
              (Debug.set_currentState WaitingForPulse s))) w1 /\
    advanced 0 1 w w1.
Proof.
  intros Ht He HW HM. apply Z.eqb_neq in Ht, He, HW, HM.
  destruct s, w.
  cbv [Debug._trigPin Debug._echoPin Debug._currentState] in Ht, He, HW, HM.
  unfold Debug.startMeasure.
  remember Debug.refreshState as poll eqn:Hpoll.
  exec_debug. rewrite HW, HM. cbn [orb]. exec_debug.
  rewrite Ht, He. cbn [negb andb].
  eexists; split; [reflexivity | repeat split].
Qed.

(** The loop of [Debug.measureDistance], which reads the distance
    [finishedMeasure] stored, against the loop of the facade followed by
    the distance query. *)
Lemma Debug_waitFinished_spin (fuel : nat) : forall d s w,
  (distance <- Debug.waitFinished fuel d;;
   match distance with
   | Some v => ret v
   | None => fail UninitializedRead
   end) s w =
  (spin Debug.finished fuel;; Debug.getMeasuredDistance) s w.
Proof.
  induction fuel as [| fuel IH]; intros d s w; [reflexivity|].
  pose proof IH as IH'.
  unfold bind in IH' |- *. cbn [Debug.waitFinished spin].
  unfold bind, Debug.finished, bind.
  destruct (Debug_finishedMeasure_cases s w)
    as [(f & Hf) | [(s' & w' & Hf) | (s' & w' & v & Hf & Hv & _)]];
    rewrite (Hf d), (Hf None); cbn [fst snd ret].
  - reflexivity.
  - apply IH'.
  - unfold ret. rewrite Hv. reflexivity.
Qed.

Lemma Debug_measureDistance_refines (fuel : nat) (s : Debug.URMSensor)
  (w : World) :
  Debug.measureDistance fuel s w =
    measure_spec Debug.startMeasure Debug.finished
      Debug.getMeasuredDistance fuel s w.
Proof.
  unfold Debug.measureDistance, measure_spec. unfold bind at 1 3.
  destruct (Debug.startMeasure s w) as [[] s1 w1 | f]; [| reflexivity].
  apply Debug_waitFinished_spin.
Qed.

(** A well-behaved echo is measured. *)
Lemma Debug_measure_pulse (k m n : nat) (s : Debug.URMSensor) (w : World) :
  Debug._trigPin s <> URM_INVALID_PIN ->
  Debug._echoPin s <> URM_INVALID_PIN ->
  Debug._currentState s <> WaitingForPulse ->
  Debug._currentState s <> Measuring ->
  0 < Debug._usPerCm s < 4294967296 ->
  Debug.wellBehavedEcho s w k m ->
  exists s' w',
    Debug.measureDistance (k + m + 1 + n) s w =
      Done (Z.quot (Debug.pulseWidth w k m) (Debug._usPerCm s)) s' w' /\
    Debug._currentState s' = FinishedMeasure /\
    Debug._currentDuration s' = Debug.pulseWidth w k m /\
    Debug.static s' = Debug.static s.
Proof.
  intros Htrig Hecho HW HM Hus (Hidle & Hbegin & Hact & Hend).
  destruct (Debug_startMeasure_go s w Htrig Hecho HW HM) as (w1 & Hstart & Ha1).
  set (s1 := Debug.set_startMeasureTime (clock w 0)
               (Debug.set_currentDuration 0
                  (Debug.set_currentState WaitingForPulse s))) in *.
  assert (Hready : Debug_ready s).
  { repeat split; try assumption. rewrite to_ulong_small; lia. }
  assert (Hc1 : Debug.static s1 = Debug.static s) by (destruct s; reflexivity).
  destruct (Debug_cfg_keeps s s1 Hc1) as (Hr1 & Hactive & Hto & Hmax & Hline).
  assert (Hst1 : Debug._startMeasureTime s1 = clock w 0)
    by (destruct s; reflexivity).
  destruct (poll_spin_pulse Debug.refreshState Debug.finished
              Debug._currentState Debug._startMeasureTime
              Debug._currentDuration Debug._echoActiveState
              Debug._timeoutForPulseStart Debug._maxPulseDuration
              Debug.static Debug_ready Debug.echoLine
              Debug_cfg_keeps Debug_echo_later Debug_finished_poll
              Debug_stay_waiting Debug_pulse_begins Debug_stay_measuring
              Debug_pulse_ends k m n s1 w1)
    as (s' & w' & Hrun & Hc' & Hs' & Hd).
  - exact (Hr1 Hready).
  - destruct s; reflexivity.
  - split; [| split; [| split]].
    + intros i Hi. destruct (Hidle i Hi) as (He & Ht).
      rewrite Hline, Hactive, Hto, Hst1, (Debug_echo_later s w w1 0 1 i Ha1),
        (clock_later 0 1 i w w1 Ha1), Nat.add_0_r.
      replace (i + 1)%nat with (1 + i)%nat by lia. split; assumption.
    + rewrite Hline, Hactive, (Debug_echo_later s w w1 0 1 k Ha1), Nat.add_0_r.
      exact Hbegin.
    + intros j Hj. destruct (Hact j Hj) as (He & Ht).
      rewrite Hline, Hactive, Hmax, (Debug_echo_later s w w1 0 1 _ Ha1),
        !(clock_later 0 1 _ w w1 Ha1), Nat.add_0_r.
      replace (2 + k + j + 1)%nat with (3 + k + j)%nat by lia.
      replace (1 + k + 1)%nat with (2 + k)%nat by lia.
      split; assumption.
    + rewrite Hline, Hactive, (Debug_echo_later s w w1 0 1 _ Ha1), Nat.add_0_r.
      exact Hend.
  - assert (Hwidth : Debug._currentDuration s' = Debug.pulseWidth w k m).
    { rewrite Hd, !(clock_later 0 1 _ w w1 Ha1). unfold Debug.pulseWidth.
      replace (2 + k + m + 1)%nat with (3 + k + m)%nat by lia.
      replace (1 + k + 1)%nat with (2 + k)%nat by lia. reflexivity. }
    assert (Hcs : Debug.static s' = Debug.static s) by congruence.
    destruct (Debug_static_inv s s' Hcs) as (_ & _ & Hus' & _).
    exists s', w'. split; [| split; [| split]]; try assumption.
    rewrite Debug_measureDistance_refines. unfold measure_spec.
    unfold bind at 1. rewrite Hstart.
    unfold bind in Hrun. unfold bind at 1.
    destruct (Debug.refreshState s1 w1) as [[] s2 w2 | f]; [| discriminate].
    rewrite Hrun.
    rewrite (Debug_distance_finished s' w' Hs')
      by (rewrite Hus', to_ulong_small; lia).
    rewrite Hus', to_ulong_small, Hwidth, Z.quot_div_nonneg; try lia;
      [reflexivity | apply pulseWidth_nonneg].
Qed.

(** ** What the facade returns *)

Section SpinExit.

Context {S : Type}.
Variable finished : M S bool.
Variable P : S -> Prop.

Hypothesis finished_true : forall s w s' w',
  finished s w = Done true s' w' -> P s'.

Lemma spin_exit (fuel : nat) : forall s w s' w',
  spin finished fuel s w = Done tt s' w' -> P s'.
Proof.
  induction fuel as [| fuel IH]; intros s w s' w' H; [discriminate|].
  cbn [spin] in H. unfold bind in H.
  destruct (finished s w) as [[|] s1 w1 | f] eqn:E.
  - injection H as <- <-. exact (finished_true s w s1 w1 E).
  - exact (IH s1 w1 s' w' H).
  - discriminate.
Qed.

End SpinExit.

Lemma Debug_finished_true (s : Debug.URMSensor) (w : World)
  (s' : Debug.URMSensor) (w' : World) :
  Debug.finished s w = Done true s' w' ->
  Debug._currentState s' <> WaitingForPulse /\
  Debug._currentState s' <> Measuring.
Proof.
  unfold Debug.finished, bind.
  destruct (Debug_finishedMeasure_cases s w)
    as [(f & Hf) | [(s1 & w1 & Hf) | (s1 & w1 & v & Hf & _ & HW & HM)]];
    rewrite (Hf None); cbn [fst ret]; unfold ret; intros H;
    try discriminate.
  injection H as <- <-. split; assumption.
Qed.

Lemma Ports_finished_true (s : Ports.URMSensor) (w : World)
  (s' : Ports.URMSensor) (w' : World) :
  Ports.finishedMeasure s w = Done true s' w' ->
  Ports._currentState s' <> WaitingForPulse /\
  Ports._currentState s' <> Measuring.
Proof.
  destruct (Ports._isAttached s) eqn:Ha.
  - rewrite (Ports_finishedMeasure_attached s w Ha).
    destruct (Ports.refreshState s w) as [[] s1 w1 | f]; [| discriminate].
    intros H. injection H as Hm <- <-.
    apply not_measuring_iff, negb_true_iff. exact Hm.
  - destruct s, w. cbn in Ha. subst. exec_ports.
    intros H. injection H as <- <-. split; discriminate.
Qed.

Lemma Debug_measure_returns (fuel : nat) (s : Debug.URMSensor) (w : World)
  (v : Z) (s' : Debug.URMSensor) (w' : World) :
  Debug.measureDistance fuel s w = Done v s' w' ->
  Debug._currentState s' <> WaitingForPulse /\
  Debug._currentState s' <> Measuring /\
  Debug.getMeasuredDistance s' w' = Done v s' w' /\
  (Debug._currentState s' <> FinishedMeasure -> v = URM_INVALID_VALUE).
Proof.
  rewrite Debug_measureDistance_refines. unfold measure_spec, bind.
  destruct (Debug.startMeasure s w) as [[] s1 w1 | f]; [| discriminate].
  destruct (spin Debug.finished fuel s1 w1) as [[] s2 w2 | f] eqn:E;
    [| discriminate].
  intros H.
  destruct (Debug_distance_pure s2 w2) as [(v2 & Hv) | Hv];
    rewrite Hv in H; [| discriminate].
  injection H as <- <- <-.
  destruct (spin_exit Debug.finished _ Debug_finished_true fuel s1 w1 s2 w2 E)
    as (HW & HM).
  repeat split; try assumption.
  intros HF. rewrite (Debug_distance_invalid s2 w2 HF) in Hv.
  injection Hv as <-. reflexivity.
Qed.

Lemma Ports_measure_returns (fuel : nat) (s : Ports.URMSensor) (w : World)
  (v : Z) (s' : Ports.URMSensor) (w' : World) :
  Ports.measureDistance fuel s w = Done v s' w' ->
  Ports._currentState s' <> WaitingForPulse /\
  Ports._currentState s' <> Measuring /\
  Ports.getMeasuredDistance s' w' = Done v s' w' /\
  (Ports._currentState s' <> FinishedMeasure -> v = URM_INVALID_VALUE).
Proof.
  rewrite Ports_measureDistance_refines. unfold measure_spec, bind.
  destruct (Ports.startMeasure s w) as [[] s1 w1 | f]; [| discriminate].
  destruct (spin Ports.finishedMeasure fuel s1 w1) as [[] s2 w2 | f] eqn:E;
    [| discriminate].
  intros H.
  destruct (Ports_distance_pure s2 w2) as [(v2 & Hv) | Hv];
    rewrite Hv in H; [| discriminate].
  injection H as <- <- <-.
  destruct (spin_exit Ports.finishedMeasure _ Ports_finished_true
              fuel s1 w1 s2 w2 E) as (HW & HM).
  repeat split; try assumption.
  intros HF. rewrite (Ports_distance_invalid s2 w2 HF) in Hv.
  injection Hv as <-. reflexivity.
Qed.

(** C9. [measureDistance] is the composition the specification words:
    [startMeasure], then [finishedMeasure] until it returns true, then
    the distance query; with the same number of iterations allowed both
    give the same value and leave the same object and hardware, for
    every handle and every behaviour of the clock and the echo line.
    Whenever it returns, the state is neither [WaitingForPulse] nor
    [Measuring] and the value is what [getMeasuredDistance] answers in
    that state, hence [URM_INVALID_VALUE] unless the state is
    [FinishedMeasure].  For an attached handle with a positive scale and
    an echo that begins after [k] polls and ends after [m] more, each in
    time, it returns after at most [k + m + 1] calls of
    [finishedMeasure] with the measured pulse width divided by
    [_usPerCm], in [FinishedMeasure]. *)
Theorem measureDistance_is_async_composition :
  (forall fuel s w,
     Debug.measureDistance fuel s w =
       measure_spec Debug.startMeasure Debug.finished
         Debug.getMeasuredDistance fuel s w) /\
  (forall fuel s w,
     Ports.measureDistance fuel s w =
       measure_spec Ports.startMeasure Ports.finishedMeasure
         Ports.getMeasuredDistance fuel s w) /\
  (forall fuel s w v s' w',
     Debug.measureDistance fuel s w = Done v s' w' ->
     Debug._currentState s' <> WaitingForPulse /\
     Debug._currentState s' <> Measuring /\
     Debug.getMeasuredDistance s' w' = Done v s' w' /\
     (Debug._currentState s' <> FinishedMeasure -> v = URM_INVALID_VALUE)) /\
  (forall fuel s w v s' w',
     Ports.measureDistance fuel s w = Done v s' w' ->
     Ports._currentState s' <> WaitingForPulse /\
     Ports._currentState s' <> Measuring /\
     Ports.getMeasuredDistance s' w' = Done v s' w' /\
     (Ports._currentState s' <> FinishedMeasure -> v = URM_INVALID_VALUE)) /\
  (forall k m n s w,
     Debug._trigPin s <> URM_INVALID_PIN ->
     Debug._echoPin s <> URM_INVALID_PIN ->
     Debug._currentState s <> WaitingForPulse ->
     Debug._currentState s <> Measuring ->
     0 < Debug._usPerCm s < 4294967296 ->
     Debug.wellBehavedEcho s w k m ->
     exists s' w',
       Debug.measureDistance (k + m + 1 + n) s w =
         Done (Z.quot (Debug.pulseWidth w k m) (Debug._usPerCm s)) s' w' /\
       Debug._currentState s' = FinishedMeasure /\
       Debug._currentDuration s' = Debug.pulseWidth w k m /\
       Debug.static s' = Debug.static s) /\
  (forall k m n s w,
     Ports._isAttached s = true ->
     Ports._currentState s <> WaitingForPulse ->
     Ports._currentState s <> Measuring ->
     0 < Ports._usPerCm s < 4294967296 ->
     Ports.wellBehavedEcho s w k m ->
     exists s' w',
       Ports.measureDistance (k + m + 1 + n) s w =
         Done (Z.quot (Ports.pulseWidth w k m) (Ports._usPerCm s)) s' w' /\
       Ports._currentState s' = FinishedMeasure /\
       Ports._currentDuration s' = Ports.pulseWidth w k m /\
       Ports.static s' = Ports.static s).
Proof.
  repeat apply conj.
  - exact Debug_measureDistance_refines.
  - exact Ports_measureDistance_refines.
  - exact Debug_measure_returns.
  - exact Ports_measure_returns.
  - exact Debug_measure_pulse.
  - exact Ports_measure_pulse.
Qed.

(** A URM37 whose echo goes low 2000 us after the start and stays low
    for 3000 us, polled every 500 us: 60 cm from both revisions; and a
    sensor that never answers. *)
Lemma measureDistance_is_async_composition_witness :
  let time := fun n => 500 * Z.of_nat n in
  let answering_d := sim time (fun n => (n <? 3)%nat || (9 <=? n)%nat) in
  let answering_p := sim time (fun n => (n <? 4)%nat || (10 <=? n)%nat) in
  let silent := sim (fun n => 20000 * Z.of_nat n) (fun _ => true) in
  (exists s' w',
     Debug.measureDistance 9 (debug_urm37 Idle 0 0) answering_d =
       Done 60 s' w' /\
     Debug._currentState s' = FinishedMeasure /\
     Debug._currentDuration s' = 3000) /\
  (exists s' w',
     Ports.measureDistance 9 (ports_urm37 true Idle 0 0) answering_p =
       Done 60 s' w' /\
     Ports._currentState s' = FinishedMeasure /\
     Ports._currentDuration s' = 3000) /\
  (exists v s' w',
     Debug.measureDistance 4 (debug_urm37 Idle 0 0) silent = Done v s' w' /\
     Debug.getMeasuredDistance s' w' = Done v s' w' /\
     v = URM_INVALID_VALUE) /\
  (exists v s' w',
     Ports.measureDistance 4 (ports_urm37 true Idle 0 0) silent =
       Done v s' w' /\
     Ports.getMeasuredDistance s' w' = Done v s' w' /\
     v = URM_INVALID_VALUE).
Proof.
  destruct measureDistance_is_async_composition
    as (_ & _ & DR & PR & DP & PP).
  intros time answering_d answering_p silent.
  assert (Hd : Debug.wellBehavedEcho (debug_urm37 Idle 0 0) answering_d 3 5).
  { repeat apply conj.
    - intros i Hi. destruct i as [| [| [| i]]];
        [split; vm_compute; discriminate ..| lia].
    - reflexivity.
    - intros j Hj. destruct j as [| [| [| [| [| j]]]]];
        [split; [reflexivity | vm_compute; discriminate] ..| lia].
    - vm_compute; discriminate. }
  assert (Hp : Ports.wellBehavedEcho (ports_urm37 true Idle 0 0)
                 answering_p 3 5).
  { repeat apply conj.
    - vm_compute; discriminate.
    - intros i Hi. destruct i as [| [| [| i]]];
        [split; vm_compute; discriminate ..| lia].
    - reflexivity.
    - intros j Hj. destruct j as [| [| [| [| [| j]]]]];
        [split; [reflexivity | vm_compute; discriminate] ..| lia].
    - vm_compute; discriminate. }
  repeat apply conj.
  - destruct (DP 3%nat 5%nat 0%nat (debug_urm37 Idle 0 0) answering_d
                ltac:(vm_compute; discriminate) ltac:(vm_compute; discriminate)
                ltac:(vm_compute; discriminate) ltac:(vm_compute; discriminate)
                ltac:(vm_compute; split; reflexivity) Hd)
      as (s' & w' & Hrun & Hst & Hdur & _).
    exists s', w'. repeat split; assumption.
  - destruct (PP 3%nat 5%nat 0%nat (ports_urm37 true Idle 0 0) answering_p
                eq_refl
                ltac:(vm_compute; discriminate) ltac:(vm_compute; discriminate)
                ltac:(vm_compute; split; reflexivity) Hp)
      as (s' & w' & Hrun & Hst & Hdur & _).
    exists s', w'. repeat split; assumption.
  - destruct (Debug.measureDistance 4 (debug_urm37 Idle 0 0) silent)
      as [v s' w' | f] eqn:E; [| vm_compute in E; discriminate].
    destruct (DR _ _ _ _ _ _ E) as (_ & _ & Hq & Hinv).
    exists v, s', w'. repeat split; try assumption.
    apply Hinv. vm_compute in E. injection E as _ <- _. discriminate.
  - destruct (Ports.measureDistance 4 (ports_urm37 true Idle 0 0) silent)
      as [v s' w' | f] eqn:E; [| vm_compute in E; discriminate].
    destruct (PR _ _ _ _ _ _ E) as (_ & _ & Hq & Hinv).
    exists v, s', w'. repeat split; try assumption.
    apply Hinv. vm_compute in E. injection E as _ <- _. discriminate.
Defined.

(** * Further properties of the driver *)

(** ** The pre-check, the interrupt and the unattached handle *)

(** X1. The port-register revision with the echo line already active:
    [startMeasure] on an attached handle that is not measuring sets the
    state to [Idle] after one sampling of the line and writes nothing,
    so no trigger pulse is issued; the synchronous call then returns
    [URM_INVALID_VALUE] at its first iteration, after one more sampling
    and still without a write or a clock reading. *)
Theorem echo_already_active_aborts :
  forall fuel s w,
    Ports._isAttached s = true ->
    Ports._currentState s <> WaitingForPulse ->
    Ports._currentState s <> Measuring ->
    Ports.echoLine s w 0 = Ports._echoActiveState s ->
    Ports.startMeasure s w =
      Done tt (Ports.set_currentState Idle s) (sampled w) /\
    Ports.measureDistance (S fuel) s w =
      Done URM_INVALID_VALUE (Ports.set_currentState Idle s)
        (sampled (sampled w)) /\
    trace (sampled (sampled w)) = trace w /\
    regs (sampled (sampled w)) = regs w /\
    micros_calls (sampled (sampled w)) = micros_calls w.
Proof.
  intros fuel s w Ha HW HM He.
  destruct (Ports_startMeasure_echo_active s w Ha HW HM He) as (Hs & _).
  split; [exact Hs|]. split; [| repeat split].
  unfold Ports.measureDistance. unfold bind at 1. rewrite Hs.
  cbn [Ports.waitFinished]. unfold bind at 1 2.
  set (s0 := Ports.set_currentState Idle s).
  assert (H0 : Ports._currentState s0 = Idle) by (destruct s; reflexivity).
  assert (Ha0 : Ports._isAttached s0 = true) by (destruct s; exact Ha).
  rewrite (Ports_finishedMeasure_attached s0 _ Ha0), Ports_poll_resting, H0
    by (rewrite H0; discriminate).
  reflexivity.
Qed.

(** A URM37 on an Uno whose echo line is already low when the
    measurement is started. *)
Lemma echo_already_active_aborts_witness :
  let s := ports_urm37 true FinishedMeasure 0 3000 in
  let w := sim (fun _ => 0) (fun _ => false) in
  Ports.startMeasure s w =
    Done tt (Ports.set_currentState Idle s) (sampled w) /\
  Ports.measureDistance 1 s w =
    Done URM_INVALID_VALUE (Ports.set_currentState Idle s)
      (sampled (sampled w)) /\
  trace (sampled (sampled w)) = trace w /\
  regs (sampled (sampled w)) = regs w /\
  micros_calls (sampled (sampled w)) = micros_calls w.
Proof.
  intros s w.
  apply (echo_already_active_aborts 0 s w);
    [reflexivity | vm_compute; discriminate | vm_compute; discriminate
    | reflexivity].
Defined.

(** X2. [interruptMeasure] discards a measurement in whatever state it
    is: the state is [Idle] and the hardware is not touched, the
    distance query answers [URM_INVALID_VALUE], and the next
    [finishedMeasure] on an attached handle reports completion after a
    poll that changes nothing in the object, whatever the echo line and
    the clock do. *)
Theorem interruptMeasure_discards :
  (forall s w,
     (Debug.interruptMeasure;; Debug.getMeasuredDistance) s w =
       Done URM_INVALID_VALUE (Debug.set_currentState Idle s) w) /\
  (forall s w,
     (Ports.interruptMeasure;; Ports.getMeasuredDistance) s w =
       Done URM_INVALID_VALUE (Ports.set_currentState Idle s) w) /\
  (forall d s w,
     exists w',
       (Debug.interruptMeasure;; Debug.finishedMeasure d) s w =
         Done (true, Some URM_INVALID_VALUE)
              (Debug.set_currentState Idle s) w') /\
  (forall s w,
     exists w',
       (Ports.interruptMeasure;; Ports.finishedMeasure) s w =
         Done true (Ports.set_currentState Idle s) w' /\
       trace w' = trace w /\ regs w' = regs w).
Proof.
  repeat apply conj.
  - intros s w. unfold bind, Debug.interruptMeasure, modify.
    apply Debug_distance_invalid. destruct s; discriminate.
  - intros s w. unfold bind, Ports.interruptMeasure, modify.
    apply Ports_distance_invalid. destruct s; discriminate.
  - intros d s w. unfold bind at 1, Debug.interruptMeasure, modify.
    set (s0 := Debug.set_currentState Idle s).
    assert (H0 : Debug._currentState s0 = Idle) by (destruct s; reflexivity).
    destruct (Z.eq_dec (Debug._trigPin s0) URM_INVALID_PIN) as [Ht | Ht];
      [exists w; rewrite finishedMeasure_detached_debug by (left; exact Ht);
       destruct s; reflexivity |].
    destruct (Z.eq_dec (Debug._echoPin s0) URM_INVALID_PIN) as [He | He];
      [exists w; rewrite finishedMeasure_detached_debug by (right; exact He);
       destruct s; reflexivity |].
    eexists.
    rewrite (Debug_finishedMeasure_attached d s0 w Ht He),
      Debug_poll_resting, H0 by (rewrite H0; discriminate).
    rewrite Debug_distance_invalid by (rewrite H0; discriminate).
    reflexivity.
  - intros s w. unfold bind at 1, Ports.interruptMeasure, modify.
    set (s0 := Ports.set_currentState Idle s).
    assert (H0 : Ports._currentState s0 = Idle) by (destruct s; reflexivity).
    destruct (Ports._isAttached s0) eqn:Ha.
    + exists (sampled w).
      rewrite (Ports_finishedMeasure_attached s0 w Ha), Ports_poll_resting, H0
        by (rewrite H0; discriminate).
      repeat split.
    + exists w. split; [| split; reflexivity].
      destruct s; cbn in Ha; subst; reflexivity.
Qed.

(** [Ports.attach] always returns, with the handle attached. *)
Lemma attach_register_state (core : ArduinoCore)
  (trigPin echoPin usPerCm timeout maxPulse trigActive echoActive width : Z)
  (s : Ports.URMSensor) (w : World) :
  exists s' w',
    Ports.attach trigPin echoPin usPerCm timeout maxPulse trigActive
      echoActive width s w = Done tt s' w' /\
    Ports._isAttached s' = true.
Proof.
  destruct s, w. eexists; eexists. exec_ports. known_states.
  split; reflexivity.
Qed.

(** ** Durations across a wrap of the clock *)

Lemma ulong_difference (a d : Z) :
  0 <= d < 4294967296 -> to_ulong (to_ulong (a + d) - to_ulong a) = d.
Proof.
  intros Hd. unfold to_ulong.
  rewrite Zminus_mod_idemp_l, Zminus_mod_idemp_r.
  replace (a + d - a) with d by ring. apply Z.mod_small. exact Hd.
Qed.

(** X3. The duration survives a wrap of the 32-bit clock: when [d]
    microseconds, less than 2^32, pass between [resetTime] and
    [getCurrentDuration], the duration computed and stored is [d],
    wherever the microsecond counter stood. *)
Theorem duration_survives_clock_wrap :
  (forall s w d,
     0 <= d < 4294967296 ->
     micros_at w (S (micros_calls w)) = micros_at w (micros_calls w) + d ->
     (Debug.resetTime;; Debug.getCurrentDuration) s w =
       Done d
         (Debug.set_currentDuration d
            (Debug.set_startMeasureTime (clock w 0)
               (Debug.set_currentDuration 0 s)))
         (tick (tick w))) /\
  (forall s w d,
     0 <= d < 4294967296 ->
     micros_at w (S (micros_calls w)) = micros_at w (micros_calls w) + d ->
     (Ports.resetTime;; Ports.getCurrentDuration) s w =
       Done d
         (Ports.set_currentDuration d
            (Ports.set_startMeasureTime (clock w 0)
               (Ports.set_currentDuration 0 s)))
         (tick (tick w))).
Proof.
  split; intros s w d Hd Hnext.
  - pose proof (ulong_difference (micros_at w (micros_calls w)) d Hd) as E.
    rewrite <- Hnext in E. destruct s, w. cbn in E.
    exec_debug. rewrite E. reflexivity.
  - pose proof (ulong_difference (micros_at w (micros_calls w)) d Hd) as E.
    rewrite <- Hnext in E. destruct s, w. cbn in E.
    exec_ports. rewrite E. reflexivity.
Qed.

(** 3000 us that begin 296 us before the counter wraps. *)
Lemma duration_survives_clock_wrap_witness :
  let w := sim (fun n => 4294967000 + 3000 * Z.of_nat n) (fun _ => true) in
  clock w 0 = 4294967000 /\ clock w 1 = 2704 /\
  (Debug.resetTime;; Debug.getCurrentDuration) (debug_urm37 Idle 0 0) w =
    Done 3000 (debug_urm37 Idle 4294967000 3000) (tick (tick w)) /\
  (Ports.resetTime;; Ports.getCurrentDuration) (ports_urm37 true Idle 0 0) w =
    Done 3000 (ports_urm37 true Idle 4294967000 3000) (tick (tick w)).
Proof.
  destruct duration_survives_clock_wrap as (D & P).
  intros w. split; [reflexivity|]. split; [reflexivity|]. split.
  - apply (D (debug_urm37 Idle 0 0) w 3000);
      [vm_compute; split; [discriminate | reflexivity] | reflexivity].
  - apply (P (ports_urm37 true Idle 0 0) w 3000);
      [vm_compute; split; [discriminate | reflexivity] | reflexivity].
Defined.

(** ** Attaching, detaching and the unattached handle *)

(** X4. Attaching and detaching compose as expected, with one edge: a
    handle of the revisions that tell attachment from the pin numbers is
    attached after [attach] only when neither pin number is 255, while
    the port-register revision is attached after every [attach];
    [detach] after [attach] always leaves the handle unattached, and the
    oldest revision's [attach] does not touch the hardware. *)
Theorem attach_detach_isAttached :
  (forall trigPin echoPin usPerCm timeout maxPulse s w,
     exists s',
       First.attach trigPin echoPin usPerCm timeout maxPulse s w =
         Done tt s' w /\
       First.isAttached s' w =
         Done (negb (to_byte trigPin =? 255) && negb (to_byte echoPin =? 255))
              s' w /\
       (First.detach;; First.isAttached) s' w =
         Done false (First.URMSensor_new s') w) /\
  (forall trigPin echoPin usPerCm timeout maxPulse trigActive echoActive
          width s w,
     exists s' w',
       Debug.attach trigPin echoPin usPerCm timeout maxPulse trigActive
         echoActive width s w = Done tt s' w' /\
       Debug.isAttached s' w' =
         Done (negb (to_byte trigPin =? 255) && negb (to_byte echoPin =? 255))
              s' w' /\
       (Debug.detach;; Debug.isAttached) s' w' =
         Done false (Debug.URMSensor_new s') w') /\
  (forall (core : ArduinoCore)
          trigPin echoPin usPerCm timeout maxPulse trigActive echoActive
          width s w,
     exists s' w',
       Ports.attach trigPin echoPin usPerCm timeout maxPulse trigActive
         echoActive width s w = Done tt s' w' /\
       Ports.isAttached s' w' = Done true s' w' /\
       (Ports.detach;; Ports.isAttached) s' w' =
         Done false (Ports.set_isAttached false s') w').
Proof.
  repeat apply conj.
  - intros. destruct s, w. eexists. repeat split.
  - intros. destruct s, w. eexists; eexists. repeat split.
  - intros. destruct (attach_register_state core trigPin echoPin usPerCm
      timeout maxPulse trigActive echoActive width s w) as (s' & w' & H & Ha).
    exists s', w'. split; [exact H|].
    destruct s'. cbn in Ha. subst. split; reflexivity.
Qed.

(** X5. The synchronous call on a handle that is not attached (one just
    constructed, with whatever its memory holds, or a detached one)
    returns [URM_INVALID_VALUE] at the first iteration, leaves the state
    [Idle] and neither reads nor writes the hardware. *)
Theorem measureDistance_unattached :
  (forall fuel s w,
     Debug._trigPin s = URM_INVALID_PIN \/ Debug._echoPin s = URM_INVALID_PIN ->
     Debug.measureDistance (S fuel) s w =
       Done URM_INVALID_VALUE (Debug.set_currentState Idle s) w) /\
  (forall fuel s w,
     Ports._isAttached s = false ->
     Ports.measureDistance (S fuel) s w =
       Done URM_INVALID_VALUE (Ports.set_currentState Idle s) w).
Proof.
  split.
  - intros fuel s w Hpin.
    assert (Hstart : exists s1,
      Debug.startMeasure s w = Done tt s1 w /\
      (Debug._trigPin s1 = URM_INVALID_PIN \/
       Debug._echoPin s1 = URM_INVALID_PIN) /\
      Debug.set_currentState Idle s1 = Debug.set_currentState Idle s).
    { destruct s, w. cbn in Hpin. unfold Debug.startMeasure.
      exec_debug.
      destruct ((_currentState =? WaitingForPulse)
                || (_currentState =? Measuring));
        [eexists; split; [reflexivity | split; [exact Hpin | reflexivity]] |].
      exec_debug.
      destruct Hpin as [-> | ->]; rewrite Z.eqb_refl; cbn [negb andb];
        try rewrite andb_false_r; cbn [negb];
        (eexists; split; [reflexivity | split; [| reflexivity]]);
        [left | right]; reflexivity. }
    destruct Hstart as (s1 & Hs & Hpin1 & Hidle).
    unfold Debug.measureDistance. unfold bind at 1. rewrite Hs.
    cbn [Debug.waitFinished]. unfold bind at 1 2.
    rewrite (finishedMeasure_detached_debug None s1 w Hpin1), Hidle.
    reflexivity.
  - intros fuel s w Ha. destruct s, w. cbn in Ha. subst.
    unfold Ports.measureDistance. cbn [Ports.waitFinished].
    exec_ports.
    destruct ((_currentState =? WaitingForPulse)
              || (_currentState =? Measuring)); exec_ports; reflexivity.
Qed.

Lemma measureDistance_unattached_witness :
  let w := sim (fun _ => 0) (fun _ => false) in
  Debug.measureDistance 1 (Debug.URMSensor_new (debug_urm37 Measuring 5 7)) w =
    Done URM_INVALID_VALUE
      (Debug.set_currentState Idle
         (Debug.URMSensor_new (debug_urm37 Measuring 5 7))) w /\
  Ports.measureDistance 1 (Ports.URMSensor_new (ports_urm37 true 200 5 7)) w =
    Done URM_INVALID_VALUE
      (Ports.set_currentState Idle
         (Ports.URMSensor_new (ports_urm37 true 200 5 7))) w.
Proof.
  destruct measureDistance_unattached as (D & P).
  intros w. split.
  - apply D. left. reflexivity.
  - apply P. reflexivity.
Defined.

(** ** What a new measurement and further polls do to a result *)

(** X6. Starting a measurement discards the previous result: after
    [startMeasure] on a handle that is not measuring (attached or not,
    with or without a finished measurement), the state is [Idle],
    [WaitingForPulse] or [Measuring], never [FinishedMeasure], and the
    distance query answers [URM_INVALID_VALUE]. *)
Theorem startMeasure_discards_result :
  (forall s w,
     Debug._currentState s <> WaitingForPulse ->
     Debug._currentState s <> Measuring ->
     exists s' w',
       Debug.startMeasure s w = Done tt s' w' /\
       (Debug._currentState s' = Idle \/
        Debug._currentState s' = WaitingForPulse \/
        Debug._currentState s' = Measuring) /\
       Debug.getMeasuredDistance s' w' = Done URM_INVALID_VALUE s' w') /\
  (forall s w,
     Ports._currentState s <> WaitingForPulse ->
     Ports._currentState s <> Measuring ->
     exists s' w',
       Ports.startMeasure s w = Done tt s' w' /\
       (Ports._currentState s' = Idle \/
        Ports._currentState s' = WaitingForPulse \/
        Ports._currentState s' = Measuring) /\
       Ports.getMeasuredDistance s' w' = Done URM_INVALID_VALUE s' w').
Proof.
  split; intros s w HW HM.
  - assert (Hgoal : exists s' w',
      Debug.startMeasure s w = Done tt s' w' /\
      (Debug._currentState s' = Idle \/
       Debug._currentState s' = WaitingForPulse \/
       Debug._currentState s' = Measuring)).
    { destruct (Z.eq_dec (Debug._trigPin s) URM_INVALID_PIN) as [Ht | Ht];
        [| destruct (Z.eq_dec (Debug._echoPin s) URM_INVALID_PIN) as [He | He]].
      - exists (Debug.set_currentState Idle s), w.
        split; [| left; destruct s; reflexivity].
        apply Z.eqb_neq in HW, HM. destruct s, w.
        cbv [Debug._trigPin Debug._currentState] in Ht, HW, HM.
        unfold Debug.startMeasure. exec_debug. rewrite HW, HM. cbn [orb].
        exec_debug. rewrite Ht, Z.eqb_refl. reflexivity.
      - exists (Debug.set_currentState Idle s), w.
        split; [| left; destruct s; reflexivity].
        apply Z.eqb_neq in HW, HM. destruct s, w.
        cbv [Debug._echoPin Debug._currentState] in He, HW, HM.
        unfold Debug.startMeasure. exec_debug. rewrite HW, HM. cbn [orb].
        exec_debug. rewrite He, Z.eqb_refl, andb_false_r. reflexivity.
      - destruct (Debug_startMeasure_go s w Ht He HW HM) as (w1 & Hs & _).
        rewrite Hs, Debug_poll_waiting by (destruct s; reflexivity).
        cbv zeta. split_ifs; eexists; eexists; (split; [reflexivity|]);
          destruct s; cbn; auto. }
    destruct Hgoal as (s' & w' & Hs & Hst). exists s', w'.
    split; [exact Hs | split; [exact Hst|]].
    apply Debug_distance_invalid.
    destruct Hst as [-> | [-> | ->]]; discriminate.
  - assert (Hgoal : exists s' w',
      Ports.startMeasure s w = Done tt s' w' /\
      (Ports._currentState s' = Idle \/
       Ports._currentState s' = WaitingForPulse \/
       Ports._currentState s' = Measuring)).
    { destruct (Ports._isAttached s) eqn:Ha;
        [destruct (Z.eq_dec (Ports.echoLine s w 0) (Ports._echoActiveState s))
           as [He | He] |].
      - destruct (Ports_startMeasure_echo_active s w Ha HW HM He) as (Hs & _).
        rewrite Hs. eexists; eexists. split; [reflexivity|].
        left. destruct s; reflexivity.
      - destruct (Ports_startMeasure_go s w Ha HW HM He) as (w1 & Hs & _).
        rewrite Hs, Ports_poll_waiting by (destruct s; reflexivity).
        split_ifs; eexists; eexists; (split; [reflexivity|]);
          destruct s; cbn; auto.
      - exists (Ports.set_currentState Idle s), w.
        split; [| left; destruct s; reflexivity].
        apply Z.eqb_neq in HW, HM. destruct s, w.
        cbv [Ports._isAttached Ports._currentState] in Ha, HW, HM. subst.
        unfold Ports.startMeasure. exec_ports. rewrite HW, HM. reflexivity. }
    destruct Hgoal as (s' & w' & Hs & Hst). exists s', w'.
    split; [exact Hs | split; [exact Hst|]].
    apply Ports_distance_invalid.
    destruct Hst as [-> | [-> | ->]]; discriminate.
Qed.

(** A finished measurement of 60 cm is gone once the next one is
    started, whether the sensor answers at once or not. *)
Lemma startMeasure_discards_result_witness :
  let w := sim (fun n => 100 * Z.of_nat n) (fun n => (n <? 2)%nat) in
  (exists s' w',
     Debug.startMeasure (debug_urm37 FinishedMeasure 0 3000) w =
       Done tt s' w' /\
     (Debug._currentState s' = Idle \/
      Debug._currentState s' = WaitingForPulse \/
      Debug._currentState s' = Measuring) /\
     Debug.getMeasuredDistance s' w' = Done URM_INVALID_VALUE s' w') /\
  (exists s' w',
     Ports.startMeasure (ports_urm37 true FinishedMeasure 0 3000) w =
       Done tt s' w' /\
     (Ports._currentState s' = Idle \/
      Ports._currentState s' = WaitingForPulse \/
      Ports._currentState s' = Measuring) /\
     Ports.getMeasuredDistance s' w' = Done URM_INVALID_VALUE s' w').
Proof.
  destruct startMeasure_discards_result as (D & P).
  intros w. split.
  - apply D; vm_compute; discriminate.
  - apply P; vm_compute; discriminate.
Defined.

(** X7. A finished or failed measurement stays as it is: on a handle
    whose state is neither [WaitingForPulse] nor [Measuring], any number
    of polls leaves the object unchanged, so the state and the answer of
    the distance query are kept until [startMeasure] is called; an
    attached handle of the port-register revision reports completion at
    every [finishedMeasure]. *)
Theorem resting_state_is_stable :
  (forall n s w,
     Debug._currentState s <> WaitingForPulse ->
     Debug._currentState s <> Measuring ->
     exists w', Sketch.times n Debug.refreshState s w = Done tt s w') /\
  (forall n s w,
     Ports._currentState s <> WaitingForPulse ->
     Ports._currentState s <> Measuring ->
     exists w',
       Sketch.times n Ports.refreshState s w = Done tt s w' /\
       trace w' = trace w /\ regs w' = regs w /\
       (Ports._isAttached s = true ->
        Ports.finishedMeasure s w' = Done true s (sampled w'))).
Proof.
  split; intros n s w HW HM.
  - revert w. induction n as [| n IH]; intros w.
    + exists w. reflexivity.
    + cbn [Sketch.times]. unfold bind.
      rewrite (Debug_poll_resting s w HW HM). apply IH.
  - revert w. induction n as [| n IH]; intros w.
    + exists w. repeat split. intros Ha.
      rewrite (Ports_finishedMeasure_attached s w Ha),
        (Ports_poll_resting s w HW HM).
      apply Z.eqb_neq in HW, HM. rewrite HW, HM. reflexivity.
    + cbn [Sketch.times]. unfold bind.
      rewrite (Ports_poll_resting s w HW HM).
      destruct (IH (sampled w)) as (w' & Hrun & Ht & Hr & Hf).
      exists w'. repeat split; assumption.
Qed.

Lemma resting_state_is_stable_witness :
  let w := sim (fun n => 100 * Z.of_nat n) (fun n => Nat.even n) in
  (exists w',
     Sketch.times 5 Debug.refreshState (debug_urm37 FinishedMeasure 0 3000) w =
       Done tt (debug_urm37 FinishedMeasure 0 3000) w') /\
  (exists w',
     Sketch.times 5 Ports.refreshState (ports_urm37 true Idle 0 3000) w =
       Done tt (ports_urm37 true Idle 0 3000) w' /\
     trace w' = trace w /\ regs w' = regs w /\
     (Ports._isAttached (ports_urm37 true Idle 0 3000) = true ->
      Ports.finishedMeasure (ports_urm37 true Idle 0 3000) w' =
        Done true (ports_urm37 true Idle 0 3000) (sampled w'))).
Proof.
  destruct resting_state_is_stable as (D & P).
  intros w. split.
  - apply D; vm_compute; discriminate.
  - apply P; vm_compute; discriminate.
Defined.

(** X8. A measured distance and the sentinel: in [FinishedMeasure],
    with a scale of at least 2 us/cm and a duration that fits 32 bits,
    the distance returned is at most 2147483647 and so differs from
    [URM_INVALID_VALUE]; with a scale of 1 us/cm a latched duration of
    4294967295 us is returned as it is, which is the sentinel. *)
Theorem valid_distance_is_not_the_sentinel :
  (forall s w,
     Debug._currentState s = FinishedMeasure ->
     2 <= Debug._usPerCm s < 4294967296 ->
     0 <= Debug._currentDuration s < 4294967296 ->
     exists v,
       Debug.getMeasuredDistance s w = Done v s w /\
       0 <= v <= 2147483647 /\ v <> URM_INVALID_VALUE) /\
  (forall s w,
     Ports._currentState s = FinishedMeasure ->
     2 <= Ports._usPerCm s < 4294967296 ->
     0 <= Ports._currentDuration s < 4294967296 ->
     exists v,
       Ports.getMeasuredDistance s w = Done v s w /\
       0 <= v <= 2147483647 /\ v <> URM_INVALID_VALUE) /\
  (forall s w,
     Ports._currentState s = FinishedMeasure ->
     Ports._usPerCm s = 1 ->
     Ports._currentDuration s = 4294967295 ->
     Ports.getMeasuredDistance s w = Done URM_INVALID_VALUE s w).
Proof.
  assert (Hdiv : forall d u, 2 <= u -> 0 <= d < 4294967296 ->
                             0 <= d / u <= 2147483647).
  { intros d u Hu Hd. split.
    - apply Z.div_pos; lia.
    - apply Z.lt_succ_r. apply Z.div_lt_upper_bound; lia. }
  repeat apply conj.
  - intros s w Hst Hu Hd. eexists.
    rewrite (Debug_distance_finished s w Hst)
      by (rewrite to_ulong_small; lia).
    rewrite to_ulong_small by lia. split; [reflexivity|].
    pose proof (Hdiv _ _ (proj1 Hu) Hd). unfold URM_INVALID_VALUE. lia.
  - intros s w Hst Hu Hd. eexists.
    rewrite (Ports_distance_finished s w Hst)
      by (rewrite to_ulong_small; lia).
    rewrite to_ulong_small by lia. split; [reflexivity|].
    pose proof (Hdiv _ _ (proj1 Hu) Hd). unfold URM_INVALID_VALUE. lia.
  - intros s w Hst Hu Hd.
    rewrite (Ports_distance_finished s w Hst) by (rewrite Hu; discriminate).
    rewrite Hu, Hd. reflexivity.
Qed.

Lemma valid_distance_is_not_the_sentinel_witness :
  let w := sim (fun _ => 0) (fun _ => true) in
  (exists v,
     Debug.getMeasuredDistance (debug_urm37 FinishedMeasure 0 4294967295) w =
       Done v (debug_urm37 FinishedMeasure 0 4294967295) w /\
     0 <= v <= 2147483647 /\ v <> URM_INVALID_VALUE) /\
  (exists v,
     Ports.getMeasuredDistance (ports_urm37 true FinishedMeasure 0 3000) w =
       Done v (ports_urm37 true FinishedMeasure 0 3000) w /\
     0 <= v <= 2147483647 /\ v <> URM_INVALID_VALUE) /\
  Ports.getMeasuredDistance
    (Ports.set_usPerCm 1 (ports_urm37 true FinishedMeasure 0 4294967295)) w =
    Done URM_INVALID_VALUE
      (Ports.set_usPerCm 1 (ports_urm37 true FinishedMeasure 0 4294967295)) w.
Proof.
  destruct valid_distance_is_not_the_sentinel as (D & P & E).
  intros w. repeat apply conj.
  - apply D; [reflexivity | vm_compute; split; [discriminate | reflexivity]
             | vm_compute; split; [discriminate | reflexivity]].
  - apply P; [reflexivity | vm_compute; split; [discriminate | reflexivity]
             | vm_compute; split; [discriminate | reflexivity]].
  - apply E; reflexivity.
Defined.

(** ** The port registers *)

Lemma to_byte_testbit (x n : Z) :
  0 <= n -> Z.testbit (to_byte x) n = (n <? 8) && Z.testbit x n.
Proof.
  intros Hn. unfold to_byte. change 256 with (2 ^ 8).
  destruct (n <? 8) eqn:E.
  - apply Z.ltb_lt in E. rewrite Z.mod_pow2_bits_low by lia. reflexivity.
  - apply Z.ltb_ge in E. rewrite Z.mod_pow2_bits_high by lia. reflexivity.
Qed.

Lemma set_bits_testbit (old mask n : Z) :
  0 <= n < 8 ->
  Z.testbit (to_byte (Z.lor (to_byte old) mask)) n =
    Z.testbit old n || Z.testbit mask n.
Proof.
  intros Hn. rewrite to_byte_testbit, Z.lor_spec, to_byte_testbit by lia.
  replace (n <? 8) with true by (symmetry; apply Z.ltb_lt; lia).
  reflexivity.
Qed.

Lemma clear_bits_testbit (old mask n : Z) :
  0 <= n < 8 ->
  Z.testbit (to_byte (Z.land (to_byte old) (Z.lnot mask))) n =
    Z.testbit old n && negb (Z.testbit mask n).
Proof.
  intros Hn.
  rewrite to_byte_testbit, Z.land_spec, to_byte_testbit, Z.lnot_spec by lia.
  replace (n <? 8) with true by (symmetry; apply Z.ltb_lt; lia).
  reflexivity.
Qed.

Lemma to_byte_range (x : Z) : 0 <= to_byte x < 256.
Proof. unfold to_byte. apply Z.mod_pos_bound. reflexivity. Qed.

(** The world after [fastDigitalWriteTrig]. *)
Lemma Ports_writeTrig_world (value : Z) (s : Ports.URMSensor) (w : World) :
  Ports.fastDigitalWriteTrig value s w =
    Done tt s
      (store (Ports._trigPORT s)
         (to_byte
            (if value =? HIGH
             then Z.lor (to_byte (regs w (Ports._trigPORT s)))
                        (Ports._trigMask s)
             else Z.land (to_byte (regs w (Ports._trigPORT s)))
                         (Z.lnot (Ports._trigMask s))))
         w).
Proof.
  destruct s, w. exec_ports. destruct (value =? HIGH); reflexivity.
Qed.

(** X9. [fastDigitalWriteTrig] drives the trigger pin and nothing else:
    it stores one byte in the trigger's output register, in which the
    bits of the trigger mask are set when the value is [HIGH] and
    cleared otherwise, and every other bit is what it was; no other
    register is written and the object, the clock and the inputs are
    left alone. *)
Theorem fastDigitalWriteTrig_changes_only_the_trigger_bits :
  forall value s w,
    exists w',
      Ports.fastDigitalWriteTrig value s w = Done tt s w' /\
      (forall n,
         0 <= n < 8 ->
         Z.testbit (regs w' (Ports._trigPORT s)) n =
           if Z.testbit (Ports._trigMask s) n then value =? HIGH
           else Z.testbit (regs w (Ports._trigPORT s)) n) /\
      0 <= regs w' (Ports._trigPORT s) < 256 /\
      (forall a, a <> Ports._trigPORT s -> regs w' a = regs w a) /\
      trace w' =
        RegWrite (Ports._trigPORT s) (regs w' (Ports._trigPORT s)) :: trace w /\
      micros_calls w' = micros_calls w /\ input_reads w' = input_reads w.
Proof.
  intros value s w. eexists. split; [apply Ports_writeTrig_world|].
  cbn [regs store trace micros_calls input_reads].
  rewrite Z.eqb_refl.
  split; [| split; [apply to_byte_range | split; [| repeat split]]].
  - intros n Hn. destruct (value =? HIGH).
    + rewrite set_bits_testbit by exact Hn.
      destruct (Z.testbit (Ports._trigMask s) n);
        [apply orb_true_r | apply orb_false_r].
    + rewrite clear_bits_testbit by exact Hn.
      destruct (Z.testbit (Ports._trigMask s) n);
        [apply andb_false_r | apply andb_true_r].
  - intros a Ha. apply Z.eqb_neq in Ha. rewrite Ha. reflexivity.
Qed.

(** X10. [fastDigitalReadTrig] of the port-register revision leaves the
    trigger pin an input: it clears the trigger bits of the direction
    register, samples the input register once, answers [HIGH] exactly
    when a masked bit is set, and returns without setting the direction
    bits again; the output register and the object are untouched. *)
Theorem fastDigitalReadTrig_leaves_the_pin_an_input :
  forall s w,
    exists w',
      Ports.fastDigitalReadTrig s w =
        Done (if Z.land (to_byte (input_at w (input_reads w)
                                     (Ports._trigPIN s)))
                        (Ports._trigMask s) =? 0
              then LOW else HIGH) s w' /\
      (forall n,
         0 <= n < 8 ->
         Z.testbit (regs w' (Ports._trigDDR s)) n =
           Z.testbit (regs w (Ports._trigDDR s)) n
           && negb (Z.testbit (Ports._trigMask s) n)) /\
      (forall a, a <> Ports._trigDDR s -> regs w' a = regs w a) /\
      input_reads w' = S (input_reads w).
Proof.
  intros s w. destruct s, w. eexists. split.
  - unfold Ports.fastDigitalReadTrig. exec_ports.
    change (INPUT =? OUTPUT) with false. cbv beta iota.
    match goal with
    | |- context [negb (?c)] => destruct c
    end; reflexivity.
  - cbn. rewrite Z.eqb_refl. repeat split.
    + intros n Hn. apply clear_bits_testbit. exact Hn.
    + intros a Ha. apply Z.eqb_neq in Ha. rewrite Ha. reflexivity.
Qed.

(** ** What polling and starting write *)













(** * A measurement that fails *)

(** The two ways a started measurement ends without a result: the echo
    pulse never begins, or it never ends.  As in [Pulse], the argument
    is made once over the transitions of the poll. *)
Section Faults.

Context {S : Type}.
Variable poll : M S unit.
Variable finished : M S bool.
Variables state start active timeout maxPulse : S -> Z.
Variable cfg : S -> S.
Variable ready : S -> Prop.
Variable echo : S -> World -> nat -> Z.

Hypothesis cfg_keeps : forall s s',
  cfg s' = cfg s ->
  (ready s -> ready s') /\ active s' = active s /\
  timeout s' = timeout s /\ maxPulse s' = maxPulse s /\
  forall w k, echo s' w k = echo s w k.

Hypothesis echo_later : forall s w w' r t k,
  advanced r t w w' -> echo s w' k = echo s w (k + r).

Hypothesis finished_poll : forall s w s' w',
  ready s -> poll s w = Done tt s' w' ->
  finished s w =
    Done (negb ((state s' =? WaitingForPulse) || (state s' =? Measuring)))
         s' w'.

Hypothesis stay_waiting : forall s w,
  state s = WaitingForPulse ->
  echo s w 0 <> active s ->
  to_ulong (clock w 0 - start s) <= timeout s ->
  exists s' w',
    poll s w = Done tt s' w' /\ cfg s' = cfg s /\
    state s' = WaitingForPulse /\ start s' = start s /\ advanced 1 1 w w'.

Hypothesis pulse_begins : forall s w,
  state s = WaitingForPulse ->
  echo s w 0 = active s ->
  exists s' w',
    poll s w = Done tt s' w' /\ cfg s' = cfg s /\
    state s' = Measuring /\ start s' = clock w 1 /\ advanced 1 2 w w'.

Hypothesis stay_measuring : forall s w,
  state s = Measuring ->
  echo s w 0 = active s ->
  to_ulong (clock w 0 - start s) <= maxPulse s ->
  exists s' w',
    poll s w = Done tt s' w' /\ cfg s' = cfg s /\
    state s' = Measuring /\ start s' = start s /\ advanced 1 1 w w'.

Hypothesis start_missed : forall s w,
  state s = WaitingForPulse ->
  echo s w 0 <> active s ->
  to_ulong (clock w 0 - start s) > timeout s ->
  exists s' w',
    poll s w = Done tt s' w' /\ cfg s' = cfg s /\ state s' = Idle.

Hypothesis pulse_overlong : forall s w,
  state s = Measuring ->
  echo s w 0 = active s ->
  to_ulong (clock w 0 - start s) > maxPulse s ->
  exists s' w',
    poll s w = Done tt s' w' /\ cfg s' = cfg s /\ state s' = Idle.

Hypothesis resting : forall s w,
  state s = Idle -> exists w', poll s w = Done tt s w'.

Lemma spin_step_idle (n : nat) (s s' : S) (w w' : World) :
  ready s -> poll s w = Done tt s' w' ->
  state s' = Idle ->
  spin finished (Datatypes.S n) s w = Done tt s' w'.
Proof.
  intros Hr Hp Hst. cbn [spin]. unfold bind at 1.
  rewrite (finished_poll s w s' w' Hr Hp), Hst. reflexivity.
Qed.

Lemma spin_resting (n : nat) (s : S) (w : World) :
  ready s -> state s = Idle ->
  exists w', spin finished (Datatypes.S n) s w = Done tt s w'.
Proof.
  intros Hr Hst. destruct (resting s w Hst) as (w' & Hp).
  exists w'. exact (spin_step_idle n s s w w' Hr Hp Hst).
Qed.

(** From [WaitingForPulse]: [k] polls within the timeout, then the
    late poll that gives up. *)
Lemma spin_gives_up (k n : nat) (s : S) (w : World) :
  ready s -> state s = WaitingForPulse ->
  missing_from start active timeout echo s w k ->
  exists s' w',
    spin finished (k + Datatypes.S n) s w = Done tt s' w' /\
    cfg s' = cfg s /\ state s' = Idle.
Proof.
  intros Hr Hst (Hidle & Hquiet & Hlate).
  destruct (spin_waiting poll finished state start active timeout maxPulse
              cfg ready echo cfg_keeps echo_later finished_poll stay_waiting
              k (Datatypes.S n) s w Hr Hst Hidle)
    as (s1 & w1 & Hrun & Hc & Hs1 & Hst1 & Ha).
  destruct (cfg_keeps s s1 Hc) as (Hr1 & Hactive & Hto & _ & Hecho).
  destruct (start_missed s1 w1 Hs1) as (s' & w' & Hp & Hc' & Hs').
  - rewrite Hecho, Hactive, (echo_later s w w1 k k 0 Ha). exact Hquiet.
  - rewrite Hst1, Hto, (clock_later k k 0 w w1 Ha). exact Hlate.
  - exists s', w'. repeat split.
    + rewrite Hrun. exact (spin_step_idle n s1 s' w1 w' (Hr1 Hr) Hp Hs').
    + congruence.
    + exact Hs'.
Qed.

(** The same when the first poll is the one [startMeasure] makes
    itself. *)
Lemma poll_spin_gives_up (k n : nat) (s : S) (w : World) :
  ready s -> state s = WaitingForPulse ->
  missing_from start active timeout echo s w k ->
  exists s' w',
    (poll;; spin finished (k + 1 + n)) s w = Done tt s' w' /\
    cfg s' = cfg s /\ state s' = Idle.
Proof.
  intros Hr Hst Hmiss. unfold bind.
  destruct k as [| k].
  - destruct Hmiss as (_ & Hquiet & Hlate).
    destruct (start_missed s w Hst Hquiet Hlate) as (s1 & w1 & Hp & Hc1 & Hs1).
    destruct (cfg_keeps s s1 Hc1) as (Hr1 & _).
    rewrite Hp.
    destruct (spin_resting n s1 w1 (Hr1 Hr) Hs1) as (w' & Hrun).
    exists s1, w'. repeat split; assumption.
  - destruct Hmiss as (Hidle & Hquiet & Hlate).
    destruct (Hidle 0%nat ltac:(lia)) as (He0 & Ht0).
    destruct (stay_waiting s w Hst He0 Ht0)
      as (s1 & w1 & Hp & Hc1 & Hs1 & Hst1 & Ha1).
    destruct (cfg_keeps s s1 Hc1) as (Hr1 & Hactive1 & Hto1 & _ & Hecho1).
    rewrite Hp.
    destruct (spin_gives_up k (Datatypes.S n) s1 w1)
      as (s' & w' & Hrun & Hc' & Hs').
    + exact (Hr1 Hr).
    + exact Hs1.
    + split; [| split].
      * intros i Hi. rewrite Hecho1, Hactive1, Hto1, Hst1,
          (echo_later s w w1 1 1 i Ha1), (clock_later 1 1 i w w1 Ha1),
          Nat.add_1_r.
        apply Hidle. lia.
      * rewrite Hecho1, Hactive1, (echo_later s w w1 _ _ k Ha1), Nat.add_1_r.
        exact Hquiet.
      * rewrite Hst1, Hto1, (clock_later _ _ k w w1 Ha1), Nat.add_1_r.
        exact Hlate.
    + exists s', w'. repeat split.
      * replace (Datatypes.S k + 1 + n)%nat
          with (k + Datatypes.S (Datatypes.S n))%nat by lia.
        exact Hrun.
      * congruence.
      * exact Hs'.
Qed.

(** From [Measuring]: [m] polls within the maximal width, then the
    late poll that gives up. *)
Lemma spin_overlong (m n : nat) (s : S) (w : World) :
  ready s -> state s = Measuring ->
  overlong_from start active maxPulse echo s w m ->
  exists s' w',
    spin finished (m + Datatypes.S n) s w = Done tt s' w' /\
    cfg s' = cfg s /\ state s' = Idle.
Proof.
  intros Hr Hst (Hact & Hstill & Hlate).
  destruct (spin_measuring poll finished state start active timeout maxPulse
              cfg ready echo cfg_keeps echo_later finished_poll stay_measuring
              m (Datatypes.S n) s w Hr Hst Hact)
    as (s1 & w1 & Hrun & Hc & Hs1 & Hst1 & Ha).
  destruct (cfg_keeps s s1 Hc) as (Hr1 & Hactive & _ & Hmax & Hecho).
  destruct (pulse_overlong s1 w1 Hs1) as (s' & w' & Hp & Hc' & Hs').
  - rewrite Hecho, Hactive, (echo_later s w w1 m m 0 Ha). exact Hstill.
  - rewrite Hst1, Hmax, (clock_later m m 0 w w1 Ha). exact Hlate.
  - exists s', w'. repeat split.
    + rewrite Hrun. exact (spin_step_idle n s1 s' w1 w' (Hr1 Hr) Hp Hs').
    + congruence.
    + exact Hs'.
Qed.

Lemma spin_runaway (k m n : nat) (s : S) (w : World) :
  ready s -> state s = WaitingForPulse ->
  runaway_from start active timeout maxPulse echo s w k m ->
  exists s' w',
    spin finished (k + Datatypes.S (m + Datatypes.S n)) s w = Done tt s' w' /\
    cfg s' = cfg s /\ state s' = Idle.
Proof.
  intros Hr Hst (Hidle & Hbegin & Hact & Hstill & Hlate).
  destruct (spin_waiting poll finished state start active timeout maxPulse
              cfg ready echo cfg_keeps echo_later finished_poll stay_waiting
              k (Datatypes.S (m + Datatypes.S n)) s w Hr Hst Hidle)
    as (s1 & w1 & Hrun1 & Hc1 & Hs1 & Hst1 & Ha1).
  destruct (cfg_keeps s s1 Hc1) as (Hr1 & Hactive1 & _ & Hmax1 & Hecho1).
  destruct (pulse_begins s1 w1 Hs1) as (s2 & w2 & Hp & Hc2 & Hs2 & Hst2 & Ha2).
  { rewrite Hecho1, Hactive1, (echo_later s w w1 k k 0 Ha1). exact Hbegin. }
  destruct (cfg_keeps s1 s2 Hc2) as (Hr2 & Hactive2 & _ & Hmax2 & Hecho2).
  pose proof (advanced_trans _ _ _ _ _ _ _ Ha1 Ha2) as Ha.
  assert (Hstart : start s2 = clock w (1 + k)).
  { rewrite Hst2, (clock_later k k 1 w w1 Ha1). reflexivity. }
  destruct (spin_overlong m n s2 w2) as (s' & w' & Hrun & Hc' & Hs').
  - exact (Hr2 (Hr1 Hr)).
  - exact Hs2.
  - split; [| split].
    + intros j Hj. destruct (Hact j Hj) as (He & Ht).
      rewrite Hecho2, Hecho1, Hactive2, Hactive1, Hmax2, Hmax1, Hstart,
        (echo_later s w w2 _ _ j Ha), (clock_later _ _ j w w2 Ha).
      replace (j + (1 + k))%nat with (1 + k + j)%nat by lia.
      replace (j + (2 + k))%nat with (2 + k + j)%nat by lia.
      split; assumption.
    + rewrite Hecho2, Hecho1, Hactive2, Hactive1,
        (echo_later s w w2 _ _ m Ha).
      replace (m + (1 + k))%nat with (1 + k + m)%nat by lia. exact Hstill.
    + rewrite Hstart, Hmax2, Hmax1, (clock_later _ _ m w w2 Ha).
      replace (m + (2 + k))%nat with (2 + k + m)%nat by lia. exact Hlate.
  - exists s', w'. repeat split.
    + rewrite Hrun1,
        (spin_step_busy poll finished state ready finished_poll
           _ s1 s2 w1 w2 (Hr1 Hr) Hp (or_intror Hs2)).
      exact Hrun.
    + congruence.
    + exact Hs'.
Qed.

Lemma poll_spin_runaway (k m n : nat) (s : S) (w : World) :
  ready s -> state s = WaitingForPulse ->
  runaway_from start active timeout maxPulse echo s w k m ->
  exists s' w',
    (poll;; spin finished (k + m + 1 + n)) s w = Done tt s' w' /\
    cfg s' = cfg s /\ state s' = Idle.
Proof.
  intros Hr Hst Hrunaway. unfold bind.
  destruct k as [| k].
  - destruct Hrunaway as (_ & Hbegin & Hact & Hstill & Hlate).
    destruct (pulse_begins s w Hst Hbegin)
      as (s1 & w1 & Hp & Hc1 & Hs1 & Hst1 & Ha1).
    destruct (cfg_keeps s s1 Hc1) as (Hr1 & Hactive1 & _ & Hmax1 & Hecho1).
    rewrite Hp.
    destruct (spin_overlong m n s1 w1) as (s' & w' & Hrun & Hc' & Hs').
    + exact (Hr1 Hr).
    + exact Hs1.
    + split; [| split].
      * intros j Hj. destruct (Hact j Hj) as (He & Ht).
        rewrite Hecho1, Hactive1, Hmax1, Hst1,
          (echo_later s w w1 _ _ j Ha1), (clock_later _ _ j w w1 Ha1).
        replace (j + 1)%nat with (1 + 0 + j)%nat by lia.
        replace (j + 2)%nat with (2 + 0 + j)%nat by lia.
        split; assumption.
      * rewrite Hecho1, Hactive1, (echo_later s w w1 _ _ m Ha1).
        replace (m + 1)%nat with (1 + 0 + m)%nat by lia. exact Hstill.
      * rewrite Hst1, Hmax1, (clock_later _ _ m w w1 Ha1).
        replace (m + 2)%nat with (2 + 0 + m)%nat by lia. exact Hlate.
    + exists s', w'. repeat split.
      * replace (0 + m + 1 + n)%nat with (m + Datatypes.S n)%nat by lia.
        exact Hrun.
      * congruence.
      * exact Hs'.
  - destruct Hrunaway as (Hidle & Hbegin & Hact & Hstill & Hlate).
    destruct (Hidle 0%nat ltac:(lia)) as (He0 & Ht0).
    destruct (stay_waiting s w Hst He0 Ht0)
      as (s1 & w1 & Hp & Hc1 & Hs1 & Hst1 & Ha1).
    destruct (cfg_keeps s s1 Hc1) as (Hr1 & Hactive1 & Hto1 & Hmax1 & Hecho1).
    rewrite Hp.
    destruct (spin_runaway k m n s1 w1) as (s' & w' & Hrun & Hc' & Hs').
    + exact (Hr1 Hr).
    + exact Hs1.
    + split; [| split; [| split; [| split]]].
      * intros i Hi. rewrite Hecho1, Hactive1, Hto1, Hst1,
          (echo_later s w w1 1 1 i Ha1), (clock_later 1 1 i w w1 Ha1),
          Nat.add_1_r.
        apply Hidle. lia.
      * rewrite Hecho1, Hactive1, (echo_later s w w1 _ _ k Ha1), Nat.add_1_r.
        exact Hbegin.
      * intros j Hj. destruct (Hact j Hj) as (He & Ht).
        rewrite Hecho1, Hactive1, Hmax1,
          (echo_later s w w1 _ _ _ Ha1), !(clock_later _ _ _ w w1 Ha1).
        replace (1 + k + j + 1)%nat with (1 + Datatypes.S k + j)%nat by lia.
        replace (2 + k + j + 1)%nat with (2 + Datatypes.S k + j)%nat by lia.
        replace (1 + k + 1)%nat with (1 + Datatypes.S k)%nat by lia.
        split; assumption.
      * rewrite Hecho1, Hactive1, (echo_later s w w1 _ _ _ Ha1).
        replace (1 + k + m + 1)%nat with (1 + Datatypes.S k + m)%nat by lia.
        exact Hstill.
      * rewrite Hmax1, !(clock_later _ _ _ w w1 Ha1).
        replace (2 + k + m + 1)%nat with (2 + Datatypes.S k + m)%nat by lia.
        replace (1 + k + 1)%nat with (1 + Datatypes.S k)%nat by lia.
        exact Hlate.
    + exists s', w'. repeat split.
      * replace (Datatypes.S k + m + 1 + n)%nat
          with (k + Datatypes.S (m + Datatypes.S n))%nat by lia.
        exact Hrun.
      * congruence.
      * exact Hs'.
Qed.

End Faults.

(** ** Both revisions obey the fault transitions *)

Lemma Ports_start_missed (s : Ports.URMSensor) (w : World) :
  Ports._currentState s = WaitingForPulse ->
  Ports.echoLine s w 0 <> Ports._echoActiveState s ->
  to_ulong (clock w 0 - Ports._startMeasureTime s)
    > Ports._timeoutForPulseStart s ->
  exists s' w',
    Ports.refreshState s w = Done tt s' w' /\
    Ports.static s' = Ports.static s /\
    Ports._currentState s' = Idle.
Proof.
  intros Hst He Ht. rewrite (Ports_poll_waiting s w Hst).
  apply Z.eqb_neq in He. rewrite He.
  replace (Ports.elapsed s w >? Ports._timeoutForPulseStart s) with true
    by (symmetry; apply Z.gtb_lt; unfold Ports.elapsed; lia).
  cbn [andb negb]. eexists; eexists; split; [reflexivity|].
  destruct s; split; reflexivity.
Qed.

Lemma Ports_pulse_overlong (s : Ports.URMSensor) (w : World) :
  Ports._currentState s = Measuring ->
  Ports.echoLine s w 0 = Ports._echoActiveState s ->
  to_ulong (clock w 0 - Ports._startMeasureTime s)
    > Ports._maxPulseDuration s ->
  exists s' w',
    Ports.refreshState s w = Done tt s' w' /\
    Ports.static s' = Ports.static s /\
    Ports._currentState s' = Idle.
Proof.
  intros Hst He Ht. rewrite (Ports_poll_measuring s w Hst).
  rewrite He, Z.eqb_refl.
  replace (Ports.elapsed s w >? Ports._maxPulseDuration s) with true
    by (symmetry; apply Z.gtb_lt; unfold Ports.elapsed; lia).
  cbn [andb]. eexists; eexists; split; [reflexivity|].
  destruct s; split; reflexivity.
Qed.

Lemma Ports_resting (s : Ports.URMSensor) (w : World) :
  Ports._currentState s = Idle ->
  exists w', Ports.refreshState s w = Done tt s w'.
Proof.
  intros Hst. exists (sampled w).
  apply Ports_poll_resting; rewrite Hst; discriminate.
Qed.

Lemma Debug_start_missed (s : Debug.URMSensor) (w : World) :
  Debug._currentState s = WaitingForPulse ->
  Debug.echoLine s w 0 <> Debug._echoActiveState s ->
  to_ulong (clock w 0 - Debug._startMeasureTime s)
    > Debug._timeoutForPulseStart s ->
  exists s' w',
    Debug.refreshState s w = Done tt s' w' /\
    Debug.static s' = Debug.static s /\
    Debug._currentState s' = Idle.
Proof.
  intros Hst He Ht. rewrite (Debug_poll_waiting s w Hst). cbv zeta.
  apply Z.eqb_neq in He. rewrite He.
  replace (Debug.elapsed s w >? Debug._timeoutForPulseStart s) with true
    by (symmetry; apply Z.gtb_lt; unfold Debug.elapsed; lia).
  cbn [andb negb]. eexists; eexists; split; [reflexivity|].
  destruct s; split; reflexivity.
Qed.

Lemma Debug_pulse_overlong (s : Debug.URMSensor) (w : World) :
  Debug._currentState s = Measuring ->
  Debug.echoLine s w 0 = Debug._echoActiveState s ->
  to_ulong (clock w 0 - Debug._startMeasureTime s)
    > Debug._maxPulseDuration s ->
  exists s' w',
    Debug.refreshState s w = Done tt s' w' /\
    Debug.static s' = Debug.static s /\
    Debug._currentState s' = Idle.
Proof.
  intros Hst He Ht. rewrite (Debug_poll_measuring s w Hst). cbv zeta.
  rewrite He, Z.eqb_refl.
  replace (Debug.elapsed s w >? Debug._maxPulseDuration s) with true
    by (symmetry; apply Z.gtb_lt; unfold Debug.elapsed; lia).
  cbn [andb]. eexists; eexists; split; [reflexivity|].
  destruct s; split; reflexivity.
Qed.

Lemma Debug_resting (s : Debug.URMSensor) (w : World) :
  Debug._currentState s = Idle ->
  exists w', Debug.refreshState s w = Done tt s w'.
Proof.
  intros Hst. eexists.
  apply Debug_poll_resting; rewrite Hst; discriminate.
Qed.

(** What the synchronous call returns once its loop has ended in
    [Idle]. *)
Lemma Ports_measure_failed (fuel : nat) (s s1 s' : Ports.URMSensor)
  (w w1 w' : World) :
  Ports.startMeasure s w = Ports.refreshState s1 w1 ->
  (Ports.refreshState;; spin Ports.finishedMeasure fuel) s1 w1 =
    Done tt s' w' ->
  Ports._currentState s' = Idle ->
  Ports.measureDistance fuel s w = Done URM_INVALID_VALUE s' w'.
Proof.
  intros Hstart Hrun Hs'.
  rewrite Ports_measureDistance_refines. unfold measure_spec.
  unfold bind at 1. rewrite Hstart.
  unfold bind in Hrun. unfold bind at 1.
  destruct (Ports.refreshState s1 w1) as [[] s2 w2 | f]; [| discriminate].
  rewrite Hrun. apply Ports_distance_invalid. rewrite Hs'. discriminate.
Qed.

Lemma Debug_measure_failed (fuel : nat) (s s1 s' : Debug.URMSensor)
  (w w1 w' : World) :
  Debug.startMeasure s w = Debug.refreshState s1 w1 ->
  (Debug.refreshState;; spin Debug.finished fuel) s1 w1 = Done tt s' w' ->
  Debug._currentState s' = Idle ->
  Debug.measureDistance fuel s w = Done URM_INVALID_VALUE s' w'.
Proof.
  intros Hstart Hrun Hs'.
  rewrite Debug_measureDistance_refines. unfold measure_spec.
  unfold bind at 1. rewrite Hstart.
  unfold bind in Hrun. unfold bind at 1.
  destruct (Debug.refreshState s1 w1) as [[] s2 w2 | f]; [| discriminate].
  rewrite Hrun. apply Debug_distance_invalid. rewrite Hs'. discriminate.
Qed.

(** X13. A sensor that does not answer.  When the echo line stays idle
    and the poll that comes later than [_timeoutForPulseStart] after
    the start still finds it idle, the synchronous call gives up: it
    returns [URM_INVALID_VALUE] and leaves the handle in [Idle] with
    its configuration as it was.  With [k] polls made within the
    timeout, [k + 1] iterations of the loop are enough. *)
Theorem unanswered_trigger_times_out :
  (forall k n s w,
     Debug._trigPin s <> URM_INVALID_PIN ->
     Debug._echoPin s <> URM_INVALID_PIN ->
     Debug._currentState s <> WaitingForPulse ->
     Debug._currentState s <> Measuring ->
     to_ulong (Debug._usPerCm s) <> 0 ->
     Debug_echoMissing s w k ->
     exists s' w',
       Debug.measureDistance (k + 1 + n) s w =
         Done URM_INVALID_VALUE s' w' /\
       Debug._currentState s' = Idle /\
       Debug.static s' = Debug.static s) /\
  (forall k n s w,
     Ports._isAttached s = true ->
     Ports._currentState s <> WaitingForPulse ->
     Ports._currentState s <> Measuring ->
     Ports_echoMissing s w k ->
     exists s' w',
       Ports.measureDistance (k + 1 + n) s w =
         Done URM_INVALID_VALUE s' w' /\
       Ports._currentState s' = Idle /\
       Ports.static s' = Ports.static s).
Proof.
  split.
  - intros k n s w Htrig Hecho HW HM Hus (Hidle & Hquiet & Hlate).
    destruct (Debug_startMeasure_go s w Htrig Hecho HW HM)
      as (w1 & Hstart & Ha1).
    set (s1 := Debug.set_startMeasureTime (clock w 0)
                 (Debug.set_currentDuration 0
                    (Debug.set_currentState WaitingForPulse s))) in *.
    assert (Hready : Debug_ready s) by (repeat split; assumption).
    assert (Hc1 : Debug.static s1 = Debug.static s)
      by (destruct s; reflexivity).
    destruct (Debug_cfg_keeps s s1 Hc1) as (Hr1 & Hactive & Hto & _ & Hline).
    assert (Hst1 : Debug._startMeasureTime s1 = clock w 0)
      by (destruct s; reflexivity).
    destruct (poll_spin_gives_up Debug.refreshState Debug.finished
                Debug._currentState Debug._startMeasureTime
                Debug._echoActiveState Debug._timeoutForPulseStart
                Debug._maxPulseDuration Debug.static Debug_ready
                Debug.echoLine
                Debug_cfg_keeps Debug_echo_later Debug_finished_poll
                Debug_stay_waiting Debug_start_missed Debug_resting
                k n s1 w1)
      as (s' & w' & Hrun & Hc' & Hs').
    + exact (Hr1 Hready).
    + destruct s; reflexivity.
    + split; [| split].
      * intros i Hi. destruct (Hidle i Hi) as (He & Ht).
        rewrite Hline, Hactive, Hto, Hst1,
          (Debug_echo_later s w w1 0 1 i Ha1),
          (clock_later 0 1 i w w1 Ha1), Nat.add_0_r.
        replace (i + 1)%nat with (1 + i)%nat by lia. split; assumption.
      * rewrite Hline, Hactive, (Debug_echo_later s w w1 0 1 k Ha1),
          Nat.add_0_r.
        exact Hquiet.
      * rewrite Hst1, Hto, (clock_later 0 1 k w w1 Ha1).
        replace (k + 1)%nat with (1 + k)%nat by lia. exact Hlate.
    + exists s', w'. split; [| split]; [| exact Hs' | congruence].
      exact (Debug_measure_failed _ s s1 s' w w1 w' Hstart Hrun Hs').
  - intros k n s w Hatt HW HM (Hpre & Hidle & Hquiet & Hlate).
    destruct (Ports_startMeasure_go s w Hatt HW HM Hpre)
      as (w1 & Hstart & Ha1).
    set (s1 := Ports.set_startMeasureTime (clock w 0)
                 (Ports.set_currentDuration 0
                    (Ports.set_currentState WaitingForPulse s))) in *.
    assert (Hc1 : Ports.static s1 = Ports.static s)
      by (destruct s; reflexivity).
    destruct (Ports_cfg_keeps s s1 Hc1) as (Hr1 & Hactive & Hto & _ & Hline).
    assert (Hst1 : Ports._startMeasureTime s1 = clock w 0)
      by (destruct s; reflexivity).
    destruct (poll_spin_gives_up Ports.refreshState Ports.finishedMeasure
                Ports._currentState Ports._startMeasureTime
                Ports._echoActiveState Ports._timeoutForPulseStart
                Ports._maxPulseDuration Ports.static
                (fun s => Ports._isAttached s = true) Ports.echoLine
                Ports_cfg_keeps Ports_echo_later Ports_finished_poll
                Ports_stay_waiting Ports_start_missed Ports_resting
                k n s1 w1)
      as (s' & w' & Hrun & Hc' & Hs').
    + exact (Hr1 Hatt).
    + destruct s; reflexivity.
    + split; [| split].
      * intros i Hi. destruct (Hidle i Hi) as (He & Ht).
        rewrite Hline, Hactive, Hto, Hst1,
          (Ports_echo_later s w w1 1 1 i Ha1),
          (clock_later 1 1 i w w1 Ha1).
        replace (i + 1)%nat with (1 + i)%nat by lia. split; assumption.
      * rewrite Hline, Hactive, (Ports_echo_later s w w1 1 1 k Ha1).
        replace (k + 1)%nat with (1 + k)%nat by lia. exact Hquiet.
      * rewrite Hst1, Hto, (clock_later 1 1 k w w1 Ha1).
        replace (k + 1)%nat with (1 + k)%nat by lia. exact Hlate.
    + exists s', w'. split; [| split]; [| exact Hs' | congruence].
      exact (Ports_measure_failed _ s s1 s' w w1 w' Hstart Hrun Hs').
Qed.

(** A URM37 that never pulls its echo line low, polled every 20 ms:
    the third poll is later than the 50 ms allowed. *)
Lemma unanswered_trigger_times_out_witness :
  let silent := sim (fun n => 20000 * Z.of_nat n) (fun _ => true) in
  (exists s' w',
     Debug.measureDistance 3 (debug_urm37 Idle 0 0) silent =
       Done URM_INVALID_VALUE s' w' /\
     Debug._currentState s' = Idle) /\
  (exists s' w',
     Ports.measureDistance 3 (ports_urm37 true Idle 0 0) silent =
       Done URM_INVALID_VALUE s' w' /\
     Ports._currentState s' = Idle).
Proof.
  intros silent.
  destruct unanswered_trigger_times_out as (D & P).
  assert (Hd : Debug_echoMissing (debug_urm37 Idle 0 0) silent 2).
  { repeat apply conj.
    - intros i Hi. destruct i as [| [| i]];
        [split; vm_compute; discriminate ..| lia].
    - vm_compute; discriminate.
    - reflexivity. }
  assert (Hp : Ports_echoMissing (ports_urm37 true Idle 0 0) silent 2).
  { repeat apply conj.
    - vm_compute; discriminate.
    - intros i Hi. destruct i as [| [| i]];
        [split; vm_compute; discriminate ..| lia].
    - vm_compute; discriminate.
    - reflexivity. }
  split.
  - destruct (D 2%nat 0%nat (debug_urm37 Idle 0 0) silent
                ltac:(vm_compute; discriminate) ltac:(vm_compute; discriminate)
                ltac:(vm_compute; discriminate) ltac:(vm_compute; discriminate)
                ltac:(vm_compute; discriminate) Hd)
      as (s' & w' & Hrun & Hst & _).
    exists s', w'. split; assumption.
  - destruct (P 2%nat 0%nat (ports_urm37 true Idle 0 0) silent eq_refl
                ltac:(vm_compute; discriminate) ltac:(vm_compute; discriminate)
                Hp)
      as (s' & w' & Hrun & Hst & _).
    exists s', w'. split; assumption.
Defined.

(** X14. A pulse that does not end.  When the echo pulse begins in
    time but the poll that comes later than [_maxPulseDuration] after
    its beginning still finds the line active, the synchronous call
    gives up in the same way: [URM_INVALID_VALUE], the handle in
    [Idle], the configuration as it was. *)
Theorem runaway_pulse_is_abandoned :
  (forall k m n s w,
     Debug._trigPin s <> URM_INVALID_PIN ->
     Debug._echoPin s <> URM_INVALID_PIN ->
     Debug._currentState s <> WaitingForPulse ->
     Debug._currentState s <> Measuring ->
     to_ulong (Debug._usPerCm s) <> 0 ->
     Debug_echoRunaway s w k m ->
     exists s' w',
       Debug.measureDistance (k + m + 1 + n) s w =
         Done URM_INVALID_VALUE s' w' /\
       Debug._currentState s' = Idle /\
       Debug.static s' = Debug.static s) /\
  (forall k m n s w,
     Ports._isAttached s = true ->
     Ports._currentState s <> WaitingForPulse ->
     Ports._currentState s <> Measuring ->
     Ports_echoRunaway s w k m ->
     exists s' w',
       Ports.measureDistance (k + m + 1 + n) s w =
         Done URM_INVALID_VALUE s' w' /\
       Ports._currentState s' = Idle /\
       Ports.static s' = Ports.static s).
Proof.
  split.
  - intros k m n s w Htrig Hecho HW HM Hus
      (Hidle & Hbegin & Hact & Hstill & Hlate).
    destruct (Debug_startMeasure_go s w Htrig Hecho HW HM)
      as (w1 & Hstart & Ha1).
    set (s1 := Debug.set_startMeasureTime (clock w 0)
                 (Debug.set_currentDuration 0
                    (Debug.set_currentState WaitingForPulse s))) in *.
    assert (Hready : Debug_ready s) by (repeat split; assumption).
    assert (Hc1 : Debug.static s1 = Debug.static s)
      by (destruct s; reflexivity).
    destruct (Debug_cfg_keeps s s1 Hc1)
      as (Hr1 & Hactive & Hto & Hmax & Hline).
    assert (Hst1 : Debug._startMeasureTime s1 = clock w 0)
      by (destruct s; reflexivity).
    destruct (poll_spin_runaway Debug.refreshState Debug.finished
                Debug._currentState Debug._startMeasureTime
                Debug._echoActiveState Debug._timeoutForPulseStart
                Debug._maxPulseDuration Debug.static Debug_ready
                Debug.echoLine
                Debug_cfg_keeps Debug_echo_later Debug_finished_poll
                Debug_stay_waiting Debug_pulse_begins Debug_stay_measuring
                Debug_pulse_overlong k m n s1 w1)
      as (s' & w' & Hrun & Hc' & Hs').
    + exact (Hr1 Hready).
    + destruct s; reflexivity.
    + split; [| split; [| split; [| split]]].
      * intros i Hi. destruct (Hidle i Hi) as (He & Ht).
        rewrite Hline, Hactive, Hto, Hst1,
          (Debug_echo_later s w w1 0 1 i Ha1),
          (clock_later 0 1 i w w1 Ha1), Nat.add_0_r.
        replace (i + 1)%nat with (1 + i)%nat by lia. split; assumption.
      * rewrite Hline, Hactive, (Debug_echo_later s w w1 0 1 k Ha1),
          Nat.add_0_r.
        exact Hbegin.
      * intros j Hj. destruct (Hact j Hj) as (He & Ht).
        rewrite Hline, Hactive, Hmax, (Debug_echo_later s w w1 0 1 _ Ha1),
          !(clock_later 0 1 _ w w1 Ha1), Nat.add_0_r.
        replace (2 + k + j + 1)%nat with (3 + k + j)%nat by lia.
        replace (1 + k + 1)%nat with (2 + k)%nat by lia.
        split; assumption.
      * rewrite Hline, Hactive, (Debug_echo_later s w w1 0 1 _ Ha1),
          Nat.add_0_r.
        exact Hstill.
      * rewrite Hmax, !(clock_later 0 1 _ w w1 Ha1).
        replace (2 + k + m + 1)%nat with (3 + k + m)%nat by lia.
        replace (1 + k + 1)%nat with (2 + k)%nat by lia.
        exact Hlate.
    + exists s', w'. split; [| split]; [| exact Hs' | congruence].
      exact (Debug_measure_failed _ s s1 s' w w1 w' Hstart Hrun Hs').
  - intros k m n s w Hatt HW HM
      (Hpre & Hidle & Hbegin & Hact & Hstill & Hlate).
    destruct (Ports_startMeasure_go s w Hatt HW HM Hpre)
      as (w1 & Hstart & Ha1).
    set (s1 := Ports.set_startMeasureTime (clock w 0)
                 (Ports.set_currentDuration 0
                    (Ports.set_currentState WaitingForPulse s))) in *.
    assert (Hc1 : Ports.static s1 = Ports.static s)
      by (destruct s; reflexivity).
    destruct (Ports_cfg_keeps s s1 Hc1)
      as (Hr1 & Hactive & Hto & Hmax & Hline).
    assert (Hst1 : Ports._startMeasureTime s1 = clock w 0)
      by (destruct s; reflexivity).
    destruct (poll_spin_runaway Ports.refreshState Ports.finishedMeasure
                Ports._currentState Ports._startMeasureTime
                Ports._echoActiveState Ports._timeoutForPulseStart
                Ports._maxPulseDuration Ports.static
                (fun s => Ports._isAttached s = true) Ports.echoLine
                Ports_cfg_keeps Ports_echo_later Ports_finished_poll
                Ports_stay_waiting Ports_pulse_begins Ports_stay_measuring
                Ports_pulse_overlong k m n s1 w1)
      as (s' & w' & Hrun & Hc' & Hs').
    + exact (Hr1 Hatt).
    + destruct s; reflexivity.
    + split; [| split; [| split; [| split]]].
      * intros i Hi. destruct (Hidle i Hi) as (He & Ht).
        rewrite Hline, Hactive, Hto, Hst1,
          (Ports_echo_later s w w1 1 1 i Ha1),
          (clock_later 1 1 i w w1 Ha1).
        replace (i + 1)%nat with (1 + i)%nat by lia. split; assumption.
      * rewrite Hline, Hactive, (Ports_echo_later s w w1 1 1 k Ha1).
        replace (k + 1)%nat with (1 + k)%nat by lia. exact Hbegin.
      * intros j Hj. destruct (Hact j Hj) as (He & Ht).
        rewrite Hline, Hactive, Hmax, (Ports_echo_later s w w1 1 1 _ Ha1),
          !(clock_later 1 1 _ w w1 Ha1).
        replace (1 + k + j + 1)%nat with (2 + k + j)%nat by lia.
        replace (2 + k + j + 1)%nat with (3 + k + j)%nat by lia.
        replace (1 + k + 1)%nat with (2 + k)%nat by lia.
        split; assumption.
      * rewrite Hline, Hactive, (Ports_echo_later s w w1 1 1 _ Ha1).
        replace (1 + k + m + 1)%nat with (2 + k + m)%nat by lia.
        exact Hstill.
      * rewrite Hmax, !(clock_later 1 1 _ w w1 Ha1).
        replace (2 + k + m + 1)%nat with (3 + k + m)%nat by lia.
        replace (1 + k + 1)%nat with (2 + k)%nat by lia.
        exact Hlate.
    + exists s', w'. split; [| split]; [| exact Hs' | congruence].
      exact (Ports_measure_failed _ s s1 s' w w1 w' Hstart Hrun Hs').
Qed.

(** A URM37 whose echo line goes low at once and stays low, polled
    every 20 ms: the third poll of the pulse is later than the 45 ms
    allowed. *)
Lemma runaway_pulse_is_abandoned_witness :
  let time := fun n => 20000 * Z.of_nat n in
  let stuck_d := sim time (fun _ => false) in
  let stuck_p := sim time (fun n => (n <? 1)%nat) in
  (exists s' w',
     Debug.measureDistance 3 (debug_urm37 Idle 0 0) stuck_d =
       Done URM_INVALID_VALUE s' w' /\
     Debug._currentState s' = Idle) /\
  (exists s' w',
     Ports.measureDistance 3 (ports_urm37 true Idle 0 0) stuck_p =
       Done URM_INVALID_VALUE s' w' /\
     Ports._currentState s' = Idle).
Proof.
  intros time stuck_d stuck_p.
  destruct runaway_pulse_is_abandoned as (D & P).
  assert (Hd : Debug_echoRunaway (debug_urm37 Idle 0 0) stuck_d 0 2).
  { repeat apply conj.
    - intros i Hi. lia.
    - reflexivity.
    - intros j Hj. destruct j as [| [| j]];
        [split; [reflexivity | vm_compute; discriminate] ..| lia].
    - reflexivity.
    - reflexivity. }
  assert (Hp : Ports_echoRunaway (ports_urm37 true Idle 0 0) stuck_p 0 2).
  { repeat apply conj.
    - vm_compute; discriminate.
    - intros i Hi. lia.
    - reflexivity.
    - intros j Hj. destruct j as [| [| j]];
        [split; [reflexivity | vm_compute; discriminate] ..| lia].
    - reflexivity.
    - reflexivity. }
  split.
  - destruct (D 0%nat 2%nat 0%nat (debug_urm37 Idle 0 0) stuck_d
                ltac:(vm_compute; discriminate) ltac:(vm_compute; discriminate)
                ltac:(vm_compute; discriminate) ltac:(vm_compute; discriminate)
                ltac:(vm_compute; discriminate) Hd)
      as (s' & w' & Hrun & Hst & _).
    exists s', w'. split; assumption.
  - destruct (P 0%nat 2%nat 0%nat (ports_urm37 true Idle 0 0) stuck_p eq_refl
                ltac:(vm_compute; discriminate) ltac:(vm_compute; discriminate)
                Hp)
      as (s' & w' & Hrun & Hst & _).
    exists s', w'. split; assumption.
Defined.



(** * The example sketch *)

Ltac exec_sketch :=
  cbv beta iota zeta delta
    [bind ret gets modify act fail micros digitalWrite
     Sketch.millis Sketch.serial Sketch.onSensor
     Sketch.manageSensorStartup Sketch.handleMeasurementResults
     Sketch.managePWM Sketch.updatePWMRate Sketch.loop
     Sketch.set_sensor Sketch.set_lastMeasurementTime
     Sketch.set_receivedDistanceIsActual Sketch.set_lastPWMRateUpdateTime
     Sketch.set_increasingPWMRate Sketch.set_currentPWMRate
     Sketch.set_currentPinState Sketch.set_millis_calls Sketch.set_terminal
     Sketch.sensor Sketch.lastMeasurementTime Sketch.receivedDistanceIsActual
     Sketch.lastPWMRateUpdateTime Sketch.increasingPWMRate
     Sketch.currentPWMRate Sketch.currentPinState Sketch.millis_at
     Sketch.millis_calls Sketch.terminal].

(** [startMeasure] always returns, with the configuration as it was. *)
Lemma Ports_startMeasure_busy (s : Ports.URMSensor) (w : World) :
  Ports._currentState s = WaitingForPulse \/ Ports._currentState s = Measuring ->
  Ports.startMeasure s w = Done tt s w.
Proof.
  intros H. destruct s, w. cbn in H. unfold Ports.startMeasure.
  remember Ports.refreshState as poll eqn:Hpoll.
  exec_ports. destruct H as [-> | ->]; reflexivity.
Qed.

Lemma Ports_startMeasure_unattached (s : Ports.URMSensor) (w : World) :
  Ports._currentState s <> WaitingForPulse ->
  Ports._currentState s <> Measuring ->
  Ports._isAttached s = false ->
  Ports.startMeasure s w = Done tt (Ports.set_currentState Idle s) w.
Proof.
  intros HW HM Ha. apply Z.eqb_neq in HW, HM.
  destruct s, w. cbn in HW, HM, Ha. subst. unfold Ports.startMeasure.
  remember Ports.refreshState as poll eqn:Hpoll.
  exec_ports. rewrite HW, HM. reflexivity.
Qed.

Lemma Ports_startMeasure_total (s : Ports.URMSensor) (w : World) :
  exists s' w',
    Ports.startMeasure s w = Done tt s' w' /\
    Ports.static s' = Ports.static s.
Proof.
  destruct (Z.eq_dec (Ports._currentState s) WaitingForPulse) as [HW | HW];
    [| destruct (Z.eq_dec (Ports._currentState s) Measuring) as [HM | HM]].
  - exists s, w. split; [| reflexivity].
    apply Ports_startMeasure_busy. left. exact HW.
  - exists s, w. split; [| reflexivity].
    apply Ports_startMeasure_busy. right. exact HM.
  - destruct (Ports._isAttached s) eqn:Ha.
    + destruct (Z.eq_dec (Ports.echoLine s w 0) (Ports._echoActiveState s))
        as [He | He].
      * destruct (Ports_startMeasure_echo_active s w Ha HW HM He) as (Hs & _).
        eexists; eexists. split; [exact Hs|]. destruct s; reflexivity.
      * destruct (Ports_startMeasure_go s w Ha HW HM He) as (w1 & Hs & _).
        rewrite Hs.
        destruct (Ports_poll_total
                    (Ports.set_startMeasureTime (clock w 0)
                       (Ports.set_currentDuration 0
                          (Ports.set_currentState WaitingForPulse s))) w1)
          as (s' & w' & Hp & Hc).
        exists s', w'. split; [exact Hp|]. rewrite Hc.
        destruct s; reflexivity.
    + eexists; eexists. split;
        [apply (Ports_startMeasure_unattached s w HW HM Ha)|].
      destruct s; reflexivity.
Qed.

(** [finishedMeasure] always returns, with the configuration as it
    was. *)
Lemma Ports_finishedMeasure_total (s : Ports.URMSensor) (w : World) :
  exists b s' w',
    Ports.finishedMeasure s w = Done b s' w' /\
    Ports.static s' = Ports.static s.
Proof.
  destruct (Ports._isAttached s) eqn:Ha.
  - rewrite (Ports_finishedMeasure_attached s w Ha).
    destruct (Ports_poll_total s w) as (s' & w' & Hp & Hc).
    rewrite Hp. eexists; eexists; eexists. split; [reflexivity | exact Hc].
  - destruct s, w. cbn in Ha. subst. exec_ports.
    eexists; eexists; eexists. split; reflexivity.
Qed.

(** With a scale that is not zero the distance query always answers,
    and changes nothing. *)
Lemma Ports_distance_total (s : Ports.URMSensor) (w : World) :
  to_ulong (Ports._usPerCm s) <> 0 ->
  exists v, Ports.getMeasuredDistance s w = Done v s w.
Proof.
  intros Hus.
  destruct (Z.eq_dec (Ports._currentState s) FinishedMeasure) as [H | H].
  - eexists. apply (Ports_distance_finished s w H Hus).
  - eexists. apply (Ports_distance_invalid s w H).
Qed.

(** ** The four tasks of [loop], one call each *)

Lemma manageSensorStartup_step (sk : Sketch.Sketch) (w : World) :
  exists sk' w',
    Sketch.manageSensorStartup sk w = Done tt sk' w' /\
    Ports.static (Sketch.sensor sk') = Ports.static (Sketch.sensor sk) /\
    Sketch.lastPWMRateUpdateTime sk' = Sketch.lastPWMRateUpdateTime sk /\
    Sketch.increasingPWMRate sk' = Sketch.increasingPWMRate sk /\
    Sketch.currentPWMRate sk' = Sketch.currentPWMRate sk /\
    Sketch.currentPinState sk' = Sketch.currentPinState sk /\
    Sketch.millis_at sk' = Sketch.millis_at sk /\
    Sketch.millis_calls sk' = S (Sketch.millis_calls sk) /\
    Sketch.terminal sk' = Sketch.terminal sk.
Proof.
  destruct (Ports_startMeasure_total (Sketch.sensor sk) w)
    as (s1 & w1 & Hs & Hc).
  destruct sk as [s last flag lastPWM inc rate pin time calls term].
  cbn [Sketch.sensor] in Hs, Hc.
  exec_sketch.
  destruct (to_ulong (to_ulong (time calls) - last) <? 500).
  - eexists; eexists. repeat split.
  - rewrite Hs. eexists; eexists. split; [reflexivity|].
    repeat split. exact Hc.
Qed.

Lemma handleMeasurementResults_step (sk : Sketch.Sketch) (w : World) :
  to_ulong (Ports._usPerCm (Sketch.sensor sk)) <> 0 ->
  exists sk' w',
    Sketch.handleMeasurementResults sk w = Done tt sk' w' /\
    Ports.static (Sketch.sensor sk') = Ports.static (Sketch.sensor sk) /\
    same_lamp sk sk' /\
    ((Sketch.terminal sk' = Sketch.terminal sk /\
      Sketch.receivedDistanceIsActual sk' =
        Sketch.receivedDistanceIsActual sk) \/
     (Sketch.receivedDistanceIsActual sk = true /\
      Sketch.receivedDistanceIsActual sk' = false /\
      report (Sketch.terminal sk) (Sketch.terminal sk'))).
Proof.
  intros Hus.
  destruct (Ports_finishedMeasure_total (Sketch.sensor sk) w)
    as (b & s1 & w1 & Hf & Hc).
  destruct (Ports_static_inv _ _ Hc) as (_ & _ & _ & Hus1 & _).
  destruct (Ports_distance_total s1 w1) as (v & Hd);
    [rewrite Hus1; exact Hus|].
  destruct sk as [s last flag lastPWM inc rate pin time calls term].
  cbn [Sketch.sensor] in Hf, Hc, Hus, Hus1.
  unfold same_lamp, report.
  exec_sketch. rewrite Hf. exec_sketch.
  destruct b, flag; cbn [andb].
  2-4: eexists; eexists; split; [reflexivity|];
       split; [exact Hc|]; split; [repeat split|]; left; split; reflexivity.
  rewrite Hd. exec_sketch.
  destruct (v =? URM_INVALID_VALUE).
  - cbv [Ports.getState gets]. eexists; eexists. split; [reflexivity|].
    split; [exact Hc|]. split; [repeat split|]. right.
    split; [reflexivity|]. split; [reflexivity|].
    eexists; eexists; reflexivity.
  - eexists; eexists. split; [reflexivity|].
    split; [exact Hc|]. split; [repeat split|]. right.
    split; [reflexivity|]. split; [reflexivity|].
    eexists; eexists; reflexivity.
Qed.

Lemma to_int_small (x : Z) : -32768 <= x < 32768 -> to_int x = x.
Proof. intros H. unfold to_int. rewrite Z.mod_small; lia. Qed.

Lemma managePWM_step (sk : Sketch.Sketch) (w : World) :
  Sketch.currentPinState sk = LOW \/ Sketch.currentPinState sk = HIGH ->
  Sketch.MIN_PWM_RATE <= Sketch.currentPWMRate sk <= Sketch.MAX_PWM_RATE ->
  exists sk' w',
    Sketch.managePWM sk w = Done tt sk' w' /\
    Sketch.currentPinState sk' =
      (if to_ulong (micros_at w (micros_calls w)) mod Sketch.PWM_PERIOD_US
          <? Sketch.currentPWMRate sk * (Sketch.PWM_PERIOD_US / 256)
       then HIGH else LOW) /\
    trace w' =
      (if Sketch.currentPinState sk' =? Sketch.currentPinState sk
       then trace w
       else DigitalWrite Sketch.LED (Sketch.currentPinState sk') :: trace w) /\
    micros_calls w' = S (micros_calls w) /\
    micros_at w' = micros_at w /\
    input_reads w' = input_reads w /\ regs w' = regs w /\
    Sketch.sensor sk' = Sketch.sensor sk /\
    Sketch.receivedDistanceIsActual sk' =
      Sketch.receivedDistanceIsActual sk /\
    Sketch.terminal sk' = Sketch.terminal sk /\
    same_lamp (Sketch.set_currentPinState (Sketch.currentPinState sk') sk) sk'.
Proof.
  intros Hpin Hrate.
  destruct sk as [s last flag lastPWM inc rate pin time calls term].
  destruct w as [mat mc iat ir rg tr].
  cbn [Sketch.currentPinState Sketch.currentPWMRate] in Hpin, Hrate.
  unfold Sketch.MIN_PWM_RATE, Sketch.MAX_PWM_RATE in Hrate.
  unfold same_lamp. exec_sketch.
  cbv [tick emit trace micros_calls micros_at input_reads regs].
  change Sketch.PWM_PERIOD_US with 1024.
  change (1024 / 256) with 4.
  assert (Hphase : 0 <= to_ulong (mat mc) mod 1024 < 1024)
    by (apply Z.mod_pos_bound; lia).
  rewrite !to_int_small by lia.
  destruct (to_ulong (mat mc) mod 1024 <? rate * 4) eqn:Hon.
  - replace (to_ulong (mat mc) mod 1024 >=? rate * 4) with false
      by (symmetry; rewrite Z.geb_leb; apply Z.leb_gt; apply Z.ltb_lt; exact Hon).
    cbn [andb].
    destruct Hpin as [-> | ->].
    + eexists; eexists. split; [reflexivity|]. repeat split.
    + eexists; eexists. split; [reflexivity|]. repeat split.
  - replace (to_ulong (mat mc) mod 1024 >=? rate * 4) with true
      by (symmetry; rewrite Z.geb_leb; apply Z.leb_le; apply Z.ltb_ge; exact Hon).
    cbn [andb].
    destruct Hpin as [-> | ->].
    + eexists; eexists. split; [reflexivity|]. repeat split.
    + eexists; eexists. split; [reflexivity|]. repeat split.
Qed.

Ltac ramp_fields :=
  cbn [Sketch.currentPWMRate Sketch.increasingPWMRate
       Sketch.lastPWMRateUpdateTime Sketch.millis_at Sketch.millis_calls
       Sketch.sensor Sketch.lastMeasurementTime
       Sketch.receivedDistanceIsActual Sketch.currentPinState
       Sketch.terminal];
  change Sketch.MAX_PWM_RATE with 255; change Sketch.MIN_PWM_RATE with 0.

Lemma updatePWMRate_step (sk : Sketch.Sketch) (w : World) :
  PWM_ramp sk ->
  let now := to_ulong (Sketch.millis_at sk (Sketch.millis_calls sk)) in
  let due :=
    negb (to_ulong (now - Sketch.lastPWMRateUpdateTime sk)
            <? Sketch.LED_FADE_DELAY) in
  exists sk',
    Sketch.updatePWMRate sk w = Done tt sk' w /\
    PWM_ramp sk' /\
    Sketch.currentPWMRate sk' =
      (if due
       then if Sketch.increasingPWMRate sk
            then Sketch.currentPWMRate sk + 1
            else Sketch.currentPWMRate sk - 1
       else Sketch.currentPWMRate sk) /\
    Sketch.increasingPWMRate sk' =
      (if due
       then if Sketch.increasingPWMRate sk
            then negb (Sketch.currentPWMRate sk' =? Sketch.MAX_PWM_RATE)
            else Sketch.currentPWMRate sk' =? Sketch.MIN_PWM_RATE
       else Sketch.increasingPWMRate sk) /\
    Sketch.lastPWMRateUpdateTime sk' =
      (if due then now else Sketch.lastPWMRateUpdateTime sk) /\
    Sketch.sensor sk' = Sketch.sensor sk /\
    Sketch.lastMeasurementTime sk' = Sketch.lastMeasurementTime sk /\
    Sketch.receivedDistanceIsActual sk' =
      Sketch.receivedDistanceIsActual sk /\
    Sketch.currentPinState sk' = Sketch.currentPinState sk /\
    Sketch.millis_at sk' = Sketch.millis_at sk /\
    Sketch.millis_calls sk' = S (Sketch.millis_calls sk) /\
    Sketch.terminal sk' = Sketch.terminal sk.
Proof.
  intros Hramp now due. subst now due.
  destruct sk as [s last flag lastPWM inc rate pin time calls term].
  revert Hramp. unfold PWM_ramp.
  cbn [Sketch.currentPWMRate Sketch.increasingPWMRate
       Sketch.lastPWMRateUpdateTime Sketch.millis_at Sketch.millis_calls
       Sketch.sensor Sketch.lastMeasurementTime
       Sketch.receivedDistanceIsActual Sketch.currentPinState
       Sketch.terminal].
  unfold Sketch.MIN_PWM_RATE, Sketch.MAX_PWM_RATE.
  intros (Hrate & Hup & Hdown).
  exec_sketch.
  change Sketch.MAX_PWM_RATE with 255. change Sketch.MIN_PWM_RATE with 0.
  destruct (to_ulong (to_ulong (time calls) - lastPWM) <? Sketch.LED_FADE_DELAY);
    cbn [negb].
  - eexists. split; [reflexivity|]. repeat split; tauto.
  - destruct inc.
    + specialize (Hup eq_refl).
      assert (Hb : to_byte (rate + 1) = rate + 1)
        by (unfold to_byte; apply Z.mod_small; lia).
      rewrite Hb.
      destruct (rate + 1 =? 255) eqn:E; cbv beta iota.
      * eexists. split; [reflexivity|]. unfold PWM_ramp. ramp_fields.
        rewrite E. apply Z.eqb_eq in E.
        repeat split; try lia; try discriminate.
      * eexists. split; [reflexivity|]. unfold PWM_ramp. ramp_fields.
        rewrite E. apply Z.eqb_neq in E.
        repeat split; try lia; try discriminate.
    + specialize (Hdown eq_refl).
      assert (Hb : to_byte (rate - 1) = rate - 1)
        by (unfold to_byte; apply Z.mod_small; lia).
      rewrite Hb.
      destruct (rate - 1 =? 0) eqn:E; cbv beta iota.
      * eexists. split; [reflexivity|]. unfold PWM_ramp. ramp_fields.
        rewrite E. apply Z.eqb_eq in E.
        repeat split; try lia; try discriminate.
      * eexists. split; [reflexivity|]. unfold PWM_ramp. ramp_fields.
        rewrite E. apply Z.eqb_neq in E.
        repeat split; try lia; try discriminate.
Qed.

Lemma PWM_ramp_same (sk sk' : Sketch.Sketch) :
  Sketch.currentPWMRate sk' = Sketch.currentPWMRate sk ->
  Sketch.increasingPWMRate sk' = Sketch.increasingPWMRate sk ->
  PWM_ramp sk -> PWM_ramp sk'.
Proof. unfold PWM_ramp. intros -> ->. tauto. Qed.

(** One iteration of [loop]. *)
Lemma loop_step (sk : Sketch.Sketch) (w : World) :
  PWM_ramp sk ->
  Sketch.currentPinState sk = LOW \/ Sketch.currentPinState sk = HIGH ->
  to_ulong (Ports._usPerCm (Sketch.sensor sk)) <> 0 ->
  exists sk' w',
    Sketch.loop sk w = Done tt sk' w' /\
    PWM_ramp sk' /\
    (Sketch.currentPinState sk' = LOW \/ Sketch.currentPinState sk' = HIGH) /\
    Ports.static (Sketch.sensor sk') = Ports.static (Sketch.sensor sk) /\
    Sketch.millis_at sk' = Sketch.millis_at sk /\
    Sketch.millis_calls sk' = S (S (Sketch.millis_calls sk)) /\
    (Sketch.terminal sk' = Sketch.terminal sk \/
     report (Sketch.terminal sk) (Sketch.terminal sk')) /\
    Sketch.currentPWMRate sk - 1 <= Sketch.currentPWMRate sk'
      <= Sketch.currentPWMRate sk + 1.
Proof.
  intros Hramp Hpin Hus.
  destruct (manageSensorStartup_step sk w)
    as (sk1 & w1 & H1 & Hc1 & _ & Hi1 & Hr1 & Hp1 & Ht1 & Hn1 & Hterm1).
  destruct (Ports_static_inv _ _ Hc1) as (_ & _ & _ & Hus1 & _).
  destruct (handleMeasurementResults_step sk1 w1)
    as (sk2 & w2 & H2 & Hc2 & (_ & _ & Hi2 & Hr2 & Hp2 & Ht2 & Hn2) & Hrep);
    [rewrite Hus1; exact Hus|].
  assert (Hramp2 : PWM_ramp sk2).
  { apply (PWM_ramp_same sk); [congruence | congruence | exact Hramp]. }
  destruct (managePWM_step sk2 w2)
    as (sk3 & w3 & H3 & Hp3 & _ & _ & _ & _ & _ & Hs3 & _ & Hterm3
        & (_ & _ & Hi3 & Hr3 & _ & Ht3 & Hn3));
    [rewrite Hp2, Hp1; exact Hpin | exact (proj1 Hramp2) |].
  cbn [Sketch.set_currentPinState Sketch.increasingPWMRate
       Sketch.currentPWMRate Sketch.millis_at Sketch.millis_calls]
    in Hi3, Hr3, Ht3, Hn3.
  assert (Hramp3 : PWM_ramp sk3).
  { apply (PWM_ramp_same sk2); [congruence | congruence | exact Hramp2]. }
  destruct (updatePWMRate_step sk3 w3 Hramp3)
    as (sk4 & H4 & Hramp4 & Hr4 & _ & _ & Hs4 & _ & _ & Hp4 & Ht4 & Hn4
        & Hterm4).
  exists sk4, w3.
  split; [| split; [exact Hramp4 | split; [| split; [| split; [| split;
    [| split]]]]]].
  - unfold Sketch.loop, bind. rewrite H1, H2, H3. exact H4.
  - rewrite Hp4, Hp3.
    match goal with |- context [if ?c then _ else _] => destruct c end;
      [right | left]; reflexivity.
  - rewrite Hs4, Hs3, Hc2. exact Hc1.
  - congruence.
  - rewrite Hn4, Hn3, Hn2, Hn1. reflexivity.
  - destruct Hrep as [(Hsame & _) | (_ & _ & Hrep)].
    + left. congruence.
    + right. rewrite Hterm4, Hterm3, <- Hterm1. exact Hrep.
  - rewrite Hr4, Hr3, Hr2, Hr1.
    repeat match goal with
           | |- context [if ?c then _ else _] => destruct c
           end; lia.
Qed.

(** X16. The fade of the LED never wraps.  While the rate is within
    its bounds, below the maximum when rising and above the minimum
    when falling (as the initialisers leave it), a call of
    [updatePWMRate] that is due moves the rate by exactly one in the
    direction of the flag, reverses the direction exactly at a bound
    and records the time; a call that is not due changes nothing but
    the clock; either way the bounds hold again, so they hold after any
    number of calls, and the hardware is not touched. *)
Theorem updatePWMRate_never_wraps :
  forall n sk w,
    PWM_ramp sk ->
    (let now := to_ulong (Sketch.millis_at sk (Sketch.millis_calls sk)) in
     let due :=
       negb (to_ulong (now - Sketch.lastPWMRateUpdateTime sk)
               <? Sketch.LED_FADE_DELAY) in
     exists sk',
       Sketch.updatePWMRate sk w = Done tt sk' w /\
       Sketch.currentPWMRate sk' =
         (if due
          then if Sketch.increasingPWMRate sk
               then Sketch.currentPWMRate sk + 1
               else Sketch.currentPWMRate sk - 1
          else Sketch.currentPWMRate sk) /\
       Sketch.increasingPWMRate sk' =
         (if due
          then if Sketch.increasingPWMRate sk
               then negb (Sketch.currentPWMRate sk' =? Sketch.MAX_PWM_RATE)
               else Sketch.currentPWMRate sk' =? Sketch.MIN_PWM_RATE
          else Sketch.increasingPWMRate sk) /\
       Sketch.lastPWMRateUpdateTime sk' =
         (if due then now else Sketch.lastPWMRateUpdateTime sk)) /\
    exists sk',
      Sketch.times n Sketch.updatePWMRate sk w = Done tt sk' w /\
      PWM_ramp sk' /\
      Sketch.currentPWMRate sk - Z.of_nat n <= Sketch.currentPWMRate sk'
        <= Sketch.currentPWMRate sk + Z.of_nat n /\
      Sketch.sensor sk' = Sketch.sensor sk /\
      Sketch.currentPinState sk' = Sketch.currentPinState sk /\
      Sketch.terminal sk' = Sketch.terminal sk.
Proof.
  intros n sk w Hramp. split.
  - destruct (updatePWMRate_step sk w Hramp)
      as (sk' & H & _ & Hr & Hi & Hl & _).
    exists sk'. repeat split; assumption.
  - revert sk Hramp. induction n as [| n IH]; intros sk Hramp.
    + exists sk. cbn [Sketch.times]. split; [reflexivity|].
      split; [exact Hramp|]. split; [lia|]. repeat split.
    + destruct (updatePWMRate_step sk w Hramp)
        as (sk1 & H & Hramp1 & Hr & _ & _ & Hs & _ & _ & Hp & _ & _ & Ht).
      destruct (IH sk1 Hramp1) as (sk' & Hrun & Hramp' & Hr' & Hs' & Hp' & Ht').
      exists sk'. cbn [Sketch.times]. unfold bind. rewrite H.
      split; [exact Hrun|]. split; [exact Hramp'|].
      split; [| repeat split; congruence].
      assert (Hone : Sketch.currentPWMRate sk - 1
                       <= Sketch.currentPWMRate sk1
                       <= Sketch.currentPWMRate sk + 1).
      { rewrite Hr.
        repeat match goal with
               | |- context [if ?c then _ else _] => destruct c
               end; lia. }
      lia.
Qed.

(** The sketch as it starts, around a URM37, run for three calls. *)
Lemma updatePWMRate_never_wraps_witness :
  let sk := Sketch.initial (ports_urm37 true Idle 0 0)
              (fun n => 2 * Z.of_nat n) in
  let w := sim (fun _ => 0) (fun _ => true) in
  exists sk',
    Sketch.times 3 Sketch.updatePWMRate sk w = Done tt sk' w /\
    PWM_ramp sk' /\
    Sketch.currentPWMRate sk - 3 <= Sketch.currentPWMRate sk'
      <= Sketch.currentPWMRate sk + 3.
Proof.
  intros sk w.
  assert (Hramp : PWM_ramp sk).
  { unfold PWM_ramp. repeat split; try discriminate; reflexivity. }
  destruct (updatePWMRate_never_wraps 3 sk w Hramp)
    as (_ & sk' & Hrun & Hramp' & Hr & _).
  exists sk'. split; [exact Hrun|]. split; [exact Hramp'|]. exact Hr.
Defined.

(** X17. One report per measurement.  However often
    [handleMeasurementResults] is called (with a scale that is not
    zero, so that the distance query cannot fault), it prints at most
    one report, a text and a number, and only if
    [receivedDistanceIsActual] was set, which it then clears; with the
    flag clear it prints nothing.  The sensor's configuration and the
    other globals are left alone. *)
Theorem handleMeasurementResults_reports_once :
  forall n sk w,
    to_ulong (Ports._usPerCm (Sketch.sensor sk)) <> 0 ->
    exists sk' w',
      Sketch.times n Sketch.handleMeasurementResults sk w = Done tt sk' w' /\
      Ports.static (Sketch.sensor sk') = Ports.static (Sketch.sensor sk) /\
      same_lamp sk sk' /\
      ((Sketch.terminal sk' = Sketch.terminal sk /\
        Sketch.receivedDistanceIsActual sk' =
          Sketch.receivedDistanceIsActual sk) \/
       (Sketch.receivedDistanceIsActual sk = true /\
        Sketch.receivedDistanceIsActual sk' = false /\
        report (Sketch.terminal sk) (Sketch.terminal sk'))).
Proof.
  induction n as [| n IH]; intros sk w Hus.
  - exists sk, w. cbn [Sketch.times]. split; [reflexivity|].
    split; [reflexivity|]. split; [unfold same_lamp; repeat split|].
    left. split; reflexivity.
  - destruct (handleMeasurementResults_step sk w Hus)
      as (sk1 & w1 & H1 & Hc1 & Hl1 & Hrep1).
    destruct (Ports_static_inv _ _ Hc1) as (_ & _ & _ & Hus1 & _).
    destruct (IH sk1 w1) as (sk' & w' & Hrun & Hc' & Hl' & Hrep');
      [rewrite Hus1; exact Hus|].
    exists sk', w'. cbn [Sketch.times]. unfold bind. rewrite H1.
    split; [exact Hrun|]. split; [congruence|]. split.
    + unfold same_lamp in *.
      destruct Hl1 as (A1 & A2 & A3 & A4 & A5 & A6 & A7).
      destruct Hl' as (B1 & B2 & B3 & B4 & B5 & B6 & B7).
      repeat split; congruence.
    + destruct Hrep1 as [(T1 & F1) | (F1 & F1' & R1)];
        destruct Hrep' as [(T2 & F2) | (F2 & F2' & R2)].
      * left. split; congruence.
      * right. split; [congruence|]. split; [exact F2'|].
        rewrite <- T1. exact R2.
      * right. split; [exact F1|]. split; [congruence|].
        rewrite T2. exact R1.
      * congruence.
Qed.

(** A sketch whose sensor has finished a measurement of 3000 us and
    whose flag is set: four calls print the distance once. *)
Lemma handleMeasurementResults_reports_once_witness :
  let sk := Sketch.set_receivedDistanceIsActual true
              (Sketch.initial (ports_urm37 true FinishedMeasure 0 3000)
                 (fun _ => 0)) in
  let w := sim (fun _ => 0) (fun _ => true) in
  exists sk' w',
    Sketch.times 4 Sketch.handleMeasurementResults sk w = Done tt sk' w' /\
    Sketch.terminal sk' =
      [Sketch.Println 60; Sketch.Print Sketch.MeasuredDistance].
Proof.
  intros sk w.
  destruct (handleMeasurementResults_reports_once 4 sk w
              ltac:(vm_compute; discriminate))
    as (sk' & w' & Hrun & _).
  exists sk', w'. split; [exact Hrun|].
  vm_compute in Hrun. injection Hrun as <- _. reflexivity.
Defined.

(** X18. The software PWM.  With the rate within its bounds and the
    pin state [LOW] or [HIGH], [managePWM] leaves the LED on exactly
    when the microsecond clock, taken modulo the period, is below the
    rate times the 256th part of the period; it reads the clock once
    and writes the LED pin only when the level changes, with the new
    level; the sensor, its registers and the terminal are left
    alone. *)
Theorem managePWM_duty_cycle :
  forall sk w,
    Sketch.currentPinState sk = LOW \/ Sketch.currentPinState sk = HIGH ->
    Sketch.MIN_PWM_RATE <= Sketch.currentPWMRate sk <= Sketch.MAX_PWM_RATE ->
    exists sk' w',
      Sketch.managePWM sk w = Done tt sk' w' /\
      Sketch.currentPinState sk' =
        (if to_ulong (micros_at w (micros_calls w)) mod Sketch.PWM_PERIOD_US
            <? Sketch.currentPWMRate sk * (Sketch.PWM_PERIOD_US / 256)
         then HIGH else LOW) /\
      trace w' =
        (if Sketch.currentPinState sk' =? Sketch.currentPinState sk
         then trace w
         else DigitalWrite Sketch.LED (Sketch.currentPinState sk')
                :: trace w) /\
      micros_calls w' = S (micros_calls w) /\
      input_reads w' = input_reads w /\ regs w' = regs w /\
      Sketch.sensor sk' = Sketch.sensor sk /\
      Sketch.currentPWMRate sk' = Sketch.currentPWMRate sk /\
      Sketch.terminal sk' = Sketch.terminal sk.
Proof.
  intros sk w Hpin Hrate.
  destruct (managePWM_step sk w Hpin Hrate)
    as (sk' & w' & H & Hp & Htr & Hmc & _ & Hir & Hrg & Hs & _ & Hterm
        & (_ & _ & _ & Hr & _)).
  exists sk', w'. repeat split; assumption.
Qed.

(** Half brightness, 100 us into the period: the LED is switched on. *)
Lemma managePWM_duty_cycle_witness :
  let sk := Sketch.set_currentPWMRate 128
              (Sketch.initial (ports_urm37 true Idle 0 0) (fun _ => 0)) in
  let w := sim (fun _ => 100) (fun _ => true) in
  exists sk' w',
    Sketch.managePWM sk w = Done tt sk' w' /\
    Sketch.currentPinState sk' = HIGH /\
    trace w' = [DigitalWrite Sketch.LED HIGH].
Proof.
  intros sk w.
  destruct (managePWM_duty_cycle sk w (or_introl eq_refl)
              ltac:(vm_compute; split; discriminate))
    as (sk' & w' & H & Hp & Htr & _).
  exists sk', w'. split; [exact H|]. split; [exact Hp|].
  rewrite Htr, Hp. reflexivity.
Defined.

(** X19. The sketch keeps running.  From globals as the initialisers
    leave them (the rate within its ramp, the pin state [LOW] or
    [HIGH]) and a sensor whose scale is not zero, any number of
    iterations of [loop] complete without a fault; the ramp and the
    pin state are again as required, the sensor's configuration is
    what it was, each iteration reads the millisecond clock twice,
    moves the rate by at most one and prints at most one report. *)
Theorem loop_keeps_running :
  forall n sk w,
    PWM_ramp sk ->
    Sketch.currentPinState sk = LOW \/ Sketch.currentPinState sk = HIGH ->
    to_ulong (Ports._usPerCm (Sketch.sensor sk)) <> 0 ->
    exists sk' w',
      Sketch.times n Sketch.loop sk w = Done tt sk' w' /\
      PWM_ramp sk' /\
      (Sketch.currentPinState sk' = LOW \/
       Sketch.currentPinState sk' = HIGH) /\
      Ports.static (Sketch.sensor sk') = Ports.static (Sketch.sensor sk) /\
      Sketch.millis_calls sk' = (Sketch.millis_calls sk + 2 * n)%nat /\
      Sketch.currentPWMRate sk - Z.of_nat n <= Sketch.currentPWMRate sk'
        <= Sketch.currentPWMRate sk + Z.of_nat n /\
      (length (Sketch.terminal sk')
         <= length (Sketch.terminal sk) + 2 * n)%nat.
Proof.
  induction n as [| n IH]; intros sk w Hramp Hpin Hus.
  - exists sk, w. cbn [Sketch.times]. split; [reflexivity|].
    split; [exact Hramp|]. split; [exact Hpin|]. split; [reflexivity|].
    split; [lia|]. split; lia.
  - destruct (loop_step sk w Hramp Hpin Hus)
      as (sk1 & w1 & H1 & Hramp1 & Hpin1 & Hc1 & Ht1 & Hn1 & Hrep1 & Hr1).
    destruct (Ports_static_inv _ _ Hc1) as (_ & _ & _ & Hus1 & _).
    destruct (IH sk1 w1 Hramp1 Hpin1)
      as (sk' & w' & Hrun & Hramp' & Hpin' & Hc' & Hn' & Hr' & Hlen');
      [rewrite Hus1; exact Hus|].
    exists sk', w'. cbn [Sketch.times]. unfold bind. rewrite H1.
    split; [exact Hrun|]. split; [exact Hramp'|]. split; [exact Hpin'|].
    split; [congruence|]. split; [rewrite Hn', Hn1; lia|].
    split; [lia|].
    assert (Hlen1 : (length (Sketch.terminal sk1)
                       <= length (Sketch.terminal sk) + 2)%nat).
    { destruct Hrep1 as [-> | (a & b & ->)]; cbn [length]; lia. }
    lia.
Qed.

(** The sketch as it starts, around a URM37 that never answers, for
    three iterations. *)
Lemma loop_keeps_running_witness :
  let sk := Sketch.initial (ports_urm37 true Idle 0 0)
              (fun n => 300 * Z.of_nat n) in
  let w := sim (fun n => 20000 * Z.of_nat n) (fun _ => true) in
  exists sk' w',
    Sketch.times 3 Sketch.loop sk w = Done tt sk' w' /\
    PWM_ramp sk' /\
    Sketch.millis_calls sk' = 6%nat.
Proof.
  intros sk w.
  assert (Hramp : PWM_ramp sk).
  { unfold PWM_ramp. repeat split; try discriminate; reflexivity. }
  destruct (loop_keeps_running 3 sk w Hramp (or_introl eq_refl)
              ltac:(vm_compute; discriminate))
    as (sk' & w' & Hrun & Hramp' & _ & _ & Hn & _).
  exists sk', w'. split; [exact Hrun|]. split; [exact Hramp'|]. exact Hn.
Defined.
